(** * amp-matching-engine: the order endpoint, the order and account stores,
      account serialization and the OHLCV bucket arithmetic

    A shallow embedding of the Go sources

      - package [types]:     [Account] with [GetBSON], [SetBSON] and
                             [MarshalJSON], the websocket message types and
                             channel names
      - package [services]:  [AccountService.Create], [OHLCVService.GetOHLCV],
                             [Subscribe], [Unsubscribe], [getGroupTsBson]
      - package [daos]:      [NewOrderDao], [OrderDao.Create], [GetByHash],
                             [GetByUserAddress]
      - package [endpoints]: [orderEndpoint.get], [orderEndpoint.ws] and its
                             three handlers
      - package [mocks]:     the handlers of the test client

    followed by the statements checked against them.  Library code the
    sources call (Go's [time], go-ethereum's [common.Address.Hex], the
    MongoDB driver, the websocket hub) is modelled next to its call sites and
    said to be so in its comment. *)

From Stdlib Require Import ZArith NArith Lia List String Ascii Bool.
From Stdlib Require Import Decimal DecimalString DecimalZ.
From stdpp Require Import gmap strings list fin_maps.

Open Scope Z_scope.

(** ** Go values *)

Module Go.

(** The three ways a Go call ends: a value, a returned [error], a run-time
    panic. *)
Inductive Outcome (A : Type) : Type :=
| Return (a : A)
| Error (msg : string)
| Panic (msg : string).
Arguments Return {A} a.
Arguments Error {A} msg.
Arguments Panic {A} msg.

(** Fixed-width integers are [Z] with the wrap-around written out. *)
Definition uint64 (z : Z) : Z := z mod 2 ^ 64.
Definition int64 (z : Z) : Z := (z + 2 ^ 63) mod 2 ^ 64 - 2 ^ 63.

Definition mul64 (a b : Z) : Z := int64 (a * b).
Definition sub64 (a b : Z) : Z := int64 (a - b).

(** [xs[i]] on a slice: a value, or the bounds-check panic. *)
Definition index {A} (xs : list A) (i : nat) : Outcome A :=
  match nth_error xs i with
  | Some x => Return x
  | None => Panic "index out of range"
  end.

End Go.

(** ** Go's [time] package, as far as [GetOHLCV] uses it

    [Date] and [absDate] follow the standard library's arithmetic on
    absolute days (days counted from 1 January of [absoluteZeroYear]).  A
    [Time] in UTC at midnight is represented by its absolute second count. *)

Module GoTime.
Import Go.

Definition absoluteZeroYear : Z := -292277022399.
Definition daysPer400Years : Z := 365 * 400 + 97.
Definition daysPer100Years : Z := 365 * 100 + 24.
Definition daysPer4Years : Z := 365 * 4 + 1.
Definition secondsPerDay : Z := 86400.

Definition isLeap (year : Z) : bool :=
  (Z.rem year 4 =? 0) && (negb (Z.rem year 100 =? 0) || (Z.rem year 400 =? 0)).

Definition daysBefore : list Z :=
  [0; 31; 31+28; 31+28+31; 31+28+31+30; 31+28+31+30+31; 31+28+31+30+31+30;
   31+28+31+30+31+30+31; 31+28+31+30+31+30+31+31; 31+28+31+30+31+30+31+31+30;
   31+28+31+30+31+30+31+31+30+31; 31+28+31+30+31+30+31+31+30+31+30;
   31+28+31+30+31+30+31+31+30+31+30+31].

Definition daysBeforeAt (i : Z) : Z := nth (Z.to_nat i) daysBefore 0.

(** [norm hi lo base]: carry [lo] into [hi] until [0 <= lo < base]. *)
Definition norm (hi lo base : Z) : Z * Z :=
  let '(hi, lo) :=
    if lo <? 0 then
      let n := Z.quot (- lo - 1) base + 1 in (hi - n, lo + n * base)
    else (hi, lo) in
  if lo >=? base then
    let n := Z.quot lo base in (hi + n, lo - n * base)
  else (hi, lo).

Definition daysSinceEpoch (year : Z) : Z :=
  let y := uint64 (year - absoluteZeroYear) in
  let n := y / 400 in
  let y := y - 400 * n in
  let d := daysPer400Years * n in
  let n := y / 100 in
  let y := y - 100 * n in
  let d := d + daysPer100Years * n in
  let n := y / 4 in
  let y := y - 4 * n in
  let d := d + daysPer4Years * n in
  let n := y in
  d + 365 * n.

(** [time.Date(year, month, day, 0, 0, 0, 0, time.UTC)]. *)
Definition Date (year month day : Z) : Z :=
  let m := month - 1 in
  let '(year, m) := norm year m 12 in
  let month := m + 1 in
  let d := daysSinceEpoch year in
  let d := uint64 (d + uint64 (daysBeforeAt (month - 1))) in
  let d := if isLeap year && (month >=? 3) then uint64 (d + 1) else d in
  let d := uint64 (d + uint64 (day - 1)) in
  uint64 (d * secondsPerDay).

(** The year and the day within the year of an absolute day count: the part
    of [absDate] that runs before its [!full] return. *)
Definition absYearDay (d : Z) : Z * Z :=
  let n := d / daysPer400Years in
  let y := 400 * n in
  let d := d - daysPer400Years * n in
  let n := d / daysPer100Years in
  let n := n - Z.shiftr n 2 in
  let y := y + 100 * n in
  let d := d - daysPer100Years * n in
  let n := d / daysPer4Years in
  let y := y + 4 * n in
  let d := d - daysPer4Years * n in
  let n := d / 365 in
  let n := n - Z.shiftr n 2 in
  let y := y + n in
  let d := d - 365 * n in
  (int64 y + absoluteZeroYear, d).

(** [absDate abs true]: (year, month, day, yday). *)
Definition absDate (abs : Z) : Z * Z * Z * Z :=
  let '(year, yday) := absYearDay (abs / secondsPerDay) in
  let day := yday in
  if isLeap year && (day =? 31 + 29 - 1) then (year, 2, 29, yday) else
  let day := if isLeap year && (day >? 31 + 29 - 1) then day - 1 else day in
  let month := day / 31 in
  let end_ := daysBeforeAt (month + 1) in
  let '(month, begin) :=
    if day >=? end_ then (month + 1, end_) else (month, daysBeforeAt month) in
  let month := month + 1 in
  let day := day - begin + 1 in
  (year, month, day, yday).

Definition Day (t : Z) : Z := let '(_, _, d, _) := absDate t in d.

Definition maxDuration : Z := 2 ^ 63 - 1.
Definition minDuration : Z := - 2 ^ 63.
Definition Second : Z := 1000000000.
Definition Hour : Z := 60 * 60 * Second.

(** Seconds from 1 January of the absolute zero year to 1 January of year
    1, negated: turns an absolute second count into the seconds since year 1
    a [Time] stores. *)
Definition absoluteToInternal : Z := -9223371966579724800.

Definition sec (t : Z) : Z := int64 (t + absoluteToInternal).

(** [t.Sub(u)] in nanoseconds; it saturates instead of wrapping. *)
Definition Sub (t u : Z) : Z :=
  let d := (sec t - sec u) * Second in
  if d >? maxDuration then maxDuration
  else if d <? minDuration then minDuration else d.

(** [int64(d.Hours() / 24)].  [Hours] is a float64; on a whole number of
    hours below 2^53 the float quotient and its truncation are the exact
    ones, which is what is written here. *)
Definition Hours_div24_int64 (d : Z) : Z := Z.quot (Z.quot d Hour) 24.

(** What the sources read off one [time.Now()]: the Unix time in
    nanoseconds and the calendar year and month in the local zone. *)
Record Instant : Type := {
  UnixNano : Z;
  Year : Z;
  Month : Z
}.

(** The wall clock: the [k]-th call of [time.Now()] returns [clock k]. *)
Definition Clock : Type := nat -> Instant.

End GoTime.

(** ** Keccak-256

    The hash go-ethereum's [Address.Hex] uses to pick the case of each hex
    letter.  Lanes are 64-bit words held in [N]; the state is the list of
    its 25 lanes, lane (x, y) at position [x + 5 * y]. *)

Module Keccak.
Local Open Scope N_scope.

Definition lane : Type := N.
Definition mask64 : N := 2 ^ 64 - 1.

Definition rotl64 (x : lane) (n : N) : lane :=
  N.lor (N.land (N.shiftl x n) mask64) (N.shiftr x (64 - n)).

Definition not64 (x : lane) : lane := N.lxor x mask64.

Definition RC : list lane :=
  [0x0000000000000001; 0x0000000000008082; 0x800000000000808A; 0x8000000080008000;
   0x000000000000808B; 0x0000000080000001; 0x8000000080008081; 0x8000000000008009;
   0x000000000000008A; 0x0000000000000088; 0x0000000080008009; 0x000000008000000A;
   0x000000008000808B; 0x800000000000008B; 0x8000000000008089; 0x8000000000008003;
   0x8000000000008002; 0x8000000000000080; 0x000000000000800A; 0x800000008000000A;
   0x8000000080008081; 0x8000000000008080; 0x0000000080000001; 0x8000000080008008].

Definition rotc : list N :=
  [ 0;  1; 62; 28; 27;
   36; 44;  6; 55; 20;
    3; 10; 43; 25; 39;
   41; 45; 15; 21;  8;
   18;  2; 61; 56; 14].

Definition get (st : list lane) (x y : nat) : lane :=
  nth (x mod 5 + 5 * (y mod 5))%nat st 0.

Definition idx5 : list nat := [0; 1; 2; 3; 4]%nat.

Definition table (f : nat -> nat -> lane) : list lane :=
  flat_map (fun y => map (fun x => f x y) idx5) idx5.

Definition theta (st : list lane) : list lane :=
  let C x := fold_right N.lxor 0 (map (fun y => get st x y) idx5) in
  let D x := N.lxor (C (x + 4)%nat) (rotl64 (C (x + 1)%nat) 1) in
  table (fun x y => N.lxor (get st x y) (D x)).

(** The lane that lands on (X, Y) comes from x = (X + 3Y) mod 5, y = X. *)
Definition rho_pi (st : list lane) : list lane :=
  table (fun X Y =>
    let x := ((X + 3 * Y) mod 5)%nat in
    let y := X in
    rotl64 (get st x y) (nth (x + 5 * y)%nat rotc 0)).

Definition chi (st : list lane) : list lane :=
  table (fun x y =>
    N.lxor (get st x y)
      (N.land (not64 (get st (x + 1) y)) (get st (x + 2) y))).

Definition iota (rc : lane) (st : list lane) : list lane :=
  match st with
  | a :: rest => N.lxor a rc :: rest
  | [] => []
  end.

Definition round (st : list lane) (rc : lane) : list lane :=
  iota rc (chi (rho_pi (theta st))).

Definition keccak_f (st : list lane) : list lane := fold_left round RC st.

Definition rate : nat := 136.

Fixpoint le_lane (bs : list N) : lane :=
  match bs with
  | [] => 0
  | b :: r => b + 256 * le_lane r
  end.

Fixpoint lanes_of (n : nat) (bs : list N) : list lane :=
  match n with
  | O => []
  | S k => le_lane (firstn 8 bs) :: lanes_of k (skipn 8 bs)
  end.

Fixpoint bytes_of_lane (n : nat) (l : lane) : list N :=
  match n with
  | O => []
  | S k => (l mod 256) :: bytes_of_lane k (l / 256)
  end.

Definition pad (msg : list N) : list N :=
  let q := (rate - (length msg mod rate))%nat in
  match q with
  | 1%nat => msg ++ [0x81]
  | _ => msg ++ [0x01] ++ repeat 0 (q - 2) ++ [0x80]
  end.

Definition xor_block (st : list lane) (blk : list N) : list lane :=
  let ls := lanes_of 17 blk ++ repeat 0 8 in
  map (fun '(a, b) => N.lxor a b) (combine st ls).

Fixpoint absorb (fuel : nat) (st : list lane) (bs : list N) : list lane :=
  match fuel with
  | O => st
  | S f =>
    match bs with
    | [] => st
    | _ => absorb f (keccak_f (xor_block st (firstn rate bs))) (skipn rate bs)
    end
  end.

Definition Keccak256 (msg : list N) : list N :=
  let p := pad msg in
  let st := absorb (length p) (repeat 0 25) p in
  flat_map (bytes_of_lane 8) (firstn 4 st).

End Keccak.

(** ** go-ethereum's [common] package: addresses and hashes *)

Module common.

(** A 20-byte address, as the big-endian number its bytes spell. *)
Definition Address : Type := N.

(** A 32-byte hash, likewise. *)
Definition Hash : Type := N.

Definition AddressLength : nat := 20.

(** The bytes [a[:]] of an address, most significant first. *)
Definition Address_Bytes (a : Address) : list N :=
  map (fun i => (a / 256 ^ N.of_nat (AddressLength - 1 - i)) mod 256)%N
      (seq 0 AddressLength).

Definition hextable : list ascii := list_ascii_of_string "0123456789abcdef".

Definition hexdigit (n : N) : ascii := nth (N.to_nat n) hextable "0"%char.

(** [hex.EncodeToString]: two lowercase digits per byte. *)
Definition hex_EncodeToString (bs : list N) : list ascii :=
  flat_map (fun b => [hexdigit (b / 16); hexdigit (b mod 16)])%N bs.

(** The loop of [Address.Hex]: character [i] is turned to upper case when it
    is a letter and nibble [i] of the hash is above 7. *)
Fixpoint checksum_case (hash : list N) (i : nat) (result : list ascii) : list ascii :=
  match result with
  | [] => []
  | c :: rest =>
    let hashByte := nth (i / 2) hash 0%N in
    let hashByte :=
      if (i mod 2 =? 0)%nat then N.shiftr hashByte 4 else N.land hashByte 0xf in
    let c' :=
      if ((57 <? N_of_ascii c) && (7 <? hashByte))%N
      then ascii_of_N (N_of_ascii c - 32) else c in
    c' :: checksum_case hash (S i) rest
  end.

(** [Address.Hex]: the EIP-55 mixed-case rendering. *)
Definition Address_Hex (a : Address) : string :=
  let unchecksummed := hex_EncodeToString (Address_Bytes a) in
  let hash := Keccak.Keccak256 (map N_of_ascii unchecksummed) in
  let result := checksum_case hash 0 unchecksummed in
  "0x" ++ string_of_list_ascii result.

(** [Address.MarshalText], which [json.Marshal] uses for an [Address] value:
    [hexutil.Bytes(a[:]).MarshalText()], lowercase with the 0x prefix. *)
Definition Address_MarshalText (a : Address) : string :=
  "0x" ++ string_of_list_ascii (hex_EncodeToString (Address_Bytes a)).

(** A [*big.Int]: the integer it points to, [None] for a [nil] pointer. *)
Definition bigInt : Type := option Z.

(** [big.NewInt]. *)
Definition big_NewInt (x : Z) : bigInt := Some x.

(** [String] of a [*big.Int]: the decimal digits, after a minus sign when
    negative; ["<nil>"] for a [nil] receiver. *)
Definition bigInt_String (x : bigInt) : string :=
  match x with
  | Some z => NilEmpty.string_of_int (Z.to_int z)
  | None => "<nil>"
  end.

(** *** Decoding: [FromHex], [HexToAddress], [IsHexAddress], [SetString] *)

(** [fromHexChar] of [encoding/hex]: the value of a hexadecimal digit of
    either case. *)
Definition fromHexChar (c : ascii) : option N :=
  let n := N_of_ascii c in
  if ((48 <=? n) && (n <=? 57))%N then Some (n - 48)%N
  else if ((97 <=? n) && (n <=? 102))%N then Some (n - 97 + 10)%N
  else if ((65 <=? n) && (n <=? 70))%N then Some (n - 65 + 10)%N
  else None.

(** [Hex2Bytes]: [hex.DecodeString] with its error dropped, which leaves
    the bytes decoded before the first character that is not a digit. *)
Fixpoint Hex2Bytes (s : list ascii) : list N :=
  match s with
  | c1 :: c2 :: rest =>
    match fromHexChar c1, fromHexChar c2 with
    | Some a, Some b => (N.lor (N.shiftl a 4) b) :: Hex2Bytes rest
    | _, _ => []
    end
  | _ => []
  end.

Definition has0xPrefix (s : list ascii) : bool :=
  match s with
  | "0"%char :: "x"%char :: _ => true
  | "0"%char :: "X"%char :: _ => true
  | _ => false
  end.

(** [FromHex]: the 0x prefix is optional and an odd number of digits gets a
    leading zero. *)
Definition FromHex (s : string) : list N :=
  let s := list_ascii_of_string s in
  let s := if has0xPrefix s then skipn 2 s else s in
  let s := if (length s mod 2 =? 1)%nat then "0"%char :: s else s in
  Hex2Bytes s.

(** The number a byte string spells, most significant byte first. *)
Definition BytesToN (bs : list N) : N := fold_left (fun acc b => 256 * acc + b)%N bs 0%N.

(** [BytesToAddress]: the last 20 bytes, right-aligned in the array. *)
Definition BytesToAddress (b : list N) : Address :=
  let b := if (AddressLength <? length b)%nat
           then skipn (length b - AddressLength) b else b in
  BytesToN b.

Definition HexToAddress (s : string) : Address := BytesToAddress (FromHex s).

Definition isHexCharacter (c : ascii) : bool :=
  let n := N_of_ascii c in
  (((48 <=? n) && (n <=? 57)) || ((97 <=? n) && (n <=? 102)) ||
   ((65 <=? n) && (n <=? 70)))%N.

Definition isHex (s : list ascii) : bool :=
  if negb (length s mod 2 =? 0)%nat then false else forallb isHexCharacter s.

(** [IsHexAddress]. *)
Definition IsHexAddress (s : string) : bool :=
  let s := list_ascii_of_string s in
  let s := if has0xPrefix s then skipn 2 s else s in
  (length s =? 2 * AddressLength)%nat && isHex s.

(** [new(big.Int).SetString(s, 10)]: an optional sign and at least one
    decimal digit, nothing else; [None] is the [nil] Go returns on
    failure. *)
Definition bigInt_SetString10 (s : string) : bigInt :=
  let digits (t : string) : bigInt :=
    match t with
    | EmptyString => None
    | _ => option_map Z.of_uint (NilEmpty.uint_of_string t)
    end in
  match s with
  | String "+" t => digits t
  | String "-" t => option_map Z.opp (digits t)
  | _ => digits s
  end.

End common.

(** ** Package [types] *)

Module bson.

(** A 12-byte [bson.ObjectId], as the number its bytes spell. *)
Definition ObjectId : Type := N.

(** [ObjectId.Hex]: 24 lowercase hex digits. *)
Definition ObjectId_Hex (id : ObjectId) : string :=
  string_of_list_ascii
    (common.hex_EncodeToString
       (map (fun i => (id / 256 ^ N.of_nat (11 - i)) mod 256)%N (seq 0 12))).

End bson.

Module types.
Import common.

(** A [time.Time] stored in a record: its Unix time in nanoseconds.  The
    zero [Time] is written [zeroTime]. *)
Definition Time : Type := Z.
Definition zeroTime : Time := 0.

(** *** [types/account.go] *)

(** [TokenBalance].  Each of the three [*big.Int] fields is the integer it
    points to, or [None] for a [nil] pointer, which is what [SetBSON] leaves
    for a string it cannot read. *)
Module TokenBalance.
Record t : Type := mk {
  ID : bson.ObjectId;
  Address : common.Address;
  Symbol : string;
  Balance : bigInt;
  Allowance : bigInt;
  LockedBalance : bigInt
}.
End TokenBalance.

(** [Account].  [TokenBalances] maps an address to the [TokenBalance] its
    pointer leads to: every writer of the map in the sources stores the
    address of a fresh [TokenBalance]. *)
Module Account.
Record t : Type := mk {
  ID : bson.ObjectId;
  Address : common.Address;
  TokenBalances : gmap N TokenBalance.t;
  IsBlocked : bool;
  CreatedAt : Time;
  UpdatedAt : Time
}.
End Account.

(** What is stored in the DB: big integers and addresses are strings. *)
Module TokenBalanceRecord.
Record t : Type := mk {
  ID : bson.ObjectId;
  Address : string;
  Symbol : string;
  Balance : string;
  Allowance : string;
  LockedBalance : string
}.
End TokenBalanceRecord.

Module AccountRecord.
Record t : Type := mk {
  ID : bson.ObjectId;
  Address : string;
  TokenBalances : gmap string TokenBalanceRecord.t;
  IsBlocked : bool;
  CreatedAt : Time;
  UpdatedAt : Time
}.
End AccountRecord.

(** One iteration of the loop of [GetBSON]. *)
Definition GetBSON_entry (kv : N * TokenBalance.t) : string * TokenBalanceRecord.t :=
  let '(key, value) := kv in
  (Address_Hex key,
   {| TokenBalanceRecord.ID := TokenBalance.ID value;
      TokenBalanceRecord.Address := Address_Hex (TokenBalance.Address value);
      TokenBalanceRecord.Symbol := TokenBalance.Symbol value;
      TokenBalanceRecord.Balance := bigInt_String (TokenBalance.Balance value);
      TokenBalanceRecord.Allowance := bigInt_String (TokenBalance.Allowance value);
      TokenBalanceRecord.LockedBalance :=
        bigInt_String (TokenBalance.LockedBalance value) |}).

(** [Account.GetBSON].  The returned [AccountRecord] literal names three
    fields; the other three keep their zero values. *)
Definition GetBSON (a : Account.t) : AccountRecord.t :=
  let tokenBalances : gmap string TokenBalanceRecord.t :=
    list_to_map (GetBSON_entry <$> map_to_list (Account.TokenBalances a)) in
  {| AccountRecord.ID := Account.ID a;
     AccountRecord.Address := Address_Hex (Account.Address a);
     AccountRecord.TokenBalances := tokenBalances;
     AccountRecord.IsBlocked := false;
     AccountRecord.CreatedAt := zeroTime;
     AccountRecord.UpdatedAt := zeroTime |}.

(** The value [MarshalJSON] hands to [json.Marshal]: one JSON object per
    token balance, all members strings. *)
Module TokenBalanceJSON.
Record t : Type := mk {
  id : string;
  address : string;
  symbol : string;
  balance : string;
  allowance : string;
  lockedBalance : string
}.
End TokenBalanceJSON.

(** The account object.  ["id"] and ["address"] are given to [json.Marshal]
    as an [ObjectId] and an [Address]; their members here are the strings
    the marshalers of these two types produce. *)
Module AccountJSON.
Record t : Type := mk {
  id : string;
  address : string;
  isBlocked : bool;
  createdAt : string;
  updatedAt : string;
  tokenBalances : gmap string TokenBalanceJSON.t
}.
End AccountJSON.

Definition MarshalJSON_entry (kv : N * TokenBalance.t) : string * TokenBalanceJSON.t :=
  let '(address, balance) := kv in
  (Address_Hex address,
   {| TokenBalanceJSON.id := bson.ObjectId_Hex (TokenBalance.ID balance);
      TokenBalanceJSON.address := Address_Hex (TokenBalance.Address balance);
      TokenBalanceJSON.symbol := TokenBalance.Symbol balance;
      TokenBalanceJSON.balance := bigInt_String (TokenBalance.Balance balance);
      TokenBalanceJSON.allowance := bigInt_String (TokenBalance.Allowance balance);
      TokenBalanceJSON.lockedBalance :=
        bigInt_String (TokenBalance.LockedBalance balance) |}).

Section MarshalJSON.
  (** [time.Time.String], a formatting function of the standard library. *)
Variable Time_String : Time -> string.

  (** [Account.MarshalJSON]. *)
Definition MarshalJSON (a : Account.t) : AccountJSON.t :=
    {| AccountJSON.id := bson.ObjectId_Hex (Account.ID a);
       AccountJSON.address := Address_MarshalText (Account.Address a);
       AccountJSON.isBlocked := Account.IsBlocked a;
       AccountJSON.createdAt := Time_String (Account.CreatedAt a);
       AccountJSON.updatedAt := Time_String (Account.UpdatedAt a);
       AccountJSON.tokenBalances :=
         list_to_map (MarshalJSON_entry <$> map_to_list (Account.TokenBalances a)) |}.
End MarshalJSON.

(** *** [types/websocket.go] *)

Definition TradeChannel : string := "trades".
Definition OrderbookChannel : string := "order_book".
Definition OrderChannel : string := "orders".
Definition OHLCVChannel : string := "ohlcv".

(** [WebSocketPayload]; [Data] is the type of the weakly-typed [data]
    member ([interface{}]). *)
Module WebSocketPayload.
Record t (Data : Type) : Type := mk {
  Type_ : string;
  Hash : string;
  Data_ : Data
}.
Arguments mk {Data} _ _ _.
Arguments Type_ {Data} _.
Arguments Hash {Data} _.
Arguments Data_ {Data} _.
End WebSocketPayload.

(** [PairSubDoc]. *)
Module PairSubDoc.
Record t : Type := mk {
  BaseToken : common.Address;
  QuoteToken : common.Address
}.
End PairSubDoc.

(** Modelled from the spec: [types.Token] ([types/token.go] is not among the
    sources); the three fields [AccountService.Create] reads. *)
Module Token.
Record t : Type := mk {
  ID : bson.ObjectId;
  Symbol : string;
  ContractAddress : common.Address
}.
End Token.

(** Modelled from the spec: [types.Order] ([types/order.go] is not among the
    sources).  Section 3 of the specification lists its attributes; the
    fields below are the ones the sources read or write, and the trading
    terms the hash is computed over. *)
Module Order.
Record t : Type := mk {
  ID : bson.ObjectId;
  UserAddress : common.Address;
  ExchangeAddress : common.Address;
  BuyToken : common.Address;
  SellToken : common.Address;
  BuyAmount : Z;
  SellAmount : Z;
  Nonce : Z;
  Expires : Z;
  Hash : common.Hash;
  Status : string;
  FilledAmount : Z;
  CreatedAt : Time;
  UpdatedAt : Time
}.

(** The zero value [types.Order{}]. *)
Definition zero : t :=
  mk 0%N 0%N 0%N 0%N 0%N 0 0 0 0 0%N "" 0 zeroTime zeroTime.

Definition with_Hash (o : t) (h : common.Hash) : t :=
  mk (ID o) (UserAddress o) (ExchangeAddress o) (BuyToken o) (SellToken o)
     (BuyAmount o) (SellAmount o) (Nonce o) (Expires o) h (Status o)
     (FilledAmount o) (CreatedAt o) (UpdatedAt o).
End Order.

(** Modelled from the spec: [types.OrderCancel] ([types/order_cancel.go] is
    not among the sources): the hash of the order to cancel and the hash of
    the cancel request itself. *)
Module OrderCancel.
Record t : Type := mk {
  OrderHash : common.Hash;
  Hash : common.Hash
}.
Definition zero : t := mk 0%N 0%N.
End OrderCancel.

(** *** [Account.SetBSON] *)

(** One iteration of the loop of [SetBSON]; [SetString] leaves a [nil]
    pointer for a string that is not a decimal numeral. *)
Definition SetBSON_entry (kv : string * TokenBalanceRecord.t) : N * TokenBalance.t :=
  let '(key, value) := kv in
  (HexToAddress key,
   {| TokenBalance.ID := TokenBalanceRecord.ID value;
      TokenBalance.Address := HexToAddress (TokenBalanceRecord.Address value);
      TokenBalance.Symbol := TokenBalanceRecord.Symbol value;
      TokenBalance.Balance := bigInt_SetString10 (TokenBalanceRecord.Balance value);
      TokenBalance.Allowance := bigInt_SetString10 (TokenBalanceRecord.Allowance value);
      TokenBalance.LockedBalance :=
        bigInt_SetString10 (TokenBalanceRecord.LockedBalance value) |}).

Section SetBSON.
(** [raw.Unmarshal(decoded)] of the BSON driver: the record as the call
    leaves it, and the error. *)
Variable Raw : Type.
Variable bson_Unmarshal : Raw -> AccountRecord.t * option string.

(** [Account.SetBSON]: the receiver as the call leaves it, and the returned
    error.  Go visits the keys of [decoded.TokenBalances] in no fixed order;
    when two of them decode to the same address the entry of the first one
    in the order of the map is the one kept here. *)
Definition SetBSON (raw : Raw) (a : Account.t) : Account.t * option string :=
  let '(decoded, err) := bson_Unmarshal raw in
  match err with
  | Some e => (a, Some e)
  | None =>
    ({| Account.ID := AccountRecord.ID decoded;
        Account.Address := HexToAddress (AccountRecord.Address decoded);
        Account.TokenBalances :=
          list_to_map (SetBSON_entry <$> map_to_list (AccountRecord.TokenBalances decoded));
        Account.IsBlocked := AccountRecord.IsBlocked decoded;
        Account.CreatedAt := AccountRecord.CreatedAt decoded;
        Account.UpdatedAt := AccountRecord.UpdatedAt decoded |}, None)
  end.
End SetBSON.

(** [Params], the parameters of a subscription message. *)
Module Params.
Record t : Type := mk {
  From : Z;
  To : Z;
  Duration : Z;
  Units : string;
  TickID : string
}.
End Params.

End types.

(** ** Package [daos]: the order store *)

Module daos.
Import types.

(** Modelled from the spec: the MongoDB collection ["orders"] and the two
    driver calls [OrderDao] makes on it through the package's [db] helper,
    which is not among the sources.  A collection is its documents in
    insertion order and the flag of the unique index on ["hash"]; the index
    on ["_id"] always exists. *)
Module Collection.
Record t : Type := mk {
  docs : list Order.t;
  uniqueHash : bool
}.
Definition empty : t := mk [] false.
End Collection.

Definition has_id (id : bson.ObjectId) (ds : list Order.t) : bool :=
  existsb (fun d => (Order.ID d =? id)%N) ds.

Definition has_hash (h : common.Hash) (ds : list Order.t) : bool :=
  existsb (fun d => (Order.Hash d =? h)%N) ds.

Fixpoint distinct_hashes (ds : list Order.t) : bool :=
  match ds with
  | [] => true
  | d :: rest => negb (has_hash (Order.Hash d) rest) && distinct_hashes rest
  end.

Definition duplicateKey : string := "E11000 duplicate key error".

(** Modelled from the spec: [Collection.EnsureIndex] with [Key: hash] and
    [Unique: true].  Building a unique index over documents that already
    share a key fails. *)
Definition EnsureIndex_hash (c : Collection.t) : option string * Collection.t :=
  if distinct_hashes (Collection.docs c)
  then (None, Collection.mk (Collection.docs c) true)
  else (Some duplicateKey, c).

(** Modelled from the spec: [db.Create], one [Insert].  The insert is
    refused when a unique index already holds the key of the document. *)
Definition db_Create (order : Order.t) (c : Collection.t) : option string * Collection.t :=
  if has_id (Order.ID order) (Collection.docs c) then (Some duplicateKey, c)
  else if Collection.uniqueHash c && has_hash (Order.Hash order) (Collection.docs c)
  then (Some duplicateKey, c)
  else (None, Collection.mk (Collection.docs c ++ [order]) (Collection.uniqueHash c)).

(** What the DAO acts on: the collection, the number of [time.Now()] calls
    made so far and the number of object ids handed out so far. *)
Module World.
Record t : Type := mk {
  orders : Collection.t;
  reads : nat;
  ids : nat
}.
End World.

Module OrderDao.
Record t : Type := mk {
  collectionName : string;
  dbName : string
}.
End OrderDao.

Section OrderDao.
  (** [app.Config.DBName]. *)
Variable Config_DBName : string.
  (** The wall clock. *)
Variable clock : GoTime.Clock.
  (** [bson.NewObjectId]: the [k]-th call returns [objectId k]. *)
Variable objectId : nat -> bson.ObjectId.

Definition time_Now (w : World.t) : Time * World.t :=
    (GoTime.UnixNano (clock (World.reads w)),
     World.mk (World.orders w) (S (World.reads w)) (World.ids w)).

Definition NewObjectId (w : World.t) : bson.ObjectId * World.t :=
    (objectId (World.ids w),
     World.mk (World.orders w) (World.reads w) (S (World.ids w))).

  (** [NewOrderDao]: a failing [EnsureIndex] panics. *)
Definition NewOrderDao (w : World.t) : Go.Outcome (OrderDao.t * World.t) :=
    let dbName := Config_DBName in
    let collection := "orders" in
    match EnsureIndex_hash (World.orders w) with
    | (Some err, _) => Go.Panic err
    | (None, c) =>
      Go.Return (OrderDao.mk collection dbName,
                 World.mk c (World.reads w) (World.ids w))
    end.

  (** [OrderDao.Create].  The order is passed by pointer: the result carries
      the order as the call leaves it, next to the returned error. *)
Definition Create (dao : OrderDao.t) (order : Order.t) (w : World.t)
    : (Order.t * option string) * World.t :=
    let '(id, w) := NewObjectId w in
    let '(createdAt, w) := time_Now w in
    let '(updatedAt, w) := time_Now w in
    let order :=
      Order.mk id (Order.UserAddress order) (Order.ExchangeAddress order)
        (Order.BuyToken order) (Order.SellToken order) (Order.BuyAmount order)
        (Order.SellAmount order) (Order.Nonce order) (Order.Expires order)
        (Order.Hash order) "NEW" (Order.FilledAmount order) createdAt updatedAt in
    match db_Create order (World.orders w) with
    | (Some err, _) => ((order, Some err), w)
    | (None, c) => ((order, None), World.mk c (World.reads w) (World.ids w))
    end.

  (** A run of [Create] calls, one per order of the list. *)
Definition Create_all (dao : OrderDao.t) (os : list Order.t) (w : World.t) : World.t :=
    fold_left (fun w o => snd (Create dao o w)) os w.
End OrderDao.

(** *** Reading the order store *)

(** Modelled from the spec: [db.Get], that is
    [Find(query).Skip(offset).Limit(limit).All(&response)]: the documents
    that match, in insertion order; a limit of 0 is no limit.  A query is
    the test it puts to a document. *)
Definition db_Get (query : Order.t -> bool) (offset limit : nat) (c : Collection.t)
  : list Order.t * option string :=
  let found := skipn offset (List.filter query (Collection.docs c)) in
  ((if (limit =? 0)%nat then found else firstn limit found), None).

(** [OrderDao.GetByHash]: the query [{"hash": hash.Hex()}], at most one
    document. *)
Definition GetByHash (dao : OrderDao.t) (hash : common.Hash) (w : World.t)
  : option Order.t * option string :=
  let q := fun d => (Order.Hash d =? hash)%N in
  let '(resp, err) := db_Get q 0 1 (World.orders w) in
  match err, resp with
  | Some e, _ => (None, Some e)
  | None, [] => (None, None)
  | None, first :: _ => (Some first, None)
  end.

(** [OrderDao.GetByUserAddress]: the query [{"userAddress": addr.Hex()}],
    every document. *)
Definition GetByUserAddress (dao : OrderDao.t) (addr : common.Address) (w : World.t)
  : list Order.t * option string :=
  let q := fun d => (Order.UserAddress d =? addr)%N in
  db_Get q 0 0 (World.orders w).

End daos.

(** ** Package [services] *)

Module services.
Import types.

(** *** [AccountService] *)

Section AccountService.
  (** The account and token DAOs are not among the sources: the service is
      embedded over the three calls it makes on them.  [Store] is whatever
      they keep; a call returns its Go results, a write also the store it
      leaves. *)
Variable Store : Type.
Variable AccountDao_GetByAddress :
    common.Address -> Store -> option Account.t * option string.
Variable TokenDao_GetAll : Store -> list Token.t * option string.
Variable AccountDao_Create : Account.t -> Store -> option string * Store.

  (** The body of the [for ... range tokens] loop. *)
Definition add_token_balance (balances : gmap N TokenBalance.t) (token : Token.t)
    : gmap N TokenBalance.t :=
    <[ Token.ContractAddress token :=
         {| TokenBalance.ID := Token.ID token;
            TokenBalance.Address := Token.ContractAddress token;
            TokenBalance.Symbol := Token.Symbol token;
            TokenBalance.Balance := common.big_NewInt 100000;
            TokenBalance.Allowance := common.big_NewInt 100000;
            TokenBalance.LockedBalance := common.big_NewInt 0 |} ]> balances.

  (** [AccountService.Create]: the returned error and the store it leaves. *)
Definition Create (account : Account.t) (st : Store) : option string * Store :=
    let addr := Account.Address account in
    let '(acc, err) := AccountDao_GetByAddress addr st in
    (* what follows the first [if err != nil && ...] *)
    let rest :=
      match acc with
      | Some _ => (Some "ACCOUNT_ALREADY_EXISTS", st)
      | None =>
        let '(tokens, err) := TokenDao_GetAll st in
        match err with
        | Some msg => (Some msg, st)
        | None =>
          let account :=
            Account.mk (Account.ID account) (Account.Address account)
              (fold_left add_token_balance tokens ∅) false
              (Account.CreatedAt account) (Account.UpdatedAt account) in
          AccountDao_Create account st
        end
      end in
    match err with
    | Some msg => if String.eqb msg "NO_ACCOUNT_FOUND" then rest else (Some msg, st)
    | None => rest
    end.
End AccountService.

(** *** [OHLCVService] *)

(** The [$match] stage on [createdAt], times in Unix seconds. *)
Inductive Match : Type :=
| MatchAll
| MatchLt (lt : Z)
| MatchRange (gte lt : Z).

(** The aggregation pipeline [GetOHLCV] sends: the time window, the
    [$or] over the pairs when there are pairs, and the unit and duration
    [getGroupTsBson] groups by (none for the empty unit). *)
Module Query.
Record t : Type := mk {
  createdAt : Match;
  or : option (list (string * string));
  groupBy : option (string * Z)
}.
End Query.

(** What the [switch unit] leaves in [intervalSeconds], [modTime] and
    [group["_id"]]. *)
Module Bucket.
Record t : Type := mk {
  intervalSeconds : Z;
  modTime : Z;
  groupBy : option (string * Z)
}.
End Bucket.

Section OHLCVService.
Import Go GoTime.

  (** [int64(math.Mod(float64(a), float64(b)))], float64 arithmetic of the
      standard library. *)
Variable math_Mod_int64 : Z -> Z -> Z.
  (** The wall clock. *)
Variable clock : Clock.
  (** [tradeDao.Aggregate], and the JSON round trip that turns its answer
      into ticks: the answer and the error of [json.Marshal]. *)
Variable Tick : Type.
Variable AggregateResp : Type.
Variable TradeDao_Aggregate : Query.t -> AggregateResp * option string.
Variable json_Ticks : AggregateResp -> list Tick * option string.

  (** [currentTs - int64(math.Mod(float64(currentTs), float64(intervalSeconds)))] *)
Definition modTime_of (currentTs intervalSeconds : Z) : Z :=
    sub64 currentTs (math_Mod_int64 currentTs intervalSeconds).

  (** The [switch unit] of [GetOHLCV]; [None] is its [default] case.
      [reads] is the number of [time.Now()] calls made before this one:
      [currentTs] takes the next reading, the month and year cases two
      more, in the order Go evaluates the operands. *)
Definition bucket (unit : string) (duration : Z) (reads : nat) : option Bucket.t :=
    let currentTs := Z.quot (UnixNano (clock reads)) Second in
    let finish (intervalSeconds : Z) :=
      Some (Bucket.mk intervalSeconds (modTime_of currentTs intervalSeconds)
                      (Some (unit, duration))) in
    if String.eqb unit "sec" then finish duration
    else if String.eqb unit "hour" then finish (mul64 (mul64 duration 60) 60)
    else if String.eqb unit "day" then finish (mul64 (mul64 (mul64 duration 24) 60) 60)
    else if String.eqb unit "week" then
      finish (mul64 (mul64 (mul64 (mul64 duration 7) 24) 60) 60)
    else if String.eqb unit "month" then
      let year := Year (clock (reads + 1)%nat) in
      let month := Month (clock (reads + 2)%nat) in
      let d := Day (Date year (int64 (month + 1)) 0) in
      finish (mul64 (mul64 (mul64 (mul64 (mul64 duration (int64 d)) 7) 24) 60) 60)
    else if String.eqb unit "yr" then
      let year1 := Year (clock (reads + 1)%nat) in
      let year2 := Year (clock (reads + 2)%nat) in
      let d := Hours_div24_int64 (Sub (Date (int64 (year1 + 1)) 0 0) (Date year2 0 0)) in
      finish (mul64 (mul64 (mul64 (mul64 (mul64 duration (int64 d)) 7) 24) 60) 60)
    else if String.eqb unit "" then Some (Bucket.mk 0 0 None)
    else if String.eqb unit "min" then finish (mul64 duration 60)
    else None.

  (** The [if len(timeInterval) == 0 ... else if len(timeInterval) >= 1]
      that builds the time window. *)
Definition window (b : Bucket.t) (timeInterval : list Z) : Outcome Match :=
    let lt := Bucket.modTime b in
    if (length timeInterval =? 0)%nat then Return (MatchLt lt)
    else if (1 <=? length timeInterval)%nat then
      match index timeInterval 1 with
      | Return lt =>
        match index timeInterval 0 with
        | Return gt => Return (MatchRange gt lt)
        | Error e => Error e
        | Panic p => Panic p
        end
      | Error e => Error e
      | Panic p => Panic p
      end
    else Return MatchAll.

  (** [OHLCVService.GetOHLCV]. *)
Definition GetOHLCV (pairs : list PairSubDoc.t) (duration : Z) (unit : string)
      (timeInterval : list Z) (reads : nat) : Outcome (list Tick) :=
    match bucket unit duration reads with
    | None => Error "Invalid unit"
    | Some b =>
      match window b timeInterval with
      | Panic p => Panic p
      | Error e => Error e
      | Return m =>
        let or :=
          if (1 <=? length pairs)%nat then
            Some (map (fun pair =>
                         (common.Address_Hex (PairSubDoc.BaseToken pair),
                          common.Address_Hex (PairSubDoc.QuoteToken pair))) pairs)
          else None in
        let query := Query.mk m or (Bucket.groupBy b) in
        let '(aggregateResp, err) := TradeDao_Aggregate query in
        match err with
        | Some e => Error e
        | None =>
          let '(resp, err) := json_Ticks aggregateResp in
          match err with
          | Some e => Error e
          | None => Return resp
          end
        end
      end
    end.
End OHLCVService.

(** *** [getGroupTsBson] *)

(** The BSON values the aggregation stages are built from.  A [bson.M] is
    the list of its members; the keys of each literal of the source are
    distinct. *)
#[warnings="-register-all"] Inductive Bson : Type :=
| BString (s : string)
| BInt (n : Z)
| BTime (t : Time)
| BArray (items : list Bson)
| BDoc (members : list (string * Bson)).

(** [m[key] = value] on a [bson.M]. *)
Fixpoint M_set (key : string) (value : Bson) (m : list (string * Bson))
  : list (string * Bson) :=
  match m with
  | [] => [(key, value)]
  | (k, v) :: rest =>
    if String.eqb k key then (k, value) :: rest else (k, v) :: M_set key value rest
  end.

(** [bson.M{op: d}], for instance [bson.M{"$year": d}]. *)
Definition op (name : string) (d : Bson) : Bson := BDoc [(name, d)].

(** [bson.M{"$subtract": [{op: d}, {"$mod": [{op: d}, duration]}]}]: the
    field [op] extracts, rounded down to a multiple of [duration]. *)
Definition rounded (name : string) (d : Bson) (duration : Z) : Bson :=
  BDoc [("$subtract",
         BArray [op name d; BDoc [("$mod", BArray [op name d; BInt duration])]])].

(** [bson.M{"$addFields": {"ts": {"$subtract": [{"$dateFromParts": parts}, t]}}}]. *)
Definition addFields_ts (parts : list (string * Bson)) (t : Bson) : list (string * Bson) :=
  [("$addFields",
    BDoc [("ts", BDoc [("$subtract", BArray [BDoc [("$dateFromParts", BDoc parts)]; t])])])].

Section getGroupTsBson.
Variable clock : GoTime.Clock.

(** [getGroupTsBson].  Both results are named and start [nil]; the three
    assignments at the end write into [resp], and writing into a [nil] map
    panics. *)
Definition getGroupTsBson (key units : string) (duration : Z) (reads : nat)
  : Go.Outcome (list (string * Bson) * option (list (string * Bson))) :=
  let t := BTime 0 in
  let d := if String.eqb key "now" then BTime (GoTime.UnixNano (clock reads))
           else BString key in
  let '(resp, addFields) :=
    if String.eqb units "sec" then
      (Some [("year", op "$year" d); ("day", op "$dayOfMonth" d);
             ("month", op "$month" d); ("hour", op "$hour" d);
             ("minute", op "$minute" d); ("second", rounded "$second" d duration)],
       Some (addFields_ts
               [("year", BString "$_id.year"); ("month", BString "$_id.month");
                ("day", BString "$_id.day"); ("hour", BString "$_id.hour");
                ("minute", BString "$_id.minute"); ("second", BString "$_id.second")] t))
    else if String.eqb units "min" then
      (Some [("year", op "$year" d); ("day", op "$dayOfMonth" d);
             ("month", op "$month" d); ("hour", op "$hour" d);
             ("minute", rounded "$minute" d duration)],
       Some (addFields_ts
               [("year", BString "$_id.year"); ("month", BString "$_id.month");
                ("day", BString "$_id.day"); ("hour", BString "$_id.hour");
                ("minute", BString "$_id.minute")] t))
    else if String.eqb units "hour" then
      (Some [("year", op "$year" d); ("day", op "$dayOfMonth" d);
             ("month", op "$month" d); ("hour", rounded "$hour" d duration)],
       Some (addFields_ts
               [("year", BString "$_id.year"); ("month", BString "$_id.month");
                ("day", BString "$_id.day"); ("hour", BString "$_id.hour")] t))
    else if String.eqb units "day" then
      (Some [("year", op "$year" d); ("month", op "$month" d);
             ("day", rounded "$dayOfMonth" d duration)],
       Some (addFields_ts
               [("year", BString "$_id.year"); ("month", BString "$_id.month");
                ("day", BString "$_id.day")] t))
    else if String.eqb units "week" then
      (Some [("year", op "$year" d); ("isoWeek", rounded "$isoWeek" d duration)],
       Some (addFields_ts
               [("year", BString "$_id.year"); ("isoWeek", BString "$_id.isoWeek")] t))
    else if String.eqb units "month" then
      (Some [("year", op "$year" d); ("month", rounded "$month" d duration)],
       Some (addFields_ts
               [("year", BString "$_id.year"); ("month", BString "$_id.month")] t))
    else if String.eqb units "yr" then
      (Some [("year", rounded "$year" d duration)],
       Some (addFields_ts [("year", BString "$_id.year")] t))
    else (None, None) in
  match resp with
  | None => Go.Panic "assignment to entry in nil map"
  | Some resp =>
    let resp := M_set "pair" (BString "$pairName") resp in
    let resp := M_set "baseToken" (BString "$baseToken") resp in
    let resp := M_set "quoteToken" (BString "$quoteToken") resp in
    Go.Return (resp, addFields)
  end.
End getGroupTsBson.

(** *** [OHLCVService.Subscribe] and [Unsubscribe] *)

(** What [ws.SendTradeErrorMessage] is given: the text of an error, or the
    map with its ["Code"] and ["Message"]. *)
Inductive TradeError : Type :=
| ErrorText (msg : string)
| ErrorMap (code message : string).

Section Subscribe.
Import Go GoTime.

Variable math_Mod_int64 : Z -> Z -> Z.
Variable clock : Clock.
Variable Tick : Type.
Variable AggregateResp : Type.
Variable TradeDao_Aggregate : Query.t -> AggregateResp * option string.
Variable json_Ticks : AggregateResp -> list Tick * option string.

(** The calls the two methods make on the websocket hub, which is not among
    the sources; as for the order endpoint, a method appends its calls to
    the history and the hub answers by the history. *)
Inductive TradeEvent : Type :=
| ws_SendTradeErrorMessage (conn : N) (msg : TradeError)
| TradeSocket_Subscribe (id : string) (conn : N) (err : option string)
| TradeSocket_Unsubscribe (id : string) (conn : N)
| ws_RegisterConnectionUnsubscribeHandler (conn : N) (id : string)
| ws_SendTradeInitMessage (conn : N) (ohlcv : option (list Tick)).

(** [utils.GetOHLCVChannelID]. *)
Variable utils_GetOHLCVChannelID : common.Address -> common.Address -> string -> Z -> string.
(** The error [ws.GetTradeSocket().Subscribe(id, conn)] returns. *)
Variable TradeSocket_Subscribe_result : string -> N -> list TradeEvent -> option string.


(** What follows the call of [GetOHLCV] in [Subscribe]: [ohlcv] is what the
    call returned, [None] for the [nil] slice that comes with an error. *)
Definition Subscribe_rest (conn : N) (bt qt : common.Address) (params : Params.t)
    (ohlcv : option (list Tick)) (h : list TradeEvent) : list TradeEvent :=
  let id := utils_GetOHLCVChannelID bt qt (Params.Units params) (Params.Duration params) in
  let err := TradeSocket_Subscribe_result id conn h in
  let h := h ++ [TradeSocket_Subscribe id conn err] in
  let h :=
    match err with
    | Some e =>
      h ++ [ws_SendTradeErrorMessage conn
              (ErrorMap "UNABLE_TO_SUBSCRIBE" ("UNABLE_TO_SUBSCRIBE: " ++ e))]
    | None => h
    end in
  let h := h ++ [ws_RegisterConnectionUnsubscribeHandler conn id] in
  h ++ [ws_SendTradeInitMessage conn ohlcv].

(** [OHLCVService.Subscribe]; a panic of [GetOHLCV] ends the call. *)
Definition Subscribe (conn : N) (bt qt : common.Address) (params : Params.t)
    (reads : nat) (h : list TradeEvent) : Outcome (list TradeEvent) :=
  match GetOHLCV math_Mod_int64 clock Tick AggregateResp TradeDao_Aggregate json_Ticks
          [PairSubDoc.mk bt qt] (Params.Duration params) (Params.Units params)
          [Params.From params; Params.To params] reads with
  | Panic p => Panic p
  | Error e =>
    Return (Subscribe_rest conn bt qt params None
              (h ++ [ws_SendTradeErrorMessage conn (ErrorText e)]))
  | Return ticks => Return (Subscribe_rest conn bt qt params (Some ticks) h)
  end.
End Subscribe.

End services.

(** ** Package [endpoints]: the order endpoint

    The handlers act on the websocket hub (package [ws]) and on the order
    service, neither of which is among the sources.  They are embedded over
    the history of the calls made so far: a handler appends the calls it
    makes, in order, and what the hub or the service answers is a function
    of the history up to the call. *)

Module endpoints.
Import types.

(** A [*websocket.Conn] and a Go channel, by identity. *)
Definition Conn : Type := N.
Definition Chan : Type := nat.

(** [ws.OrderConnection], as the two handlers fill it. *)
Module OrderConnection.
Record t : Type := mk {
  Conn_ : Conn;
  ReadChannel : option Chan;
  Active : bool
}.
End OrderConnection.

Section Events.
Variable Data : Type.

Inductive Event : Type :=
  | log_Print (msg : string)
  | make_chan (ch : Chan)
  | chan_send (ch : Chan) (msg : WebSocketPayload.t Data)
  | ws_SendOrderErrorMessage (conn : Conn) (msg : string) (hash : option common.Hash)
  | ws_RegisterOrderConnection (hash : common.Hash) (oc : OrderConnection.t)
  | ws_RegisterConnectionUnsubscribeHandler (conn : Conn) (hash : common.Hash)
  | orderService_NewOrder (o : Order.t) (err : option string)
  | orderService_CancelOrder (oc : OrderCancel.t) (err : option string).

  (** Logging apart, has the event an effect on the hub, a client or the
      service? *)
Definition is_effect (e : Event) : bool :=
    match e with
    | log_Print _ => false
    | _ => true
    end.

Definition is_error_message (e : Event) : bool :=
    match e with
    | ws_SendOrderErrorMessage _ _ _ => true
    | _ => false
    end.

Definition is_NewOrder (e : Event) : bool :=
    match e with
    | orderService_NewOrder _ _ => true
    | _ => false
    end.

Definition is_CancelOrder (e : Event) : bool :=
    match e with
    | orderService_CancelOrder _ _ => true
    | _ => false
    end.
End Events.

Arguments log_Print {Data} msg.
Arguments make_chan {Data} ch.
Arguments chan_send {Data} ch msg.
Arguments ws_SendOrderErrorMessage {Data} conn msg hash.
Arguments ws_RegisterOrderConnection {Data} hash oc.
Arguments ws_RegisterConnectionUnsubscribeHandler {Data} conn hash.
Arguments orderService_NewOrder {Data} o err.
Arguments orderService_CancelOrder {Data} oc err.
Arguments is_effect {Data} e.
Arguments is_error_message {Data} e.
Arguments is_NewOrder {Data} e.
Arguments is_CancelOrder {Data} e.

(** What the handlers call and do not define. *)
Module Env.
Record t (Data : Type) : Type := mk {
  (** [json.Marshal] on a weakly-typed value: the bytes and the error. *)
  json_Marshal : Data -> list N * option string;
  (** [json.Unmarshal(bytes, &msg)] for a [WebSocketPayload]: the payload as
      the call leaves it, and the error. *)
  WebSocketPayload_Unmarshal : list N -> WebSocketPayload.t Data * option string;
  (** [o.UnmarshalJSON(bytes)]: the receiver as the call leaves it, and the
      error. *)
  Order_UnmarshalJSON : list N -> Order.t -> Order.t * option string;
  OrderCancel_UnmarshalJSON : list N -> OrderCancel.t -> OrderCancel.t * option string;
  (** [o.ComputeHash()]. *)
  Order_ComputeHash : Order.t -> common.Hash;
  (** [common.HexToHash]. *)
  HexToHash : string -> common.Hash;
  (** [ws.GetOrderChannel]: the channel registered under the hash, [None]
      for Go's [nil]. *)
  ws_GetOrderChannel : common.Hash -> list (Event Data) -> option Chan;
  (** [orderService.NewOrder] and [orderService.CancelOrder]: the argument
      as the call leaves it, and the returned error. *)
  NewOrder : Order.t -> list (Event Data) -> Order.t * option string;
  CancelOrder : OrderCancel.t -> list (Event Data) -> OrderCancel.t * option string
}.
Arguments json_Marshal {Data} _.
Arguments WebSocketPayload_Unmarshal {Data} _.
Arguments Order_UnmarshalJSON {Data} _.
Arguments OrderCancel_UnmarshalJSON {Data} _.
Arguments Order_ComputeHash {Data} _.
Arguments HexToHash {Data} _.
Arguments ws_GetOrderChannel {Data} _.
Arguments NewOrder {Data} _.
Arguments CancelOrder {Data} _.
End Env.

Section orderEndpoint.
Context {Data : Type} (env : Env.t Data).

Abbreviation History := (list (Event Data)).
Abbreviation Payload := (WebSocketPayload.t Data).

  (** [log.Print(err)] followed by [ws.SendOrderErrorMessage(conn, err.Error(), hash...)]. *)
Definition report (conn : Conn) (err : string) (hash : option common.Hash)
      (h : History) : History :=
    h ++ [log_Print err; ws_SendOrderErrorMessage conn err hash].

  (** [handleNewTrade]. *)
Definition handleNewTrade (msg : Payload) (conn : Conn) (h : History) : History :=
    let hash := Env.HexToHash env (WebSocketPayload.Hash msg) in
    match Env.ws_GetOrderChannel env hash h with
    | Some ch => h ++ [chan_send ch msg]
    | None => h
    end.

  (** [handleNewOrder]. *)
Definition handleNewOrder (msg : Payload) (conn : Conn) (h : History) : History :=
    let ch : Chan := length h in
    let h := h ++ [make_chan ch] in
    let o := Order.zero in
    let '(bytes, err) := Env.json_Marshal env (WebSocketPayload.Data_ msg) in
    match err with
    | Some e => report conn e None h
    | None =>
      let '(o, err) := Env.Order_UnmarshalJSON env bytes o in
      match err with
      | Some e => report conn e None h
      | None =>
        let o := Order.with_Hash o (Env.Order_ComputeHash env o) in
        let h := h ++ [ws_RegisterOrderConnection (Order.Hash o)
                         (OrderConnection.mk conn (Some ch) false)] in
        let h := h ++ [ws_RegisterConnectionUnsubscribeHandler conn (Order.Hash o)] in
        let '(o', err) := Env.NewOrder env o h in
        let h := h ++ [orderService_NewOrder o err] in
        match err with
        | Some e => report conn e (Some (Order.Hash o')) h
        | None => h
        end
      end
    end.

  (** [handleCancelOrder].  The error of [json.Marshal] is overwritten by
      the one of [UnmarshalJSON] before it is read. *)
Definition handleCancelOrder (p : Payload) (conn : Conn) (h : History) : History :=
    let '(bytes, _) := Env.json_Marshal env (WebSocketPayload.Data_ p) in
    let oc := OrderCancel.zero in
    let '(oc, err) := Env.OrderCancel_UnmarshalJSON env bytes oc in
    let h :=
      match err with
      | Some e => report conn e (Some (OrderCancel.Hash oc)) h
      | None => h
      end in
    let h := h ++ [ws_RegisterOrderConnection (OrderCancel.Hash oc)
                     (OrderConnection.mk conn None true)] in
    let h := h ++ [ws_RegisterConnectionUnsubscribeHandler conn (OrderCancel.Hash oc)] in
    let '(oc', err) := Env.CancelOrder env oc h in
    let h := h ++ [orderService_CancelOrder oc err] in
    match err with
    | Some e => report conn e (Some (OrderCancel.Hash oc')) h
    | None => h
    end.

  (** [orderEndpoint.ws], the dispatcher on the ["orders"] channel. *)
Definition ws (input : Data) (conn : Conn) (h : History) : History :=
    let '(bytes, _) := Env.json_Marshal env input in
    let '(msg, err) := Env.WebSocketPayload_Unmarshal env bytes in
    let h :=
      match err with
      | Some e => h ++ [log_Print e]
      | None => h
      end in
    if String.eqb (WebSocketPayload.Type_ msg) "NEW_ORDER" then handleNewOrder msg conn h
    else if String.eqb (WebSocketPayload.Type_ msg) "CANCEL_ORDER" then
      handleCancelOrder msg conn h
    else if String.eqb (WebSocketPayload.Type_ msg) "NEW_TRADE" then handleNewTrade msg conn h
    else h ++ [log_Print "Response with error"].
End orderEndpoint.

(** *** The HTTP route [GET /orders/<address>] *)

(** How [orderEndpoint.get] ends: an API error with its status and
    message, or the orders written to the response. *)
Inductive Response : Type :=
| APIError (status : Z) (message : string)
| Write (orders : list Order.t).

Section get.
(** [orderService.GetByUserAddress]. *)
Variable orderService_GetByUserAddress :
  common.Address -> list Order.t * option string.

(** [orderEndpoint.get], on the value of the route parameter. *)
Definition get (addr : string) : Response :=
  if negb (common.IsHexAddress addr) then APIError 400 "Invalid Adrress"
  else
    let address := common.HexToAddress addr in
    let '(orders, err) := orderService_GetByUserAddress address in
    match err with
    | Some _ => APIError 400 "Fetch Error"
    | None => Write orders
    end.
End get.

End endpoints.

(** ** Package [mocks]: the test client

    The handlers the client runs for one incoming payload, over the history
    of what the client has logged and sent on its [Logs] channel.  [Trade]
    stands for [types.Trade], which is not among the sources. *)

Module mocks.
Import types.

Section Client.
Variable Data : Type.
Variable Trade : Type.
(** [json.Marshal] on the weakly-typed data and [Order.UnmarshalJSON]: the
    receiver as the call leaves it, and the error. *)
Variable json_Marshal : Data -> list N * option string.
Variable Order_UnmarshalJSON : list N -> Order.t -> Order.t * option string.

(** [ClientLogMessage]; the two pointers are [None] when [nil]. *)
Record ClientLogMessage : Type := mkLog {
  MessageType : string;
  Order_ : option Order.t;
  Trade_ : option Trade;
  Tx : common.Hash;
  ErrorID : Z
}.

Inductive ClientEvent : Type :=
| log_Print (msg : string)
| Logs_send (l : ClientLogMessage).

Definition is_Logs_send (e : ClientEvent) : bool :=
  match e with
  | Logs_send _ => true
  | log_Print _ => false
  end.

(** What [handleOrderAdded] and [handleOrderCancelled] share: both errors
    are logged and the handler goes on. *)
Definition decode_and_log (messageType : string) (p : WebSocketPayload.t Data)
    (h : list ClientEvent) : list ClientEvent :=
  let o := Order.zero in
  let '(bytes, err) := json_Marshal (WebSocketPayload.Data_ p) in
  let h := match err with Some e => h ++ [log_Print e] | None => h end in
  let '(o, err) := Order_UnmarshalJSON bytes o in
  let h := match err with Some e => h ++ [log_Print e] | None => h end in
  h ++ [Logs_send (mkLog messageType (Some o) None 0%N 0)].

(** [Client.handleOrderAdded] and [Client.handleOrderCancelled]. *)
Definition handleOrderAdded (p : WebSocketPayload.t Data) (h : list ClientEvent)
  : list ClientEvent := decode_and_log "ORDER_ADDED" p h.

Definition handleOrderCancelled (p : WebSocketPayload.t Data) (h : list ClientEvent)
  : list ClientEvent := decode_and_log "ORDER_CANCELLED" p h.

(** The handlers with an empty body. *)
Definition handleSignatureRequested (p : WebSocketPayload.t Data) (h : list ClientEvent)
  : list ClientEvent := h.
Definition handleTradeExecuted (p : WebSocketPayload.t Data) (h : list ClientEvent)
  : list ClientEvent := h.
Definition handleOrderTxSuccess (p : WebSocketPayload.t Data) (h : list ClientEvent)
  : list ClientEvent := h.
Definition handleOrderTxError (p : WebSocketPayload.t Data) (h : list ClientEvent)
  : list ClientEvent := h.
Definition handleOrderBookInit (p : WebSocketPayload.t Data) (h : list ClientEvent)
  : list ClientEvent := h.
Definition handleOrderBookUpdate (p : WebSocketPayload.t Data) (h : list ClientEvent)
  : list ClientEvent := h.
Definition handleTradesInit (p : WebSocketPayload.t Data) (h : list ClientEvent)
  : list ClientEvent := h.
Definition handleTradesUpdate (p : WebSocketPayload.t Data) (h : list ClientEvent)
  : list ClientEvent := h.
Definition handleOHLCVInit (p : WebSocketPayload.t Data) (h : list ClientEvent)
  : list ClientEvent := h.
Definition handleOHLCVUpdate (p : WebSocketPayload.t Data) (h : list ClientEvent)
  : list ClientEvent := h.

(** [Client.handleOrderChannelMessagesIn]. *)
Definition handleOrderChannelMessagesIn (p : WebSocketPayload.t Data)
    (h : list ClientEvent) : list ClientEvent :=
  let type := WebSocketPayload.Type_ p in
  if String.eqb type "ORDER_ADDED" then handleOrderAdded p h
  else if String.eqb type "ORDER_CANCELLED" then handleOrderCancelled p h
  else if String.eqb type "REQUEST_SIGNATURE" then handleSignatureRequested p h
  else if String.eqb type "TRADE_EXECUTED" then handleTradeExecuted p h
  else if String.eqb type "TRADE_TX_SUCCESS" then handleOrderTxSuccess p h
  else if String.eqb type "TRADE_TX_ERROR" then handleOrderTxError p h
  else h.

(** [Client.handleOrderBookChannelMessages], [handleTradeChannelMessages]
    and [handleOHLCVMessages]. *)
Definition handleOrderBookChannelMessages (p : WebSocketPayload.t Data)
    (h : list ClientEvent) : list ClientEvent :=
  let type := WebSocketPayload.Type_ p in
  if String.eqb type "INIT" then handleOrderBookInit p h
  else if String.eqb type "UPDATE" then handleOrderBookUpdate p h
  else h.

Definition handleTradeChannelMessages (p : WebSocketPayload.t Data)
    (h : list ClientEvent) : list ClientEvent :=
  let type := WebSocketPayload.Type_ p in
  if String.eqb type "INIT" then handleTradesInit p h
  else if String.eqb type "UPDATE" then handleTradesUpdate p h
  else h.

Definition handleOHLCVMessages (p : WebSocketPayload.t Data)
    (h : list ClientEvent) : list ClientEvent :=
  let type := WebSocketPayload.Type_ p in
  if String.eqb type "INIT" then handleOHLCVInit p h
  else if String.eqb type "UPDATE" then handleOHLCVUpdate p h
  else h.

(** The [switch msg.Channel] of [Client.handleMessages] for one response;
    the handler is started as a goroutine, whose run is what is appended
    here. *)
Definition handleResponse (channel : string) (p : WebSocketPayload.t Data)
    (h : list ClientEvent) : list ClientEvent :=
  if String.eqb channel "orders" then handleOrderChannelMessagesIn p h
  else if String.eqb channel "order_book" then handleOrderBookChannelMessages p h
  else if String.eqb channel "trades" then handleTradeChannelMessages p h
  else if String.eqb channel "ohlcv" then handleOHLCVMessages p h
  else h.
End Client.

Arguments mkLog {Trade} _ _ _ _ _.
Arguments log_Print {Trade} _.
Arguments Logs_send {Trade} _.
Arguments is_Logs_send {Trade} _.

End mocks.

(** ** Vocabulary of the statements *)

Module Props.
Import common.
Local Open Scope N_scope.

(** *** Hexadecimal and decimal strings *)

Definition is_lower_hex_digit (c : ascii) : bool :=
  let n := N_of_ascii c in
  ((48 <=? n) && (n <=? 57)) || ((97 <=? n) && (n <=? 102)).

Definition is_hex_digit (c : ascii) : bool :=
  let n := N_of_ascii c in
  is_lower_hex_digit c || ((65 <=? n) && (n <=? 70)).

Definition is_digit (c : ascii) : bool :=
  let n := N_of_ascii c in (48 <=? n) && (n <=? 57).

(** ASCII lower case of one character. *)
Definition to_lower (c : ascii) : ascii :=
  let n := N_of_ascii c in
  if (65 <=? n) && (n <=? 90) then ascii_of_N (n + 32) else c.

(** [s] is ["0x"] followed by 40 hexadecimal digits that spell the 20 bytes
    of [a], in either case. *)
Definition hex_address_of (a : Address) (s : string) : Prop :=
  exists body : list ascii,
    s = ("0x" ++ string_of_list_ascii body)%string /\
    length body = 40%nat /\
    forallb is_hex_digit body = true /\
    map to_lower body = hex_EncodeToString (Address_Bytes a).

(** [s] is ["0x"] followed by lowercase hexadecimal digits only. *)
Definition lowercase_0x_hex (s : string) : bool :=
  match s with
  | String "0" (String "x" body) => forallb is_lower_hex_digit (list_ascii_of_string body)
  | _ => false
  end.

(** *** The mixed case of EIP-55 *)

(** A lowercase hexadecimal letter, and its upper case. *)
Definition is_hex_letter (c : ascii) : bool :=
  let n := N_of_ascii c in (97 <=? n) && (n <=? 102).

Definition to_upper (c : ascii) : ascii :=
  let n := N_of_ascii c in
  if (97 <=? n) && (n <=? 122) then ascii_of_N (n - 32) else c.

(** Hexadecimal digit [i] of a list of bytes, the high half of a byte
    first. *)
Definition nibble (bytes : list N) (i : nat) : N :=
  let b := nth (i / 2)%nat bytes 0 in
  if Nat.even i then b / 16 else b mod 16.

(** [s] is the EIP-55 rendering of [a]: 0x and the 40 lowercase digits of
    the address, where digit [i] is printed in upper case exactly when it is
    a letter and digit [i] of the Keccak-256 hash of the 40 lowercase digits
    is 8 or more. *)
Definition eip55_of (a : Address) (s : string) : Prop :=
  exists body : list ascii,
    s = ("0x" ++ string_of_list_ascii body)%string /\
    length body = 40%nat /\
    let lower := hex_EncodeToString (Address_Bytes a) in
    let hash := Keccak.Keccak256 (map N_of_ascii lower) in
    forall (i : nat) (l : ascii),
      lower !! i = Some l ->
      body !! i = Some (if is_hex_letter l && (8 <=? nibble hash i) then to_upper l else l).

(** [s] is a decimal numeral: digits, at least one, after an optional minus
    sign. *)
Definition is_decimal (s : string) : bool :=
  let digits (t : string) :=
    match t with
    | EmptyString => false
    | _ => forallb is_digit (list_ascii_of_string t)
    end in
  match s with
  | String "-" t => digits t
  | _ => digits s
  end.

(** The integer a decimal numeral denotes. *)
Definition parse_decimal (s : string) : option Z :=
  option_map Z.of_int (NilEmpty.int_of_string s).

(** [s] is the decimal numeral of [z]. *)
Definition decimal_of (z : Z) (s : string) : Prop :=
  is_decimal s = true /\ parse_decimal s = Some z.

(** [s] is the text of a [*big.Int]: the decimal numeral of the integer, or
    ["<nil>"] for a [nil] pointer. *)
Definition bigInt_text (x : bigInt) (s : string) : Prop :=
  match x with
  | Some z => decimal_of z s
  | None => s = "<nil>"%string
  end.

(** *** The calendar *)

Local Open Scope Z_scope.






(** *** The order store *)

(** Two orders agree on the maker, the trading terms and the filled
    amount. *)
Definition same_terms (a b : types.Order.t) : Prop :=
  types.Order.UserAddress a = types.Order.UserAddress b /\
  types.Order.ExchangeAddress a = types.Order.ExchangeAddress b /\
  types.Order.BuyToken a = types.Order.BuyToken b /\
  types.Order.SellToken a = types.Order.SellToken b /\
  types.Order.BuyAmount a = types.Order.BuyAmount b /\
  types.Order.SellAmount a = types.Order.SellAmount b /\
  types.Order.Nonce a = types.Order.Nonce b /\
  types.Order.Expires a = types.Order.Expires b /\
  types.Order.FilledAmount a = types.Order.FilledAmount b.

(** Two stored orders with the same hash are the same record. *)
Definition hash_is_key (ds : list types.Order.t) : Prop :=
  forall (i j : nat) (a b : types.Order.t),
    ds !! i = Some a -> ds !! j = Some b ->
    types.Order.Hash a = types.Order.Hash b -> i = j.

(** What [Create] keeps once the unique index exists: the index itself and
    stored hashes that are pairwise distinct. *)
Definition indexed (w : daos.World.t) : Prop :=
  daos.Collection.uniqueHash (daos.World.orders w) = true /\
  NoDup (types.Order.Hash <$> daos.Collection.docs (daos.World.orders w)).

(** The hashes of a list in the order of their first occurrence, leaving
    out those already [seen]. *)
Fixpoint first_occurrences (seen : list N) (hs : list N) : list N :=
  match hs with
  | [] => []
  | h :: rest =>
    if bool_decide (h ∈ seen) then first_occurrences seen rest
    else h :: first_occurrences (seen ++ [h]) rest
  end.

(** The results of a run of [Create] calls, one per order of the list: the
    order as the call leaves it and the returned error. *)
Fixpoint Create_run (clock : GoTime.Clock) (objectId : nat -> N) (dao : daos.OrderDao.t)
    (os : list types.Order.t) (w : daos.World.t) : list (types.Order.t * option string) :=
  match os with
  | [] => []
  | o :: rest =>
    let r := daos.Create clock objectId dao o w in
    fst r :: Create_run clock objectId dao rest (snd r)
  end.

(** The call returned no error. *)
Definition is_stored (r : types.Order.t * option string) : bool :=
  match snd r with
  | None => true
  | Some _ => false
  end.

(** Every stored order has an object id handed out before. *)
Definition ids_known (objectId : nat -> N) (w : daos.World.t) : Prop :=
  forall d, d ∈ daos.Collection.docs (daos.World.orders w) ->
            exists k, (k < daos.World.ids w)%nat /\ types.Order.ID d = objectId k.

(** *** The account service *)

(** The balance entry [AccountService.Create] writes for a token. *)
Definition initial_balance (token : types.Token.t) : types.TokenBalance.t :=
  types.TokenBalance.mk (types.Token.ID token) (types.Token.ContractAddress token)
    (types.Token.Symbol token) (Some 100000) (Some 100000) (Some 0).

(** *** Accounts in the store *)

(** The account address, the keys of the balance map and the token
    addresses are 20-byte values. *)
Definition addresses_fit (a : types.Account.t) : Prop :=
  (types.Account.Address a < 2 ^ 160)%N /\
  forall (key : N) (v : types.TokenBalance.t),
    types.Account.TokenBalances a !! key = Some v ->
    (key < 2 ^ 160)%N /\ (types.TokenBalance.Address v < 2 ^ 160)%N.

(** The account with the three fields [GetBSON] does not write at their zero
    values. *)
Definition as_stored (a : types.Account.t) : types.Account.t :=
  types.Account.mk (types.Account.ID a) (types.Account.Address a)
    (types.Account.TokenBalances a) false types.zeroTime types.zeroTime.

(** *** The order endpoint *)

(** A call on the hub or on the order service, the errors sent to the
    client apart. *)
Definition is_request {Data : Type} (e : endpoints.Event Data) : bool :=
  endpoints.is_effect e && negb (endpoints.is_error_message e).

(** The number of calls of the order service in a history. *)
Definition service_calls {Data : Type} (k : list (endpoints.Event Data)) : nat :=
  (length (List.filter endpoints.is_NewOrder k)
   + length (List.filter endpoints.is_CancelOrder k))%nat.

(** *** The aggregation stages *)

(** The units [getGroupTsBson] has a branch for. *)
Definition calendar_units : list string :=
  ["sec"; "min"; "hour"; "day"; "week"; "month"; "yr"]%string.

(** [m[key]] on a [bson.M]. *)
Fixpoint M_get (key : string) (m : list (string * services.Bson)) : option services.Bson :=
  match m with
  | [] => None
  | (k, v) :: rest => if String.eqb k key then Some v else M_get key rest
  end.

(** The document [$dateFromParts] is given in an [$addFields] stage. *)
Definition dateFromParts (addFields : list (string * services.Bson))
  : option (list (string * services.Bson)) :=
  match M_get "$addFields" addFields with
  | Some (services.BDoc fields) =>
    match M_get "ts" fields with
    | Some (services.BDoc ts) =>
      match M_get "$subtract" ts with
      | Some (services.BArray [services.BDoc date; _]) =>
        match M_get "$dateFromParts" date with
        | Some (services.BDoc parts) => Some parts
        | _ => None
        end
      | _ => None
      end
    | _ => None
    end
  | _ => None
  end.

End Props.

(** ** Concrete instances

    Closed instances of what the embedding leaves open, on which the
    statements are evaluated. *)

Module Instances.
Import types.
Local Open Scope N_scope.

(** *** A clock and an object-id generator *)

(** Every reading falls in September 2018. *)
Definition clock2018 : GoTime.Clock :=
  fun k => GoTime.Build_Instant (1536000000000000000 + Z.of_nat k) 2018 9.

(** Readings in February of the leap year 2024. *)
Definition clock2024 : GoTime.Clock :=
  fun k => GoTime.Build_Instant (1707000000000000000 + Z.of_nat k) 2024 2.

Definition objectId (k : nat) : bson.ObjectId := N.of_nat (S k).

(** *** Accounts and orders *)

Definition addr1 : common.Address := 0x5aaeb6053f3e94c9b9a09f33669435e7ef1beaed.
Definition addr2 : common.Address := 0xfb6916095ca1df60bb79ce92ce3ea74c37c5d359.

Definition account1 : Account.t :=
  Account.mk 1 addr1
    {[ addr2 := TokenBalance.mk 7 addr2 "ZRX" (Some 100000%Z) (Some 100000%Z) (Some 0%Z) ]}
    false 0%Z 0%Z.

(** A stored record whose allowance and locked balance are not numerals,
    and the account [SetBSON] loads from it. *)
Definition unreadable_record : AccountRecord.t :=
  AccountRecord.mk 1 "0x01"
    {[ "0x02"%string := TokenBalanceRecord.mk 7 "0x02" "ZRX" "12" "ten" "" ]}
    true 5%Z 6%Z.

Definition loaded_account : Account.t :=
  fst (SetBSON AccountRecord.t (fun r => (r, None)) unreadable_record
         (Account.mk 0 0 ∅ false 0%Z 0%Z)).

Definition order1 : Order.t :=
  Order.mk 0 addr1 addr2 addr1 addr2 10%Z 1000%Z 1%Z 0%Z 0xabc "OPEN" 0%Z 0%Z 0%Z.

Definition order2 : Order.t :=
  Order.mk 0 addr2 addr2 addr2 addr1 5%Z 500%Z 2%Z 0%Z 0xabc "" 0%Z 0%Z 0%Z.

Definition world0 : daos.World.t := daos.World.mk daos.Collection.empty 0 0.

(** [world0] once the unique index is installed. *)
Definition world1 : daos.World.t := daos.World.mk (daos.Collection.mk [] true) 0 0.

(** *** An in-memory account and token store *)

Module MemStore.
Record t : Type := mk {
  accounts : gmap N Account.t;
  tokens : list Token.t
}.
End MemStore.

Definition mem_GetByAddress (a : common.Address) (st : MemStore.t)
  : option Account.t * option string :=
  (MemStore.accounts st !! a, None).

Definition mem_GetAll (st : MemStore.t) : list Token.t * option string :=
  (MemStore.tokens st, None).

Definition mem_Create (a : Account.t) (st : MemStore.t) : option string * MemStore.t :=
  (None, MemStore.mk (<[Account.Address a := a]> (MemStore.accounts st)) (MemStore.tokens st)).

Definition mem_Service_Create : Account.t -> MemStore.t -> option string * MemStore.t :=
  services.Create MemStore.t mem_GetByAddress mem_GetAll mem_Create.

Definition store1 : MemStore.t :=
  MemStore.mk {[ addr1 := account1 ]} [Token.mk 7 "ZRX" addr2; Token.mk 8 "WETH" addr1].

Definition newcomer : Account.t := Account.mk 0 addr2 ∅ true 0%Z 0%Z.

(** *** An order endpoint

    A stand-in for the JSON codec: the weakly-typed data is a list of
    numbers, marshalled as it is.  A payload is its tag, its hash and its
    data; an order is its hash followed by its eight trading terms; a
    cancel request is the two hashes. *)

Definition Data : Type := list N.

Definition json_Marshal (d : Data) : list N * option string := (d, None).

Definition unexpected : string := "unexpected end of JSON input".

Fixpoint hex_digits (fuel : nat) (n : N) (acc : list ascii) : list ascii :=
  match fuel with
  | O => acc
  | S f =>
    let acc := common.hexdigit (n mod 16) :: acc in
    if n / 16 =? 0 then acc else hex_digits f (n / 16) acc
  end.

(** [Hash.Hex], without the leading zeros. *)
Definition Hash_Hex (h : common.Hash) : string :=
  ("0x" ++ string_of_list_ascii (hex_digits 64 h []))%string.

Definition hex_value (c : ascii) : option N :=
  let n := N_of_ascii c in
  if (48 <=? n) && (n <=? 57) then Some (n - 48)
  else if (97 <=? n) && (n <=? 102) then Some (n - 87)
  else if (65 <=? n) && (n <=? 70) then Some (n - 55)
  else None.

(** [common.HexToHash]: the digits after the 0x prefix, read up to the first
    character that is not a digit, and cut to 32 bytes. *)
Definition HexToHash (s : string) : common.Hash :=
  let body :=
    match s with
    | String "0" (String "x" t) => t
    | String "0" (String "X" t) => t
    | _ => s
    end in
  let fix go (cs : list ascii) (acc : N) : N :=
    match cs with
    | [] => acc
    | c :: rest =>
      match hex_value c with
      | Some v => go rest (16 * acc + v)
      | None => acc
      end
    end in
  go (list_ascii_of_string body) 0 mod 2 ^ 256.

Definition type_of_tag (tag : N) : string :=
  match tag with
  | 1 => "NEW_ORDER"
  | 2 => "CANCEL_ORDER"
  | 3 => "NEW_TRADE"
  | 4 => "SUBMIT_SIGNATURE"
  | _ => ""
  end.

Definition WebSocketPayload_Unmarshal (bytes : list N)
  : WebSocketPayload.t Data * option string :=
  match bytes with
  | tag :: hash :: data =>
    (WebSocketPayload.mk (type_of_tag tag) (Hash_Hex hash) data, None)
  | _ => (WebSocketPayload.mk "" "" [], Some unexpected)
  end.

Definition Order_UnmarshalJSON (bytes : list N) (o : Order.t) : Order.t * option string :=
  match bytes with
  | [hash; user; exchange; buy; sell; buyAmount; sellAmount; nonce; expires] =>
    (Order.mk (Order.ID o) user exchange buy sell (Z.of_N buyAmount)
       (Z.of_N sellAmount) (Z.of_N nonce) (Z.of_N expires) hash (Order.Status o)
       (Order.FilledAmount o) (Order.CreatedAt o) (Order.UpdatedAt o), None)
  | _ => (o, Some unexpected)
  end.

Definition OrderCancel_UnmarshalJSON (bytes : list N) (oc : OrderCancel.t)
  : OrderCancel.t * option string :=
  match bytes with
  | [orderHash; hash] => (OrderCancel.mk orderHash hash, None)
  | _ => (oc, Some unexpected)
  end.

Definition be_bytes (len : nat) (n : N) : list N :=
  map (fun i => (n / 256 ^ N.of_nat (len - 1 - i)) mod 256) (seq 0 len).

Definition be_value (bs : list N) : N := fold_left (fun acc b => 256 * acc + b) bs 0.

(** Modelled from the spec: the order hash, "deterministic keccak-256 over
    canonical field serialization" of the immutable fields (section 6). *)
Definition Order_ComputeHash (o : Order.t) : common.Hash :=
  be_value
    (Keccak.Keccak256
       (common.Address_Bytes (Order.ExchangeAddress o) ++
        common.Address_Bytes (Order.UserAddress o) ++
        common.Address_Bytes (Order.SellToken o) ++
        common.Address_Bytes (Order.BuyToken o) ++
        be_bytes 32 (Z.to_N (Order.SellAmount o)) ++
        be_bytes 32 (Z.to_N (Order.BuyAmount o)) ++
        be_bytes 32 (Z.to_N (Order.Expires o)) ++
        be_bytes 32 (Z.to_N (Order.Nonce o)))).

(** Modelled from the spec: the hub's registry of private order channels
    (section 4.4), read off the history: the read channel of the first
    connection registered under the hash. *)
Fixpoint ws_GetOrderChannel (hash : common.Hash) (h : list (endpoints.Event Data))
  : option endpoints.Chan :=
  match h with
  | [] => None
  | endpoints.ws_RegisterOrderConnection hash' oc :: rest =>
    if hash' =? hash then endpoints.OrderConnection.ReadChannel oc
    else ws_GetOrderChannel hash rest
  | _ :: rest => ws_GetOrderChannel hash rest
  end.

(** Modelled from the spec: the hash validation of [NewOrder], "recompute
    and compare" (section 4.3); the other validations are taken to pass.
    A [nil] result stands for the order enqueued and persisted. *)
Definition NewOrder (o : Order.t) (h : list (endpoints.Event Data)) : Order.t * option string :=
  if Order.Hash o =? Order_ComputeHash o then (o, None)
  else (o, Some "Invalid order hash").

(** Modelled from the spec: [CancelOrder] enqueues the cancel request
    (section 4.3); it refuses a request that names no order. *)
Definition CancelOrder (oc : OrderCancel.t) (h : list (endpoints.Event Data))
  : OrderCancel.t * option string :=
  if OrderCancel.OrderHash oc =? 0 then (oc, Some "Order hash is missing")
  else (oc, None).

Definition env : endpoints.Env.t Data :=
  endpoints.Env.mk Data json_Marshal WebSocketPayload_Unmarshal Order_UnmarshalJSON
    OrderCancel_UnmarshalJSON Order_ComputeHash HexToHash ws_GetOrderChannel
    NewOrder CancelOrder.

(** A NEW_ORDER payload whose order carries the hash 0xdead. *)
Definition forged_order : WebSocketPayload.t Data :=
  WebSocketPayload.mk "NEW_ORDER" "0xdead"
    [0xdead; addr1; addr2; addr1; addr2; 10; 1000; 1; 0].

(** The history the handler leaves for it on connection 5. *)
Definition after_forged_order : list (endpoints.Event Data) :=
  endpoints.handleNewOrder env forged_order 5 [].

(** The hash the order of [forged_order] has by its fields. *)
Definition forged_order_hash : common.Hash :=
  Order_ComputeHash (fst (Order_UnmarshalJSON (WebSocketPayload.Data_ forged_order) Order.zero)).

(** A NEW_TRADE payload for that order, and one for an order nobody
    placed. *)
Definition trade_signature : WebSocketPayload.t Data :=
  WebSocketPayload.mk "NEW_TRADE" (Hash_Hex forged_order_hash) [1; 2; 3].

Definition stray_signature : WebSocketPayload.t Data :=
  WebSocketPayload.mk "NEW_TRADE" "0x1234" [1; 2; 3].

(** A CANCEL_ORDER payload whose data is a single number. *)
Definition malformed_cancel : WebSocketPayload.t Data :=
  WebSocketPayload.mk "CANCEL_ORDER" "" [42].

End Instances.

(** * Statements and proofs *)

(** ** The calendar arithmetic of Go's [time] package *)

Section Calendar.
Import Go GoTime Props.



Lemma int64_small z : - 2 ^ 63 <= z < 2 ^ 63 -> int64 z = z.
Proof. intros H. unfold int64. rewrite Z.mod_small; lia. Qed.





















End Calendar.

(** ** The OHLCV service *)

Section OHLCV.
Import Go GoTime Props services.

Variable math_Mod_int64 : Z -> Z -> Z.
Variable clock : Clock.

Lemma int64_mul_int64 (x c : Z) : int64 (int64 x * c) = int64 (x * c).
Proof.
  unfold int64. f_equal.
  rewrite (Z.mod_eq (x + 2 ^ 63) (2 ^ 64)) by lia.
  set (k := (x + 2 ^ 63) / 2 ^ 64).
  replace ((x + 2 ^ 63 - 2 ^ 64 * k - 2 ^ 63) * c + 2 ^ 63)
    with (x * c + 2 ^ 63 + (- k * c) * 2 ^ 64) by lia.
  apply Z.mod_add. lia.
Qed.



Variable Tick : Type.
Variable AggregateResp : Type.
Variable TradeDao_Aggregate : Query.t -> AggregateResp * option string.
Variable json_Ticks : AggregateResp -> list Tick * option string.

(** C10 (as the code behaves).  A call that passes one timestamp and a unit
    the switch accepts ends in the bounds-check panic of [timeInterval[1]]. *)
Theorem C10_single_timestamp_panics
    (pairs : list types.PairSubDoc.t) (duration : Z) (unit : string)
    (from : Z) (reads : nat) :
  bucket math_Mod_int64 clock unit duration reads <> None ->
  GetOHLCV math_Mod_int64 clock Tick AggregateResp TradeDao_Aggregate json_Ticks
    pairs duration unit [from] reads
  = Panic "index out of range".
Proof.
  intros Hb. unfold GetOHLCV.
  destruct (bucket math_Mod_int64 clock unit duration reads) as [b|]; [|congruence].
  reflexivity.
Qed.

End OHLCV.


Lemma C10_single_timestamp_panics_witness :
  services.GetOHLCV (fun _ _ => 0) Instances.clock2018 unit unit
    (fun _ => (tt, None)) (fun _ => ([], None)) [] 1 "min" [1536000000] 0
  = Go.Panic "index out of range".
Proof.
  apply (C10_single_timestamp_panics (fun _ _ => 0) Instances.clock2018 unit unit
           (fun _ => (tt, None)) (fun _ => ([], None)) [] 1 "min" 1536000000 0).
  discriminate.
Defined.

(** ** The OHLCV service: units, windows and panics *)

Section OHLCV_more.
Import Go GoTime Props services.

Variable math_Mod_int64 : Z -> Z -> Z.
Variable clock : Clock.
Variable Tick : Type.
Variable AggregateResp : Type.
Variable TradeDao_Aggregate : Query.t -> AggregateResp * option string.
Variable json_Ticks : AggregateResp -> list Tick * option string.

(** The units the switch of [GetOHLCV] has a case for. *)
Lemma bucket_accepts (unit : string) (duration : Z) (reads : nat) :
  bucket math_Mod_int64 clock unit duration reads <> None <->
  In unit ["sec"; "hour"; "day"; "week"; "month"; "yr"; ""; "min"]%string.
Proof.
  unfold bucket. cbn [In].
  repeat match goal with
         | |- context [String.eqb unit ?s] =>
           destruct (String.eqb_spec unit s) as [->|?];
           [split; [intros _; repeat ((left; reflexivity) || right) | discriminate]|]
         end.
  split.
  - intros H. exfalso. apply H. reflexivity.
  - intros H. exfalso. repeat (destruct H as [H|H]; [congruence|]). exact H.
Qed.

Lemma window_panics (b : Bucket.t) (timeInterval : list Z) :
  (exists msg, window b timeInterval = Panic msg) <-> length timeInterval = 1%nat.
Proof.
  unfold window.
  destruct timeInterval as [|t0 [|t1 rest]]; cbn.
  - split; [intros [msg H]; discriminate | discriminate].
  - split; [reflexivity | intros _; by eexists].
  - split; [intros [msg H]; discriminate | discriminate].
Qed.

Lemma window_no_error (b : Bucket.t) (timeInterval : list Z) (e : string) :
  window b timeInterval <> Error e.
Proof.
  unfold window. destruct timeInterval as [|t0 [|t1 rest]]; cbn; discriminate.
Qed.

(** X1.  [GetOHLCV] ends in a run-time panic exactly when the unit is one the
    switch accepts and exactly one timestamp is passed; with no timestamp,
    or with two or more, it returns. *)
Theorem X1_GetOHLCV_panics_iff (pairs : list types.PairSubDoc.t) (duration : Z)
    (unit : string) (timeInterval : list Z) (reads : nat) :
  (exists msg,
     GetOHLCV math_Mod_int64 clock Tick AggregateResp TradeDao_Aggregate json_Ticks
       pairs duration unit timeInterval reads = Panic msg) <->
  (In unit ["sec"; "hour"; "day"; "week"; "month"; "yr"; ""; "min"]%string /\
   length timeInterval = 1%nat).
Proof.
  rewrite <- (bucket_accepts unit duration reads).
  unfold GetOHLCV.
  destruct (bucket math_Mod_int64 clock unit duration reads) as [b|].
  - pose proof (window_panics b timeInterval) as Hw.
    destruct (window b timeInterval) as [m|e|p] eqn:Hwin.
    + split.
      * intros [msg H]. exfalso.
        destruct (TradeDao_Aggregate _) as [resp [e|]]; [discriminate|].
        destruct (json_Ticks resp) as [ts [e|]]; discriminate.
      * intros [_ Hl]. apply Hw in Hl as [msg Hl]. discriminate.
    + by apply window_no_error in Hwin.
    + split.
      * intros _. split; [discriminate|]. apply Hw. by eexists.
      * intros _. by eexists.
  - split; [intros [msg H]; discriminate | intros [H _]; congruence].
Qed.

(** X2.  A unit outside the eight the switch names is refused with the
    error "Invalid unit", whatever the other arguments: the check comes
    before the timestamps are looked at. *)
Theorem X2_GetOHLCV_invalid_unit (pairs : list types.PairSubDoc.t) (duration : Z)
    (unit : string) (timeInterval : list Z) (reads : nat) :
  ~ In unit ["sec"; "hour"; "day"; "week"; "month"; "yr"; ""; "min"]%string ->
  GetOHLCV math_Mod_int64 clock Tick AggregateResp TradeDao_Aggregate json_Ticks
    pairs duration unit timeInterval reads = Error "Invalid unit".
Proof.
  intros Hu. rewrite <- (bucket_accepts unit duration reads) in Hu.
  unfold GetOHLCV.
  destruct (bucket math_Mod_int64 clock unit duration reads); [|reflexivity].
  exfalso. apply Hu. discriminate.
Qed.

Lemma bucket_groupBy_clock (mm' : Z -> Z -> Z) (clock' : Clock) (unit : string)
    (duration : Z) (reads reads' : nat) :
  option_map Bucket.groupBy (bucket math_Mod_int64 clock unit duration reads)
  = option_map Bucket.groupBy (bucket mm' clock' unit duration reads').
Proof.
  unfold bucket.
  repeat match goal with
         | |- context [String.eqb unit ?s] => destruct (String.eqb unit s); [reflexivity|]
         end.
  reflexivity.
Qed.

(** X3.  With two or more timestamps the answer depends neither on the
    clock nor on the float remainder, timestamps after the second are
    ignored, and the store is asked only for trades created in
    [[timeInterval[0], timeInterval[1])]: a store that answers such queries
    alike gives the same answer. *)
Theorem X3_GetOHLCV_explicit_window (pairs : list types.PairSubDoc.t)
    (duration : Z) (unit : string) (t0 t1 : Z) (rest : list Z) (reads reads' : nat)
    (mm' : Z -> Z -> Z) (clock' : Clock)
    (Aggregate' : Query.t -> AggregateResp * option string) :
  (forall q, Query.createdAt q = MatchRange t0 t1 ->
             Aggregate' q = TradeDao_Aggregate q) ->
  GetOHLCV math_Mod_int64 clock Tick AggregateResp TradeDao_Aggregate json_Ticks
    pairs duration unit (t0 :: t1 :: rest) reads
  = GetOHLCV mm' clock' Tick AggregateResp Aggregate' json_Ticks
      pairs duration unit [t0; t1] reads'.
Proof.
  intros Hagg. unfold GetOHLCV.
  pose proof (bucket_groupBy_clock mm' clock' unit duration reads reads') as Hg.
  destruct (bucket math_Mod_int64 clock unit duration reads) as [b|],
           (bucket mm' clock' unit duration reads') as [b'|]; try discriminate Hg;
    [|reflexivity].
  injection Hg as Hg. cbn. rewrite Hg, Hagg by reflexivity. reflexivity.
Qed.

Lemma int64_mul_chain2 (a b c : Z) : mul64 (mul64 a b) c = int64 (a * (b * c)).
Proof.
  unfold mul64. rewrite int64_mul_int64. apply (f_equal int64). lia.
Qed.

(** X4.  For the units sec, min, hour, day and week the bucket interval is
    the duration times 1, 60, 3600, 86400 and 604800 seconds, as a 64-bit
    product, whatever the clock shows. *)
Theorem X4_fixed_unit_intervals (duration : Z) (reads : nat) (unit : string)
    (seconds : Z) :
  In (unit, seconds)
     [("sec", 1); ("min", 60); ("hour", 3600); ("day", 86400); ("week", 604800)]%string ->
  -2 ^ 63 <= duration < 2 ^ 63 ->
  exists b, bucket math_Mod_int64 clock unit duration reads = Some b /\
            Bucket.intervalSeconds b = int64 (duration * seconds) /\
            Bucket.groupBy b = Some (unit, duration).
Proof.
  intros Hin Hd. cbn [In] in Hin.
  destruct Hin as [[= <- <-]|[[= <- <-]|[[= <- <-]|[[= <- <-]|[[= <- <-]|[]]]]]];
    eexists; (split; [reflexivity|]); (split; [|reflexivity]);
    cbn [Bucket.intervalSeconds].
  - rewrite Z.mul_1_r. symmetry. by apply int64_small.
  - reflexivity.
  - apply int64_mul_chain2.
  - rewrite int64_mul_chain2. unfold mul64. rewrite int64_mul_int64.
    apply (f_equal int64). lia.
  - rewrite int64_mul_chain2. unfold mul64.
    rewrite int64_mul_int64, <- Z.mul_assoc, int64_mul_int64.
    apply (f_equal int64). lia.
Qed.

End OHLCV_more.

Lemma X2_GetOHLCV_invalid_unit_witness :
  services.GetOHLCV (fun _ _ => 0) Instances.clock2018 unit unit
    (fun _ => (tt, None)) (fun _ => ([], None)) [] 1 "fortnight" [1536000000] 0
  = Go.Error "Invalid unit".
Proof.
  apply (X2_GetOHLCV_invalid_unit (fun _ _ => 0) Instances.clock2018 unit unit
           (fun _ => (tt, None)) (fun _ => ([], None)) [] 1 "fortnight" [1536000000] 0).
  cbn [In]. intros H.
  repeat (destruct H as [H|H]; [discriminate H|]). exact H.
Defined.

Lemma X3_GetOHLCV_explicit_window_witness :
  services.GetOHLCV (fun _ _ => 0) Instances.clock2018 unit unit
    (fun _ => (tt, None)) (fun _ => ([tt], None)) [] 5 "min" [10; 20; 30] 0
  = services.GetOHLCV (fun _ _ => 7) Instances.clock2024 unit unit
      (fun q => match services.Query.createdAt q with
                | services.MatchRange 10 20 => (tt, None)
                | _ => (tt, Some "unexpected window"%string)
                end)
      (fun _ => ([tt], None)) [] 5 "min" [10; 20] 3.
Proof.
  apply (X3_GetOHLCV_explicit_window (fun _ _ => 0) Instances.clock2018 unit unit
           (fun _ => (tt, None)) (fun _ => ([tt], None)) [] 5 "min" 10 20 [30] 0 3
           (fun _ _ => 7) Instances.clock2024).
  intros q Hq. rewrite Hq. reflexivity.
Defined.

Lemma X4_fixed_unit_intervals_witness :
  exists b, services.bucket (fun _ _ => 0) Instances.clock2018 "week" 2 0 = Some b /\
            services.Bucket.intervalSeconds b = 1209600 /\
            services.Bucket.groupBy b = Some ("week"%string, 2).
Proof.
  apply (X4_fixed_unit_intervals (fun _ _ => 0) Instances.clock2018 2 0 "week" 604800).
  - cbn [In]. do 4 right. left. reflexivity.
  - lia.
Defined.

(** ** The OHLCV service: the group stage and subscriptions *)

Section GroupStage.
Import Go GoTime Props services.

Variable math_Mod_int64 : Z -> Z -> Z.
Variable clock : Clock.

Ltac by_units units :=
  repeat match goal with
         | |- context [String.eqb units ?s] =>
           destruct (String.eqb_spec units s) as [->|?]
         end.

(** X20.  [getGroupTsBson] returns for the seven units it has a branch
    for; for any other unit both results are still [nil] when the pair keys
    are written, and the call panics. *)
Theorem X20_getGroupTsBson_units (key units : string) (duration : Z) (reads : nat) :
  (In units calendar_units ->
   exists r, getGroupTsBson clock key units duration reads = Return r) /\
  (~ In units calendar_units ->
   getGroupTsBson clock key units duration reads
   = Panic "assignment to entry in nil map").
Proof.
  unfold getGroupTsBson, calendar_units. cbn [In]. split.
  - intros H. by_units units; try (by eexists).
    exfalso. repeat (destruct H as [H|H]; [congruence|]). exact H.
  - intros H. by_units units; try (exfalso; apply H; tauto). reflexivity.
Qed.

(** X21.  The switch of [GetOHLCV] hands [getGroupTsBson] only units it has
    a branch for: whenever the switch asks for a group stage the call
    returns, and with the key ["$createdAt"] it does not read the clock. *)
Theorem X21_GetOHLCV_group_stage_returns (unit u : string) (duration d : Z)
    (reads : nat) (b : Bucket.t) :
  bucket math_Mod_int64 clock unit duration reads = Some b ->
  Bucket.groupBy b = Some (u, d) ->
  exists r, forall (clock' : Clock) (reads' : nat),
    getGroupTsBson clock' "$createdAt" u d reads' = Return r.
Proof.
  unfold bucket. intros Hb Hg.
  repeat match type of Hb with
         | context [String.eqb unit ?s] =>
           destruct (String.eqb_spec unit s) as [->|?]
         end;
    try discriminate Hb;
    injection Hb as <-; cbn in Hg; try discriminate Hg; injection Hg as <- <-;
    match goal with
    | |- exists r, forall c n, getGroupTsBson c ?k ?un ?du n = _ =>
      exists (match getGroupTsBson clock k un du 0 with
              | Return r => r
              | _ => ([], None)
              end)
    end;
    intros clock' reads'; reflexivity.
Qed.

(** X22.  In every result of [getGroupTsBson] the two stages fit: the group
    id has one key for each date part that [$dateFromParts] reads back as
    [$_id.<part>], the three pair keys, and no other. *)
Theorem X22_group_id_matches_dateFromParts (key units : string) (duration : Z)
    (reads : nat) (resp : list (string * Bson))
    (addFields : option (list (string * Bson))) :
  getGroupTsBson clock key units duration reads = Return (resp, addFields) ->
  exists stage parts,
    addFields = Some stage /\
    dateFromParts stage = Some parts /\
    map fst resp ≡ₚ map fst parts ++ ["pair"; "baseToken"; "quoteToken"]%string /\
    Forall (fun kv => snd kv = BString ("$_id." ++ fst kv)) parts /\
    M_get "pair" resp = Some (BString "$pairName") /\
    M_get "baseToken" resp = Some (BString "$baseToken") /\
    M_get "quoteToken" resp = Some (BString "$quoteToken").
Proof.
  unfold getGroupTsBson. intros H.
  repeat match type of H with
         | context [String.eqb units ?s] =>
           destruct (String.eqb_spec units s) as [->|?]
         end;
    try discriminate H; injection H as <- <-;
    eexists; eexists; (split; [reflexivity|]); (split; [reflexivity|]);
    (split; [first [reflexivity | apply perm_skip, perm_swap]|]);
    (split; [repeat constructor|]); repeat split.
Qed.

End GroupStage.

Section Subscriptions.
Import Go GoTime Props types services.

Variable math_Mod_int64 : Z -> Z -> Z.
Variable clock : Clock.
Variable Tick : Type.
Variable AggregateResp : Type.
Variable TradeDao_Aggregate : Query.t -> AggregateResp * option string.
Variable json_Ticks : AggregateResp -> list Tick * option string.
Variable utils_GetOHLCVChannelID : common.Address -> common.Address -> string -> Z -> string.
Variable TradeSocket_Subscribe_result :
  string -> N -> list (TradeEvent Tick) -> option string.


(** X23.  [Subscribe] never ends in the panic of [GetOHLCV]: it always
    passes two timestamps.  The trades it reports are those of the pair
    created in [[params.From, params.To)], whatever the clock shows: a store
    that answers the queries for this pair and window alike gives the same
    run. *)
Theorem X23_Subscribe_window (conn : N) (bt qt : common.Address) (params : Params.t)
    (reads reads' : nat) (h : list (TradeEvent Tick))
    (mm' : Z -> Z -> Z) (clock' : Clock)
    (Aggregate' : Query.t -> AggregateResp * option string) :
  (forall q,
     Query.createdAt q = MatchRange (Params.From params) (Params.To params) ->
     Query.or q = Some [(common.Address_Hex bt, common.Address_Hex qt)] ->
     Aggregate' q = TradeDao_Aggregate q) ->
  Subscribe math_Mod_int64 clock Tick AggregateResp TradeDao_Aggregate json_Ticks
    utils_GetOHLCVChannelID TradeSocket_Subscribe_result conn bt qt params reads h
  = Subscribe mm' clock' Tick AggregateResp Aggregate' json_Ticks
      utils_GetOHLCVChannelID TradeSocket_Subscribe_result conn bt qt params reads' h /\
  exists h',
    Subscribe math_Mod_int64 clock Tick AggregateResp TradeDao_Aggregate json_Ticks
      utils_GetOHLCVChannelID TradeSocket_Subscribe_result conn bt qt params reads h
    = Return h'.
Proof.
  intros Hagg. unfold Subscribe, GetOHLCV.
  pose proof (bucket_groupBy_clock math_Mod_int64 clock mm' clock'
                (Params.Units params) (Params.Duration params) reads reads') as Hg.
  destruct (bucket math_Mod_int64 clock _ _ reads) as [b|],
           (bucket mm' clock' _ _ reads') as [b'|]; try discriminate Hg.
  - injection Hg as Hg. cbn. rewrite Hg, Hagg by reflexivity.
    destruct (TradeDao_Aggregate _) as [resp [e|]]; [split; [done|by eexists]|].
    destruct (json_Ticks resp) as [ticks [e|]]; split; by eauto.
  - split; by eauto.
Qed.


End Subscriptions.

Lemma X21_GetOHLCV_group_stage_returns_witness :
  exists r, forall (clock' : GoTime.Clock) (reads' : nat),
    services.getGroupTsBson clock' "$createdAt" "week" 2 reads' = Go.Return r.
Proof.
  apply (X21_GetOHLCV_group_stage_returns (fun _ _ => 0) Instances.clock2018
           "week" "week" 2 2 0
           (services.Bucket.mk 1209600
              (Go.sub64 (Z.quot (GoTime.UnixNano (Instances.clock2018 0%nat)) GoTime.Second) 0)
              (Some ("week"%string, 2)))).
  - reflexivity.
  - reflexivity.
Defined.

Lemma X22_group_id_matches_dateFromParts_witness :
  exists stage parts,
    Some (services.addFields_ts
            [("year", services.BString "$_id.year");
             ("month", services.BString "$_id.month");
             ("day", services.BString "$_id.day")]%string (services.BTime 0))
    = Some stage /\
    Props.dateFromParts stage = Some parts /\
    ["year"; "month"; "day"; "pair"; "baseToken"; "quoteToken"]%string
    ≡ₚ map fst parts ++ ["pair"; "baseToken"; "quoteToken"]%string /\
    Forall (fun kv => snd kv = services.BString ("$_id." ++ fst kv)) parts.
Proof.
  destruct (X22_group_id_matches_dateFromParts Instances.clock2018
              "$createdAt" "day" 3 0 _ _ eq_refl)
    as (stage & parts & H1 & H2 & H3 & H4 & _).
  exists stage, parts. exact (conj H1 (conj H2 (conj H3 H4))).
Defined.

Lemma X23_Subscribe_window_witness :
  let channel (bt qt : common.Address) (units : string) (duration : Z) := units in
  let params := types.Params.mk 10 20 5 "min" "" in
  services.Subscribe (fun _ _ => 0) Instances.clock2018 unit unit
    (fun _ => (tt, None)) (fun _ => ([tt], None)) channel (fun _ _ _ => None)
    5%N Instances.addr1 Instances.addr2 params 0 []
  = services.Subscribe (fun _ _ => 7) Instances.clock2024 unit unit
      (fun q => match services.Query.createdAt q with
                | services.MatchRange 10 20 => (tt, None)
                | _ => (tt, Some "unexpected window"%string)
                end)
      (fun _ => ([tt], None)) channel (fun _ _ _ => None)
      5%N Instances.addr1 Instances.addr2 params 3 [].
Proof.
  intros channel params.
  apply (X23_Subscribe_window (fun _ _ => 0) Instances.clock2018 unit unit
           (fun _ => (tt, None)) (fun _ => ([tt], None)) channel (fun _ _ _ => None)
           5%N Instances.addr1 Instances.addr2 params 0 3 []
           (fun _ _ => 7) Instances.clock2024).
  intros q Hq _. rewrite Hq. reflexivity.
Defined.

(** ** The order store *)

Section OrderStore.
Import types daos Props.

Variable Config_DBName : string.
Variable clock : GoTime.Clock.
Variable objectId : nat -> bson.ObjectId.

Lemma has_hash_elem (h : common.Hash) (ds : list Order.t) :
  has_hash h ds = true <-> h ∈ Order.Hash <$> ds.
Proof.
  unfold has_hash. rewrite existsb_exists, list_elem_of_fmap.
  split.
  - intros (d & Hin & Heq). apply N.eqb_eq in Heq.
    exists d. split; [congruence | by apply list_elem_of_In].
  - intros (d & -> & Hin). exists d. split; [by apply list_elem_of_In | apply N.eqb_refl].
Qed.

Lemma distinct_hashes_NoDup (ds : list Order.t) :
  distinct_hashes ds = true <-> NoDup (Order.Hash <$> ds).
Proof.
  induction ds as [|d ds IH]; simpl.
  - split; [intros _; constructor | reflexivity].
  - rewrite andb_true_iff, negb_true_iff, NoDup_cons, IH.
    rewrite <- not_true_iff_false, has_hash_elem. tauto.
Qed.

Lemma NoDup_hash_is_key (ds : list Order.t) :
  NoDup (Order.Hash <$> ds) -> hash_is_key ds.
Proof.
  intros Hnd i j a b Ha Hb Heq.
  apply (proj1 (NoDup_alt _) Hnd i j (Order.Hash a)).
  - by rewrite list_lookup_fmap, Ha.
  - by rewrite list_lookup_fmap, Hb, Heq.
Qed.

Lemma NewOrderDao_indexed (w : World.t) (dao : OrderDao.t) (w1 : World.t) :
  NewOrderDao Config_DBName w = Go.Return (dao, w1) -> indexed w1.
Proof.
  unfold NewOrderDao, EnsureIndex_hash.
  destruct (distinct_hashes (Collection.docs (World.orders w))) eqn:Hd; [|discriminate].
  intros [= _ <-]. split; [reflexivity|]. by apply distinct_hashes_NoDup.
Qed.

Lemma Create_indexed (dao : OrderDao.t) (o : Order.t) (w : World.t) :
  indexed w -> indexed (snd (Create clock objectId dao o w)).
Proof.
  intros [Hu Hnd]. unfold Create, db_Create. cbn.
  destruct (has_id _ _); [by split|].
  rewrite Hu. cbn.
  destruct (has_hash _ _) eqn:Hh; [by split|].
  unfold indexed; simpl. split; [done|].
  rewrite fmap_app. apply NoDup_app. split; [assumption|]. split.
  - intros h Hin Hin'. cbn in Hin'. apply list_elem_of_singleton in Hin'. subst h.
    apply has_hash_elem in Hin. congruence.
  - cbn. apply NoDup_singleton.
Qed.

Lemma Create_all_indexed (dao : OrderDao.t) (os : list Order.t) (w : World.t) :
  indexed w -> indexed (Create_all clock objectId dao os w).
Proof.
  revert w. induction os as [|o os IH]; intros w Hw; [exact Hw|].
  change (indexed (Create_all clock objectId dao os (snd (Create clock objectId dao o w)))).
  apply IH. by apply Create_indexed.
Qed.


(** C6.  Once [NewOrderDao] has installed the unique index on the hash,
    after any run of [Create] calls two stored orders with equal hashes are
    the same record, and [Create] of an order whose hash is already stored
    returns an error and leaves the stored orders as they are. *)
Theorem C6_hash_unique_key (w : World.t) (dao : OrderDao.t) (w1 : World.t)
    (os : list Order.t) :
  NewOrderDao Config_DBName w = Go.Return (dao, w1) ->
  let w2 := Create_all clock objectId dao os w1 in
  Collection.uniqueHash (World.orders w2) = true /\
  hash_is_key (Collection.docs (World.orders w2)) /\
  (forall o : Order.t,
     has_hash (Order.Hash o) (Collection.docs (World.orders w2)) = true ->
     snd (fst (Create clock objectId dao o w2)) <> None /\
     Collection.docs (World.orders (snd (Create clock objectId dao o w2)))
     = Collection.docs (World.orders w2)).
Proof.
  intros Hnew w2.
  pose proof (Create_all_indexed dao os w1 (NewOrderDao_indexed _ _ _ Hnew)) as [Hu Hnd].
  fold w2 in Hu, Hnd.
  split; [exact Hu|]. split; [by apply NoDup_hash_is_key|].
  intros o Ho. unfold Create, db_Create. cbn.
  destruct (has_id _ _); cbn; [by split|].
  rewrite Hu, Ho. cbn. by split.
Qed.

End OrderStore.


Lemma C6_hash_unique_key_witness :
  let dao := daos.OrderDao.mk "orders" "proofdex" in
  let w2 :=
    daos.Create_all Instances.clock2018 Instances.objectId dao
      [Instances.order1] Instances.world1 in
  daos.NewOrderDao "proofdex" Instances.world0 = Go.Return (dao, Instances.world1) /\
  length (daos.Collection.docs (daos.World.orders w2)) = 1%nat /\
  snd (fst (daos.Create Instances.clock2018 Instances.objectId dao Instances.order2 w2))
    <> None /\
  daos.Collection.docs
    (daos.World.orders
       (snd (daos.Create Instances.clock2018 Instances.objectId dao Instances.order2 w2)))
  = daos.Collection.docs (daos.World.orders w2).
Proof.
  intros dao w2.
  pose proof (C6_hash_unique_key "proofdex" Instances.clock2018 Instances.objectId
                Instances.world0 dao Instances.world1
                [Instances.order1] eq_refl) as H.
  cbv zeta in H. destruct H as (_ & _ & H).
  exact (conj eq_refl (conj eq_refl (H Instances.order2 eq_refl))).
Defined.

(** ** Reading the order store *)

Section OrderStoreReads.
Import types daos Props.

Variable clock : GoTime.Clock.
Variable objectId : nat -> bson.ObjectId.

Lemma GetByHash_first (dao : OrderDao.t) (h : common.Hash) (w : World.t) :
  GetByHash dao h w
  = (head (List.filter (fun d => (Order.Hash d =? h)%N) (Collection.docs (World.orders w))),
     None).
Proof.
  unfold GetByHash, db_Get. cbn.
  by destruct (List.filter _ _) as [|d [|d' l]].
Qed.

Lemma filter_hash_nil (h : common.Hash) (ds : list Order.t) :
  has_hash h ds = false -> List.filter (fun d => (Order.Hash d =? h)%N) ds = [].
Proof.
  unfold has_hash. induction ds as [|d ds IH]; [done|]. cbn.
  destruct (Order.Hash d =? h)%N; [done|]. exact IH.
Qed.

Lemma head_filter_hash (h : common.Hash) (ds : list Order.t) :
  has_hash h ds = true ->
  exists (i : nat) (d : Order.t),
    head (List.filter (fun d => (Order.Hash d =? h)%N) ds) = Some d /\
    ds !! i = Some d /\ Order.Hash d = h /\
    forall j d', (j < i)%nat -> ds !! j = Some d' -> Order.Hash d' <> h.
Proof.
  unfold has_hash. induction ds as [|d ds IH]; [done|]. cbn.
  destruct (N.eqb_spec (Order.Hash d) h) as [Heq|Hne]; cbn.
  - intros _. exists 0%nat, d. repeat split; [done|]. intros j d' Hj. lia.
  - intros H. destruct (IH H) as (i & d0 & Hh & Hi & Hd & Hfirst).
    exists (S i), d0. repeat split; [done..|].
    intros [|j] d' Hj Hl; cbn in Hl; [congruence|].
    apply (Hfirst j d'); [lia|done].
Qed.

(** X9.  On a collection that is read without error, [GetByHash] returns
    the stored order with the hash asked for, the one stored first when
    there are several; when there is none it returns [nil] with a [nil]
    error: a missing order is not reported as an error. *)
Theorem X9_GetByHash_found_or_nil (dao : OrderDao.t) (h : common.Hash) (w : World.t) :
  let docs := Collection.docs (World.orders w) in
  (has_hash h docs = false -> GetByHash dao h w = (None, None)) /\
  (has_hash h docs = true ->
   exists (i : nat) (d : Order.t),
     GetByHash dao h w = (Some d, None) /\ docs !! i = Some d /\ Order.Hash d = h /\
     forall j d', (j < i)%nat -> docs !! j = Some d' -> Order.Hash d' <> h).
Proof.
  cbv zeta. rewrite GetByHash_first. split.
  - intros H. by rewrite filter_hash_nil.
  - intros H. destruct (head_filter_hash h _ H) as (i & d & Hh & Hrest).
    exists i, d. by rewrite Hh.
Qed.

(** What [Create] does to the stored orders: nothing, or one record added at
    the end. *)
Lemma Create_docs (dao : OrderDao.t) (o : Order.t) (w : World.t) :
  let result := Create clock objectId dao o w in
  (snd (fst result) <> None /\
   Collection.docs (World.orders (snd result)) = Collection.docs (World.orders w)) \/
  (snd (fst result) = None /\
   Collection.docs (World.orders (snd result))
   = Collection.docs (World.orders w) ++ [fst (fst result)] /\
   has_id (Order.ID (fst (fst result))) (Collection.docs (World.orders w)) = false /\
   (Collection.uniqueHash (World.orders w) = true ->
    has_hash (Order.Hash o) (Collection.docs (World.orders w)) = false)).
Proof.
  cbv zeta. unfold Create, db_Create. cbn.
  destruct (has_id _ _) eqn:Hid; cbn; [by left|].
  destruct (Collection.uniqueHash (World.orders w)) eqn:Hu; cbn.
  - destruct (has_hash _ _) eqn:Hh; cbn; [by left|]. right. by repeat split.
  - right. by repeat split.
Qed.

Lemma Create_record (dao : OrderDao.t) (o : Order.t) (w : World.t) :
  let created := fst (fst (Create clock objectId dao o w)) in
  Order.Status created = "NEW"%string /\
  Order.Hash created = Order.Hash o /\
  Order.UserAddress created = Order.UserAddress o /\
  Order.ID created = objectId (World.ids w).
Proof.
  cbv zeta. unfold Create. cbn.
  by destruct (db_Create _ _) as [[e|] c].
Qed.

(** X10.  Under the unique index, an order that [Create] has stored is the
    one [GetByHash] returns for its hash. *)
Theorem X10_Create_then_GetByHash (dao : OrderDao.t) (o : Order.t) (w : World.t) :
  Collection.uniqueHash (World.orders w) = true ->
  snd (fst (Create clock objectId dao o w)) = None ->
  GetByHash dao (Order.Hash o) (snd (Create clock objectId dao o w))
  = (Some (fst (fst (Create clock objectId dao o w))), None) /\
  Order.Status (fst (fst (Create clock objectId dao o w))) = "NEW"%string.
Proof.
  intros Hu Hok.
  destruct (Create_docs dao o w) as [[Hne _]|(_ & Hdocs & _ & Hh)]; [done|].
  split; [|apply Create_record].
  rewrite GetByHash_first, Hdocs, List.filter_app, filter_hash_nil by auto.
  destruct (Create_record dao o w) as (_ & Hhash & _).
  cbn [List.filter app head]. rewrite Hhash, N.eqb_refl. reflexivity.
Qed.

(** X11.  [Create] never changes or removes a stored order: what
    [GetByHash] returned before a run of [Create] calls it returns after
    it. *)
Theorem X11_Create_keeps_stored_orders (dao : OrderDao.t) (os : list Order.t)
    (w : World.t) (h : common.Hash) (d : Order.t) :
  GetByHash dao h w = (Some d, None) ->
  GetByHash dao h (Create_all clock objectId dao os w) = (Some d, None).
Proof.
  revert w. induction os as [|o os IH]; intros w Hget; [done|].
  change (Create_all clock objectId dao (o :: os) w)
    with (Create_all clock objectId dao os (snd (Create clock objectId dao o w))).
  apply IH. rewrite GetByHash_first in *.
  destruct (Create_docs dao o w) as [[_ ->]|(_ & -> & _)]; [done|].
  rewrite List.filter_app.
  destruct (List.filter _ (Collection.docs (World.orders w))) as [|d0 l]; [done|].
  exact Hget.
Qed.

Lemma Create_ids_known (dao : OrderDao.t) (o : Order.t) (w : World.t) :
  ids_known objectId w -> ids_known objectId (snd (Create clock objectId dao o w)).
Proof.
  intros Hk d Hd.
  assert (World.ids (snd (Create clock objectId dao o w)) = S (World.ids w)) as Hids.
  { unfold Create, db_Create. cbn.
    destruct (has_id _ _); cbn; [done|].
    by destruct (Collection.uniqueHash _ && has_hash _ _). }
  rewrite Hids.
  destruct (Create_docs dao o w) as [[_ Hdocs]|(_ & Hdocs & _)]; rewrite Hdocs in Hd.
  - destruct (Hk d Hd) as (k & Hlt & Hid). exists k. split; [lia|done].
  - apply elem_of_app in Hd as [Hd|Hd].
    + destruct (Hk d Hd) as (k & Hlt & Hid). exists k. split; [lia|done].
    + apply list_elem_of_singleton in Hd as ->. exists (World.ids w).
      split; [lia|apply Create_record].
Qed.

Lemma has_id_fresh (w : World.t) :
  (forall j k : nat, objectId j = objectId k -> j = k) ->
  ids_known objectId w ->
  has_id (objectId (World.ids w)) (Collection.docs (World.orders w)) = false.
Proof.
  intros Hinj Hk. apply not_true_is_false. intros H.
  unfold has_id in H. apply existsb_exists in H as (d & Hin & Heq).
  apply N.eqb_eq in Heq. apply list_elem_of_In in Hin.
  destruct (Hk d Hin) as (k & Hlt & Hid).
  rewrite Hid in Heq. apply Hinj in Heq. lia.
Qed.

Lemma Create_all_hashes (dao : OrderDao.t) (os : list Order.t) (w : World.t) :
  (forall j k : nat, objectId j = objectId k -> j = k) ->
  Collection.uniqueHash (World.orders w) = true ->
  ids_known objectId w ->
  Order.Hash <$> Collection.docs (World.orders (Create_all clock objectId dao os w))
  = (Order.Hash <$> Collection.docs (World.orders w)) ++
    first_occurrences (Order.Hash <$> Collection.docs (World.orders w)) (Order.Hash <$> os).
Proof.
  intros Hinj. revert w. induction os as [|o os IH]; intros w Hu Hk.
  - cbn. by rewrite app_nil_r.
  - change (Create_all clock objectId dao (o :: os) w)
      with (Create_all clock objectId dao os (snd (Create clock objectId dao o w))).
    pose proof (Create_ids_known dao o w Hk) as Hk'.
    pose proof (has_id_fresh w Hinj Hk) as Hfresh.
    assert (Collection.uniqueHash (World.orders (snd (Create clock objectId dao o w)))
            = true) as Hu'.
    { unfold Create, db_Create. cbn.
      destruct (has_id _ _); cbn; [done|].
      by destruct (Collection.uniqueHash _ && has_hash _ _). }
    rewrite (IH _ Hu' Hk'). clear IH.
    cbn [fmap list_fmap first_occurrences].
    assert (Collection.docs (World.orders (snd (Create clock objectId dao o w)))
            = if has_hash (Order.Hash o) (Collection.docs (World.orders w))
              then Collection.docs (World.orders w)
              else Collection.docs (World.orders w) ++ [fst (fst (Create clock objectId dao o w))])
      as Hdocs.
    { unfold Create, db_Create. cbn. cbn in Hfresh. rewrite Hfresh, Hu. cbn.
      by destruct (has_hash _ _). }
    rewrite Hdocs.
    destruct (has_hash (Order.Hash o) (Collection.docs (World.orders w))) eqn:Hh.
    + rewrite bool_decide_eq_true_2 by (by apply has_hash_elem). done.
    + rewrite bool_decide_eq_false_2
        by (intros Hin; apply has_hash_elem in Hin; congruence).
      destruct (Create_record dao o w) as (_ & Hhash & _).
      rewrite fmap_app. cbn [fmap list_fmap]. rewrite Hhash.
      by rewrite <- app_assoc.
Qed.

Lemma Create_same_terms (dao : OrderDao.t) (o : Order.t) (w : World.t) :
  same_terms (fst (fst (Create clock objectId dao o w))) o.
Proof.
  unfold Create, same_terms. cbn.
  by destruct (db_Create _ _) as [[e|] c].
Qed.

(** [Create] on a collection with the unique index, when the new id is not
    in use: the insert is refused exactly when the hash is stored
    already. *)
Lemma Create_by_hash (dao : OrderDao.t) (o : Order.t) (w : World.t) :
  Collection.uniqueHash (World.orders w) = true ->
  has_id (objectId (World.ids w)) (Collection.docs (World.orders w)) = false ->
  let result := Create clock objectId dao o w in
  snd (fst result)
  = (if has_hash (Order.Hash o) (Collection.docs (World.orders w))
     then Some duplicateKey else None) /\
  Collection.docs (World.orders (snd result))
  = (if has_hash (Order.Hash o) (Collection.docs (World.orders w))
     then Collection.docs (World.orders w)
     else Collection.docs (World.orders w) ++ [fst (fst result)]) /\
  Collection.uniqueHash (World.orders (snd result)) = true /\
  World.ids (snd result) = S (World.ids w).
Proof.
  intros Hu Hfresh. cbv zeta. unfold Create, db_Create. cbn. cbn in Hfresh.
  rewrite Hfresh, Hu. cbn.
  by destruct (has_hash _ _).
Qed.

Lemma Create_run_spec (dao : OrderDao.t) (os : list Order.t) (w : World.t) :
  (forall j k : nat, objectId j = objectId k -> j = k) ->
  Collection.uniqueHash (World.orders w) = true ->
  ids_known objectId w ->
  (forall i o, os !! i = Some o ->
     exists rec err,
       Create_run clock objectId dao os w !! i = Some (rec, err) /\
       same_terms rec o /\ Order.Hash rec = Order.Hash o /\
       Order.ID rec = objectId (World.ids w + i) /\
       Order.Status rec = "NEW"%string /\
       err = if bool_decide
                  (Order.Hash o ∈ (Order.Hash <$> Collection.docs (World.orders w)) ++
                                  (Order.Hash <$> take i os))
             then Some duplicateKey else None) /\
  Collection.docs (World.orders (Create_all clock objectId dao os w))
  = Collection.docs (World.orders w) ++
    (fst <$> List.filter is_stored (Create_run clock objectId dao os w)).
Proof.
  intros Hinj. revert w. induction os as [|o os IH]; intros w Hu Hk.
  { split; [intros i o Hi; by destruct i|]. cbn. by rewrite app_nil_r. }
  change (Create_all clock objectId dao (o :: os) w)
    with (Create_all clock objectId dao os (snd (Create clock objectId dao o w))).
  cbn [Create_run].
  pose proof (Create_ids_known dao o w Hk) as Hk'.
  pose proof (has_id_fresh w Hinj Hk) as Hfresh.
  destruct (Create_by_hash dao o w Hu Hfresh) as (Herr & Hdocs & Hu' & Hids).
  destruct (Create_record dao o w) as (Hstatus & Hhash & _ & Hid).
  destruct (IH _ Hu' Hk') as [IHrun IHdocs]. clear IH.
  set (r := Create clock objectId dao o w) in *.
  split.
  - intros [|i] o1 Hi.
    + injection Hi as <-. exists (fst (fst r)), (snd (fst r)).
      split; [by destruct (fst r)|]. split; [apply Create_same_terms|].
      split; [done|]. split; [by rewrite Nat.add_0_r|]. split; [done|].
      rewrite Herr. cbn [take fmap list_fmap]. rewrite app_nil_r.
      destruct (has_hash _ _) eqn:Hh.
      * by rewrite bool_decide_eq_true_2 by (by apply has_hash_elem).
      * by rewrite bool_decide_eq_false_2
          by (intros Hin; apply has_hash_elem in Hin; congruence).
    + cbn in Hi. destruct (IHrun i o1 Hi) as (rec & err & Hrun & Hterms & Hh & Hi' & Hs & He).
      exists rec, err. split; [exact Hrun|]. split; [done|]. split; [done|].
      split; [by rewrite Hi', Hids, Nat.add_succ_r|]. split; [done|].
      rewrite He.
      match goal with
      | |- (if bool_decide ?P then _ else _) = (if bool_decide ?Q then _ else _) =>
        rewrite (bool_decide_ext P Q); [reflexivity|]
      end.
      cbn [take fmap list_fmap]. rewrite Hdocs.
      destruct (has_hash (Order.Hash o) (Collection.docs (World.orders w))) eqn:Hh0.
      * apply has_hash_elem in Hh0.
        rewrite !elem_of_app, elem_of_cons. split; [tauto|].
        intros [H|[->|H]]; tauto.
      * rewrite fmap_app, <- app_assoc. cbn [fmap list_fmap app]. by rewrite Hhash.
  - rewrite IHdocs, Hdocs. cbn [List.filter]. unfold is_stored at 2. rewrite Herr.
    destruct (has_hash _ _); [done|]. cbn [fmap list_fmap]. by rewrite <- app_assoc.
Qed.

(** X12.  First writer wins.  Starting from an empty collection with the
    unique index and with object ids that are never handed out twice, every
    call of a run of [Create] calls leaves its order with the terms it was
    given, a new id and the status NEW; the call returns no error exactly
    when no earlier order of the run carries the same hash, and the
    duplicate-key error otherwise; and the collection holds in the end the
    records of the calls that returned no error, in their order, and no
    other: for every hash the first order that carried it. *)
Theorem X12_first_order_of_a_hash_wins (dao : OrderDao.t) (os : list Order.t)
    (reads ids : nat) :
  (forall j k : nat, objectId j = objectId k -> j = k) ->
  let w0 := World.mk (Collection.mk [] true) reads ids in
  let run := Create_run clock objectId dao os w0 in
  let docs := Collection.docs (World.orders (Create_all clock objectId dao os w0)) in
  (forall i o, os !! i = Some o ->
     exists rec err,
       run !! i = Some (rec, err) /\
       same_terms rec o /\ Order.Hash rec = Order.Hash o /\
       Order.ID rec = objectId (ids + i) /\ Order.Status rec = "NEW"%string /\
       (err = None <->
        forall j o', (j < i)%nat -> os !! j = Some o' -> Order.Hash o' <> Order.Hash o) /\
       (err <> None -> err = Some duplicateKey)) /\
  docs = fst <$> List.filter is_stored run /\
  Order.Hash <$> docs = first_occurrences [] (Order.Hash <$> os).
Proof.
  intros Hinj. cbv zeta.
  set (w0 := World.mk (Collection.mk [] true) reads ids).
  assert (ids_known objectId w0) as Hk by (intros d Hd; by apply elem_of_nil in Hd).
  destruct (Create_run_spec dao os w0 Hinj eq_refl Hk) as [Hrun Hdocs].
  split; [|split].
  - intros i o Hi.
    destruct (Hrun i o Hi) as (rec & err & Hr & Hterms & Hh & Hid & Hs & He).
    exists rec, err. repeat (split; [done|]).
    cbn [w0 World.orders Collection.docs fmap list_fmap app] in He.
    destruct (decide (Order.Hash o ∈ Order.Hash <$> take i os)) as [Hin|Hnot].
    + rewrite bool_decide_eq_true_2 in He by done. subst err.
      split; [|done]. split; [discriminate|]. intros Hfirst. exfalso.
      apply list_elem_of_fmap in Hin as (o' & Heq & Hin).
      apply elem_of_take in Hin as (j & Hj & Hlt).
      by apply (Hfirst j o' Hlt Hj).
    + rewrite bool_decide_eq_false_2 in He by done. subst err.
      split; [|done]. split; [|done]. intros _ j o' Hlt Hj Heq.
      apply Hnot, list_elem_of_fmap. exists o'. split; [done|].
      apply elem_of_take. by exists j.
  - by rewrite Hdocs.
  - by rewrite (Create_all_hashes dao os w0 Hinj eq_refl Hk).
Qed.

Lemma GetByUserAddress_filter (dao : OrderDao.t) (u : common.Address) (w : World.t) :
  GetByUserAddress dao u w
  = (List.filter (fun d => (Order.UserAddress d =? u)%N) (Collection.docs (World.orders w)),
     None).
Proof. reflexivity. Qed.

(** X13.  [GetByUserAddress] lists the stored orders of the address in the
    order they were stored.  A [Create] that succeeds adds its record, with
    status NEW, at the end of the list of the maker of the order and leaves
    the lists of all other addresses as they were; a [Create] that fails
    leaves every list as it was. *)
Theorem X13_GetByUserAddress_after_Create (dao : OrderDao.t) (o : Order.t)
    (w : World.t) (u : common.Address) :
  let result := Create clock objectId dao o w in
  GetByUserAddress dao u (snd result)
  = (fst (GetByUserAddress dao u w) ++
       (if negb (bool_decide (snd (fst result) = None)) then []
        else if (Order.UserAddress o =? u)%N then [fst (fst result)] else []),
     None).
Proof.
  cbv zeta. rewrite !GetByUserAddress_filter. cbn [fst].
  destruct (Create_docs dao o w) as [[Hne ->]|(Hok & -> & _)].
  - rewrite bool_decide_eq_false_2 by done. cbn. by rewrite app_nil_r.
  - rewrite bool_decide_eq_true_2 by done. cbn [negb].
    rewrite List.filter_app. cbn [List.filter].
    destruct (Create_record dao o w) as (_ & _ & Huser & _). rewrite Huser.
    by destruct (Order.UserAddress o =? u)%N.
Qed.

End OrderStoreReads.

Lemma X10_Create_then_GetByHash_witness :
  let dao := daos.OrderDao.mk "orders" "proofdex" in
  let result := daos.Create Instances.clock2018 Instances.objectId dao
                  Instances.order1 Instances.world1 in
  daos.GetByHash dao 0xabc%N (snd result) = (Some (fst (fst result)), None) /\
  types.Order.Status (fst (fst result)) = "NEW"%string.
Proof.
  intros dao result.
  exact (X10_Create_then_GetByHash Instances.clock2018 Instances.objectId dao
           Instances.order1 Instances.world1 eq_refl eq_refl).
Defined.

Lemma X11_Create_keeps_stored_orders_witness :
  let dao := daos.OrderDao.mk "orders" "proofdex" in
  let w := snd (daos.Create Instances.clock2018 Instances.objectId dao
                  Instances.order1 Instances.world0) in
  exists d,
    daos.GetByHash dao 0xabc%N w = (Some d, None) /\
    daos.GetByHash dao 0xabc%N
      (daos.Create_all Instances.clock2018 Instances.objectId dao
         [Instances.order2; Instances.order1] w) = (Some d, None).
Proof.
  intros dao w. eexists. split; [reflexivity|].
  apply (X11_Create_keeps_stored_orders Instances.clock2018 Instances.objectId dao
           [Instances.order2; Instances.order1] w 0xabc%N).
  reflexivity.
Defined.

Lemma X12_first_order_of_a_hash_wins_witness :
  let dao := daos.OrderDao.mk "orders" "proofdex" in
  let os := [Instances.order1; Instances.order2] in
  let run := Props.Create_run Instances.clock2018 Instances.objectId dao os
               Instances.world1 in
  let docs :=
    daos.Collection.docs
      (daos.World.orders
         (daos.Create_all Instances.clock2018 Instances.objectId dao os Instances.world1)) in
  snd <$> run = [None; Some daos.duplicateKey] /\
  docs = fst <$> List.filter Props.is_stored run /\
  types.Order.UserAddress <$> docs = [types.Order.UserAddress Instances.order1] /\
  (exists rec err,
     run !! 1%nat = Some (rec, err) /\ Props.same_terms rec Instances.order2 /\
     err = Some daos.duplicateKey).
Proof.
  intros dao os run docs.
  destruct (X12_first_order_of_a_hash_wins Instances.clock2018 Instances.objectId
              dao os 0 0)
    as (Hrun & Hdocs & _).
  { unfold Instances.objectId. intros j k H. lia. }
  split; [vm_compute; reflexivity|]. split; [exact Hdocs|].
  split; [vm_compute; reflexivity|].
  destruct (Hrun 1%nat Instances.order2 eq_refl)
    as (rec & err & Hr & Hterms & _ & _ & _ & Hnone & Hdup).
  exists rec, err. split; [exact Hr|]. split; [exact Hterms|].
  apply Hdup. intros He.
  apply (proj1 Hnone He 0%nat Instances.order1); [lia|reflexivity|reflexivity].
Defined.

Lemma X9_GetByHash_found_or_nil_witness :
  let dao := daos.OrderDao.mk "orders" "proofdex" in
  let w := daos.Create_all Instances.clock2018 Instances.objectId dao
             [Instances.order1; Instances.order2] Instances.world0 in
  daos.GetByHash dao 0xdead%N w = (None, None) /\
  exists (i : nat) (d : types.Order.t),
    daos.GetByHash dao 0xabc%N w = (Some d, None) /\
    daos.Collection.docs (daos.World.orders w) !! i = Some d /\
    types.Order.Hash d = 0xabc%N /\
    forall j d', (j < i)%nat -> daos.Collection.docs (daos.World.orders w) !! j = Some d' ->
                 types.Order.Hash d' <> 0xabc%N.
Proof.
  intros dao w.
  exact (conj (proj1 (X9_GetByHash_found_or_nil dao 0xdead%N w) eq_refl)
              (proj2 (X9_GetByHash_found_or_nil dao 0xabc%N w) eq_refl)).
Defined.

(** ** The account service *)

Section AccountService.
Import types services Props.

Variable Store : Type.
Variable AccountDao_GetByAddress :
  common.Address -> Store -> option Account.t * option string.
Variable TokenDao_GetAll : Store -> list Token.t * option string.
Variable AccountDao_Create : Account.t -> Store -> option string * Store.

Lemma add_token_balance_insert (m : gmap N TokenBalance.t) (token : Token.t) :
  add_token_balance m token = <[Token.ContractAddress token := initial_balance token]> m.
Proof. reflexivity. Qed.

(** Every entry of the map the loop builds is the initial balance of a
    token of the list, under the contract address of that token, or was in
    the map before. *)
Lemma fold_balances_lookup (tokens : list Token.t) (m : gmap N TokenBalance.t)
    (k : N) (tb : TokenBalance.t) :
  fold_left add_token_balance tokens m !! k = Some tb ->
  (exists token, token ∈ tokens /\ k = Token.ContractAddress token /\
                 tb = initial_balance token) \/
  m !! k = Some tb.
Proof.
  revert m. induction tokens as [|t ts IH]; intros m H; cbn in H.
  - by right.
  - apply IH in H as [(token & Hin & Hk & Htb)|H].
    + left. exists token. split; [by apply list_elem_of_further|done].
    + rewrite add_token_balance_insert in H.
      destruct (decide (Token.ContractAddress t = k)) as [<-|Hne].
      * rewrite lookup_insert_eq in H. injection H as <-.
        left. exists t. split; [apply list_elem_of_here|done].
      * rewrite lookup_insert_ne in H by done. by right.
Qed.

(** Tokens with other contract addresses leave a key alone. *)
Lemma fold_balances_other (tokens : list Token.t) (m : gmap N TokenBalance.t) (k : N) :
  Forall (fun t => Token.ContractAddress t <> k) tokens ->
  fold_left add_token_balance tokens m !! k = m !! k.
Proof.
  revert m. induction tokens as [|t ts IH]; intros m Hk; [done|].
  apply Forall_cons in Hk as [Ht Hts]. cbn.
  rewrite IH by done. rewrite add_token_balance_insert. by apply lookup_insert_ne.
Qed.

(** A contract address that occurs in the list is bound to the initial
    balance of a token of the list with that address. *)
Lemma fold_balances_key (tokens : list Token.t) (m : gmap N TokenBalance.t) (k : N) :
  Exists (fun t => Token.ContractAddress t = k) tokens ->
  exists token, token ∈ tokens /\ Token.ContractAddress token = k /\
    fold_left add_token_balance tokens m !! k = Some (initial_balance token).
Proof.
  revert m. induction tokens as [|t ts IH]; intros m Hex.
  - by apply Exists_nil in Hex.
  - cbn. destruct (decide (Exists (fun t => Token.ContractAddress t = k) ts)) as [Hts|Hts].
    + destruct (IH (add_token_balance m t) Hts) as (token & Hin & Hk & Hl).
      exists token. split; [by apply list_elem_of_further|done].
    + apply Exists_cons in Hex as [Ht|Hex]; [|done].
      exists t. split; [apply list_elem_of_here|]. split; [done|].
      rewrite fold_balances_other.
      * rewrite add_token_balance_insert, <- Ht. apply lookup_insert_eq.
      * apply Forall_forall. intros x Hx Hxk. apply Hts.
        apply Exists_exists. by exists x.
Qed.

(** Every token of the list has an entry under its contract address, with
    the initial amounts. *)
Lemma fold_balances_token (tokens : list Token.t) (m : gmap N TokenBalance.t)
    (token : Token.t) :
  token ∈ tokens ->
  exists tb, fold_left add_token_balance tokens m !! Token.ContractAddress token = Some tb /\
             TokenBalance.Address tb = Token.ContractAddress token /\
             TokenBalance.Balance tb = Some 100000 /\
             TokenBalance.Allowance tb = Some 100000 /\
             TokenBalance.LockedBalance tb = Some 0.
Proof.
  intros Hin.
  destruct (fold_balances_key tokens m (Token.ContractAddress token))
    as (token' & _ & Hk & Hl).
  { apply Exists_exists. by exists token. }
  exists (initial_balance token'). split; [exact Hl|]. cbn. by rewrite Hk.
Qed.

(** C9.  When the lookup by address finds a stored account, [Create]
    returns ACCOUNT_ALREADY_EXISTS and leaves the store as it is.  When it
    finds none and the tokens are read, [Create] hands the account DAO the
    account with [IsBlocked] false and a balance map that has, under the
    contract address of every known token, an entry with balance 100000,
    allowance 100000 and locked balance 0, and nothing else; its result and
    store are those of the DAO. *)
Theorem C9_Create_account (account : Account.t) (st : Store) :
  (forall (acc : Account.t) (e : option string),
     AccountDao_GetByAddress (Account.Address account) st = (Some acc, e) ->
     e = None \/ e = Some "NO_ACCOUNT_FOUND"%string ->
     Create Store AccountDao_GetByAddress TokenDao_GetAll AccountDao_Create account st
     = (Some "ACCOUNT_ALREADY_EXISTS"%string, st)) /\
  (forall (e : option string) (tokens : list Token.t),
     AccountDao_GetByAddress (Account.Address account) st = (None, e) ->
     e = None \/ e = Some "NO_ACCOUNT_FOUND"%string ->
     TokenDao_GetAll st = (tokens, None) ->
     exists stored : Account.t,
       Create Store AccountDao_GetByAddress TokenDao_GetAll AccountDao_Create account st
       = AccountDao_Create stored st /\
       Account.Address stored = Account.Address account /\
       Account.IsBlocked stored = false /\
       (forall token, token ∈ tokens ->
          exists tb,
            Account.TokenBalances stored !! Token.ContractAddress token = Some tb /\
            TokenBalance.Address tb = Token.ContractAddress token /\
            TokenBalance.Balance tb = Some 100000 /\
            TokenBalance.Allowance tb = Some 100000 /\
            TokenBalance.LockedBalance tb = Some 0) /\
       (forall k tb,
          Account.TokenBalances stored !! k = Some tb ->
          exists token, token ∈ tokens /\ k = Token.ContractAddress token /\
                        tb = initial_balance token)).
Proof.
  split.
  - intros acc e Hget He. unfold Create. rewrite Hget.
    destruct He as [->| ->]; reflexivity.
  - intros e tokens Hget He Htok. unfold Create. rewrite Hget, Htok.
    eexists. split; [destruct He as [->| ->]; reflexivity|].
    cbn. split; [reflexivity|]. split; [reflexivity|]. split.
    + intros token Hin. by apply fold_balances_token.
    + intros k tb Hl. apply fold_balances_lookup in Hl as [H|H]; [exact H|].
      by rewrite lookup_empty in H.
Qed.

End AccountService.

Lemma C9_Create_account_witness :
  Instances.mem_Service_Create Instances.account1 Instances.store1
  = (Some "ACCOUNT_ALREADY_EXISTS"%string, Instances.store1) /\
  exists stored : types.Account.t,
    Instances.mem_Service_Create Instances.newcomer Instances.store1
    = Instances.mem_Create stored Instances.store1 /\
    types.Account.IsBlocked stored = false /\
    (types.TokenBalance.Balance <$>
       types.Account.TokenBalances stored !! Instances.addr1) = Some (Some 100000).
Proof.
  pose proof (C9_Create_account Instances.MemStore.t Instances.mem_GetByAddress
                Instances.mem_GetAll Instances.mem_Create) as H.
  split.
  - exact (proj1 (H Instances.account1 Instances.store1) Instances.account1 None
             eq_refl (or_introl eq_refl)).
  - destruct (proj2 (H Instances.newcomer Instances.store1) None
                (Instances.MemStore.tokens Instances.store1)
                eq_refl (or_introl eq_refl) eq_refl)
      as (stored & Hc & _ & Hb & Htok & _).
    exists stored. split; [exact Hc|]. split; [exact Hb|].
    destruct (Htok (types.Token.mk 8%N "WETH" Instances.addr1))
      as (tb & Hl & _ & Hbal & _).
    + apply list_elem_of_further, list_elem_of_here.
    + cbn in Hl. rewrite Hl. cbn. by rewrite Hbal.
Defined.

(** ** The account service: refusals and repeated calls *)

Section AccountService_more.
Import types services.

Variable Store : Type.
Variable AccountDao_GetByAddress :
  common.Address -> Store -> option Account.t * option string.
Variable TokenDao_GetAll : Store -> list Token.t * option string.
Variable AccountDao_Create : Account.t -> Store -> option string * Store.

Abbreviation Create_ :=
  (Create Store AccountDao_GetByAddress TokenDao_GetAll AccountDao_Create).

(** X14.  [Create] passes on the errors of the two lookups and writes
    nothing then: an error of [GetByAddress] other than NO_ACCOUNT_FOUND is
    returned as it is, also when the lookup came with an account, and so is
    an error of [TokenDao.GetAll]. *)
Theorem X14_Create_lookup_errors (account : Account.t) (st : Store) :
  (forall (acc : option Account.t) (e : string),
     AccountDao_GetByAddress (Account.Address account) st = (acc, Some e) ->
     e <> "NO_ACCOUNT_FOUND"%string ->
     Create_ account st = (Some e, st)) /\
  (forall (e0 : option string) (tokens : list Token.t) (e : string),
     AccountDao_GetByAddress (Account.Address account) st = (None, e0) ->
     e0 = None \/ e0 = Some "NO_ACCOUNT_FOUND"%string ->
     TokenDao_GetAll st = (tokens, Some e) ->
     Create_ account st = (Some e, st)).
Proof.
  split.
  - intros acc e Hget Hne. unfold Create. rewrite Hget.
    apply String.eqb_neq in Hne. by rewrite Hne.
  - intros e0 tokens e Hget He0 Htok. unfold Create. rewrite Hget, Htok.
    destruct He0 as [->| ->]; reflexivity.
Qed.

(** X15.  [Create] overwrites the balances and the blocked flag of the
    account it is given before anything is stored: two accounts that differ
    only there are treated alike. *)
Theorem X15_Create_resets_balances (a b : Account.t) (st : Store) :
  Account.ID a = Account.ID b ->
  Account.Address a = Account.Address b ->
  Account.CreatedAt a = Account.CreatedAt b ->
  Account.UpdatedAt a = Account.UpdatedAt b ->
  Create_ a st = Create_ b st.
Proof.
  intros Hid Haddr Hc Hu. unfold Create. by rewrite Hid, Haddr, Hc, Hu.
Qed.

(** X16.  Over a DAO that finds the accounts it has stored, [Create] is
    not repeated: after a [Create] that returned no error, a [Create] for
    the same address returns ACCOUNT_ALREADY_EXISTS and leaves the store as
    it is. *)
Theorem X16_Create_twice (a b : Account.t) (st st' : Store) :
  (forall (x : Account.t) (s s' : Store),
     AccountDao_Create x s = (None, s') ->
     exists found, AccountDao_GetByAddress (Account.Address x) s' = (Some found, None)) ->
  Create_ a st = (None, st') ->
  Account.Address b = Account.Address a ->
  Create_ b st' = (Some "ACCOUNT_ALREADY_EXISTS"%string, st').
Proof.
  intros Hlaw Hfirst Haddr.
  assert (exists stored, AccountDao_Create stored st = (None, st') /\
                         Account.Address stored = Account.Address a)
    as (stored & Hc & Hs).
  { unfold Create in Hfirst.
    destruct (AccountDao_GetByAddress (Account.Address a) st) as [acc err].
    destruct (TokenDao_GetAll st) as [tokens terr].
    destruct err as [e|].
    - destruct (String.eqb e "NO_ACCOUNT_FOUND"); [|discriminate].
      destruct acc; [discriminate|]. destruct terr; [discriminate|].
      eexists. split; [exact Hfirst|reflexivity].
    - destruct acc; [discriminate|]. destruct terr; [discriminate|].
      eexists. split; [exact Hfirst|reflexivity]. }
  destruct (Hlaw stored st st' Hc) as [found Hfound].
  unfold Create. by rewrite Haddr, <- Hs, Hfound.
Qed.

End AccountService_more.

Lemma X14_Create_lookup_errors_witness :
  services.Create Instances.MemStore.t
    (fun _ st => (Some Instances.account1, Some "connection lost"%string))
    Instances.mem_GetAll Instances.mem_Create Instances.newcomer Instances.store1
  = (Some "connection lost"%string, Instances.store1) /\
  services.Create Instances.MemStore.t Instances.mem_GetByAddress
    (fun _ => ([], Some "no tokens"%string))
    Instances.mem_Create Instances.newcomer Instances.store1
  = (Some "no tokens"%string, Instances.store1).
Proof.
  split.
  - apply (proj1 (X14_Create_lookup_errors Instances.MemStore.t
                    (fun _ st => (Some Instances.account1, Some "connection lost"%string))
                    Instances.mem_GetAll Instances.mem_Create
                    Instances.newcomer Instances.store1)
             (Some Instances.account1) "connection lost"%string).
    + reflexivity.
    + discriminate.
  - apply (proj2 (X14_Create_lookup_errors Instances.MemStore.t Instances.mem_GetByAddress
                    (fun _ => ([], Some "no tokens"%string)) Instances.mem_Create
                    Instances.newcomer Instances.store1)
             None [] "no tokens"%string).
    + reflexivity.
    + by left.
    + reflexivity.
Defined.

Lemma X15_Create_resets_balances_witness :
  Instances.mem_Service_Create Instances.newcomer Instances.store1
  = Instances.mem_Service_Create
      (types.Account.mk 0%N Instances.addr2
         (types.Account.TokenBalances Instances.account1) false 0%Z 0%Z)
      Instances.store1.
Proof.
  apply (X15_Create_resets_balances Instances.MemStore.t Instances.mem_GetByAddress
           Instances.mem_GetAll Instances.mem_Create); reflexivity.
Defined.

Lemma X16_Create_twice_witness :
  Instances.mem_Service_Create Instances.newcomer
    (snd (Instances.mem_Service_Create Instances.newcomer Instances.store1))
  = (Some "ACCOUNT_ALREADY_EXISTS"%string,
     snd (Instances.mem_Service_Create Instances.newcomer Instances.store1)).
Proof.
  apply (X16_Create_twice Instances.MemStore.t Instances.mem_GetByAddress
           Instances.mem_GetAll Instances.mem_Create
           Instances.newcomer Instances.newcomer Instances.store1).
  - intros x s s' [= <-]. exists x. unfold Instances.mem_GetByAddress. cbn.
    by rewrite lookup_insert_eq.
  - reflexivity.
  - reflexivity.
Defined.

(** ** Account serialization *)

Section Serialization.
Import common types Props.

(** *** Hexadecimal *)

Lemma hexdigit_lower (n : N) :
  (n < 16)%N -> is_lower_hex_digit (hexdigit n) = true.
Proof.
  intros Hn.
  assert (exists k : nat, (k < 16)%nat /\ n = N.of_nat k) as (k & Hk & ->)
    by (exists (N.to_nat n); lia).
  do 16 (destruct k as [|k]; [reflexivity|]). lia.
Qed.

Lemma hex_EncodeToString_length (bs : list N) :
  length (hex_EncodeToString bs) = (2 * length bs)%nat.
Proof.
  unfold hex_EncodeToString. induction bs as [|b bs IH]; [reflexivity|].
  cbn [flat_map length app]. rewrite IH. cbn. lia.
Qed.

Lemma hex_EncodeToString_lower (bs : list N) :
  Forall (fun b => (b < 256)%N) bs ->
  forallb is_lower_hex_digit (hex_EncodeToString bs) = true.
Proof.
  unfold hex_EncodeToString.
  induction 1 as [|b bs Hb _ IH]; [reflexivity|].
  cbn [flat_map app forallb]. rewrite IH.
  rewrite !hexdigit_lower; [reflexivity| |].
  - apply N.mod_upper_bound. discriminate.
  - apply N.Div0.div_lt_upper_bound. exact Hb.
Qed.

Lemma Address_Bytes_length (a : Address) : length (Address_Bytes a) = 20%nat.
Proof. unfold Address_Bytes. by rewrite length_map, length_seq. Qed.

Lemma Address_Bytes_range (a : Address) :
  Forall (fun b => (b < 256)%N) (Address_Bytes a).
Proof.
  unfold Address_Bytes. apply Forall_forall. intros b Hb.
  apply list_elem_of_In, in_map_iff in Hb as (i & <- & _).
  apply N.mod_upper_bound. discriminate.
Qed.

(** One step of the loop of [Address.Hex] on a lowercase hexadecimal digit:
    the character stays a hexadecimal digit and only its case may change. *)
Lemma checksum_step (c : ascii) (up : bool) :
  is_lower_hex_digit c = true ->
  let c' := if ((57 <? N_of_ascii c)%N && up)
            then ascii_of_N (N_of_ascii c - 32) else c in
  is_hex_digit c' = true /\ to_lower c' = c.
Proof.
  destruct c as [[|] [|] [|] [|] [|] [|] [|] [|]]; destruct up;
    intros H; try discriminate H; split; reflexivity.
Qed.

Lemma checksum_case_spec (hash : list N) (i : nat) (result : list ascii) :
  forallb is_lower_hex_digit result = true ->
  length (checksum_case hash i result) = length result /\
  forallb is_hex_digit (checksum_case hash i result) = true /\
  map to_lower (checksum_case hash i result) = result.
Proof.
  revert i. induction result as [|c rest IH]; intros i H; [done|].
  cbn [forallb] in H. apply andb_true_iff in H as [Hc Hrest].
  destruct (IH (S i) Hrest) as (Hl & Hh & Hm).
  cbn [checksum_case length forallb map].
  set (nib := if (i mod 2 =? 0)%nat then N.shiftr (nth (i / 2) hash 0%N) 4
              else N.land (nth (i / 2) hash 0%N) 15).
  destruct (checksum_step c (7 <? nib)%N Hc) as [H1 H2].
  cbv zeta in H1, H2. rewrite H1, H2, Hl, Hh, Hm. done.
Qed.

Lemma Address_Hex_spec (a : Address) : hex_address_of a (Address_Hex a).
Proof.
  unfold Address_Hex.
  set (u := hex_EncodeToString (Address_Bytes a)).
  assert (forallb is_lower_hex_digit u = true) as Hu
    by apply hex_EncodeToString_lower, Address_Bytes_range.
  destruct (checksum_case_spec (Keccak.Keccak256 (map N_of_ascii u)) 0 u Hu)
    as (Hl & Hh & Hm).
  eexists. split; [reflexivity|]. split; [|by split].
  rewrite Hl. subst u. by rewrite hex_EncodeToString_length, Address_Bytes_length.
Qed.

(** The loop of [Address.Hex] against the rule of EIP-55, digit by digit. *)
Lemma letter_case (l : ascii) :
  is_lower_hex_digit l = true ->
  (57 <? N_of_ascii l)%N = is_hex_letter l /\
  ascii_of_N (N_of_ascii l - 32) = (if is_hex_letter l then to_upper l
                                    else ascii_of_N (N_of_ascii l - 32)).
Proof.
  destruct l as [[|] [|] [|] [|] [|] [|] [|] [|]];
    intros H; try discriminate H; split; reflexivity.
Qed.

Lemma even_mod2 (i : nat) : Nat.even i = (i mod 2 =? 0)%nat.
Proof.
  destruct (Nat.even i) eqn:E; symmetry.
  - apply Nat.even_spec in E as [k ->]. apply Nat.eqb_eq.
    rewrite Nat.mul_comm. apply Nat.Div0.mod_mul.
  - apply Nat.eqb_neq. intros H.
    assert (Nat.even i = true) as E'; [|congruence].
    apply Nat.even_spec. exists (i / 2)%nat.
    pose proof (Nat.div_mod_eq i 2). lia.
Qed.

Lemma hash_nibble (hash : list N) (i : nat) :
  (if (i mod 2 =? 0)%nat then N.shiftr (nth (i / 2) hash 0%N) 4
   else N.land (nth (i / 2) hash 0%N) 15)
  = nibble hash i.
Proof.
  unfold nibble. rewrite even_mod2.
  destruct (i mod 2 =? 0)%nat.
  - by rewrite N.shiftr_div_pow2.
  - change 15%N with (N.ones 4). by rewrite N.land_ones.
Qed.

Lemma checksum_case_lookup (hash : list N) (result : list ascii) (i0 j : nat) (l : ascii) :
  forallb is_lower_hex_digit result = true ->
  result !! j = Some l ->
  checksum_case hash i0 result !! j
  = Some (if is_hex_letter l && (8 <=? nibble hash (i0 + j))%N then to_upper l else l).
Proof.
  revert i0 j. induction result as [|c rest IH]; intros i0 j H Hj; [done|].
  cbn [forallb] in H. apply andb_true_iff in H as [Hc Hrest].
  destruct j as [|j]; cbn [checksum_case]; rewrite lookup_cons.
  - rewrite lookup_cons in Hj. injection Hj as ->. rewrite Nat.add_0_r. f_equal.
    rewrite hash_nibble.
    destruct (letter_case l Hc) as [-> Hup].
    replace (7 <? nibble hash i0)%N with (8 <=? nibble hash i0)%N
      by (destruct (N.ltb_spec 7 (nibble hash i0)), (N.leb_spec 8 (nibble hash i0));
          (reflexivity || lia)).
    destruct (is_hex_letter l); [|done]. cbn [andb].
    by destruct (8 <=? nibble hash i0)%N.
  - rewrite lookup_cons in Hj.
    rewrite (IH (S i0) j Hrest Hj). by rewrite Nat.add_succ_r.
Qed.

(** [Address.Hex] is the EIP-55 rendering. *)
Lemma Address_Hex_checksummed (a : Address) : eip55_of a (Address_Hex a).
Proof.
  unfold Address_Hex, eip55_of.
  set (u := hex_EncodeToString (Address_Bytes a)).
  assert (forallb is_lower_hex_digit u = true) as Hu
    by apply hex_EncodeToString_lower, Address_Bytes_range.
  destruct (checksum_case_spec (Keccak.Keccak256 (map N_of_ascii u)) 0 u Hu)
    as (Hl & _ & _).
  eexists. split; [reflexivity|]. split.
  - rewrite Hl. subst u. by rewrite hex_EncodeToString_length, Address_Bytes_length.
  - intros i l Hi. by apply (checksum_case_lookup _ u 0 i l Hu).
Qed.

Lemma is_lower_hex_is_hex (c : ascii) :
  is_lower_hex_digit c = true -> is_hex_digit c = true /\ to_lower c = c.
Proof.
  intros H. destruct (checksum_step c false H) as [H1 H2].
  rewrite andb_false_r in H1, H2. by split.
Qed.

Lemma lower_hex_list (cs : list ascii) :
  forallb is_lower_hex_digit cs = true ->
  forallb is_hex_digit cs = true /\ map to_lower cs = cs.
Proof.
  induction cs as [|c cs IH]; [done|]. cbn [forallb map].
  intros H. apply andb_true_iff in H as [Hc Hcs].
  destruct (is_lower_hex_is_hex c Hc) as [-> ->].
  destruct (IH Hcs) as [-> ->]. done.
Qed.

Lemma Address_MarshalText_spec (a : Address) :
  hex_address_of a (Address_MarshalText a) /\
  lowercase_0x_hex (Address_MarshalText a) = true.
Proof.
  unfold Address_MarshalText.
  set (u := hex_EncodeToString (Address_Bytes a)).
  assert (forallb is_lower_hex_digit u = true) as Hu
    by apply hex_EncodeToString_lower, Address_Bytes_range.
  destruct (lower_hex_list u Hu) as [Hh Hm]. split.
  - exists u. split; [reflexivity|]. split; [|by split].
    subst u. by rewrite hex_EncodeToString_length, Address_Bytes_length.
  - change (forallb is_lower_hex_digit (list_ascii_of_string (string_of_list_ascii u)) = true).
    by rewrite list_ascii_of_string_of_list_ascii.
Qed.

(** *** Decimal *)

Lemma string_of_uint_digits (d : Decimal.uint) :
  forallb is_digit (list_ascii_of_string (NilEmpty.string_of_uint d)) = true.
Proof. induction d; cbn [NilEmpty.string_of_uint list_ascii_of_string forallb]; by rewrite ?IHd. Qed.

Lemma is_decimal_uint (d : Decimal.uint) :
  d <> Decimal.Nil -> is_decimal (NilEmpty.string_of_uint d) = true.
Proof.
  intros Hd. pose proof (string_of_uint_digits d) as H.
  destruct d; [done|..]; exact H.
Qed.

Lemma is_decimal_neg (d : Decimal.uint) :
  d <> Decimal.Nil -> is_decimal (String "-" (NilEmpty.string_of_uint d)) = true.
Proof.
  intros Hd. pose proof (string_of_uint_digits d) as H.
  destruct d; [done|..]; exact H.
Qed.

Lemma bigInt_String_decimal (z : Z) : decimal_of z (bigInt_String (Some z)).
Proof.
  unfold decimal_of, bigInt_String, parse_decimal. split.
  - destruct z as [|p|p]; cbn [Z.to_int NilEmpty.string_of_int].
    + reflexivity.
    + apply is_decimal_uint, DecimalPos.Unsigned.to_uint_nonnil.
    + apply is_decimal_neg, DecimalPos.Unsigned.to_uint_nonnil.
  - rewrite NilEmpty.isi. cbn. by rewrite DecimalZ.of_to.
Qed.

Lemma bigInt_String_text (x : bigInt) : bigInt_text x (bigInt_String x).
Proof. destruct x as [z|]; [apply bigInt_String_decimal | reflexivity]. Qed.

(** *** The two maps of token balances *)

Lemma list_to_map_entries {A B : Type} (f : N * A -> string * B)
    (m : gmap N A) (k : string) (r : B) :
  (list_to_map (f <$> map_to_list m) : gmap string B) !! k = Some r ->
  exists key v, m !! key = Some v /\ f (key, v) = (k, r).
Proof.
  intros H. apply elem_of_list_to_map_2, list_elem_of_fmap in H as ([key v] & Heq & Hin).
  exists key, v. split; [by apply elem_of_map_to_list|done].
Qed.

Lemma list_to_map_covers {A B : Type} (f : N * A -> string * B)
    (m : gmap N A) (key : N) (v : A) :
  m !! key = Some v ->
  is_Some ((list_to_map (f <$> map_to_list m) : gmap string B) !! fst (f (key, v))).
Proof.
  intros H. apply not_eq_None_Some. intros Hnone.
  apply not_elem_of_list_to_map in Hnone. apply Hnone.
  apply list_elem_of_fmap. exists (f (key, v)). split; [done|].
  apply list_elem_of_fmap. exists (key, v). split; [done|].
  by apply elem_of_map_to_list.
Qed.

Variable Time_String : Time -> string.

(** C3 (amended).  In the record [GetBSON] returns and in the object
    [MarshalJSON] encodes, every address is 0x followed by the 40
    hexadecimal digits of the address: in lower case for the account address
    of the JSON object, in the mixed case of EIP-55, which [Address.Hex]
    produces, everywhere else, the keys of the two balance maps and the
    address of every token balance included; every balance, allowance and
    locked balance is the decimal numeral of the integer, or ["<nil>"] when
    the pointer is [nil]; and every token balance of the account has its
    entry. *)
Theorem C3_account_encoding (a : Account.t) :
  let r := GetBSON a in
  let j := MarshalJSON Time_String a in
  (AccountRecord.Address r = Address_Hex (Account.Address a) /\
   hex_address_of (Account.Address a) (AccountRecord.Address r) /\
   eip55_of (Account.Address a) (AccountRecord.Address r)) /\
  (hex_address_of (Account.Address a) (AccountJSON.address j) /\
   lowercase_0x_hex (AccountJSON.address j) = true) /\
  (forall k rec, AccountRecord.TokenBalances r !! k = Some rec ->
     exists key v, Account.TokenBalances a !! key = Some v /\
       k = Address_Hex key /\ hex_address_of key k /\ eip55_of key k /\
       TokenBalanceRecord.Address rec = Address_Hex (TokenBalance.Address v) /\
       hex_address_of (TokenBalance.Address v) (TokenBalanceRecord.Address rec) /\
       eip55_of (TokenBalance.Address v) (TokenBalanceRecord.Address rec) /\
       bigInt_text (TokenBalance.Balance v) (TokenBalanceRecord.Balance rec) /\
       bigInt_text (TokenBalance.Allowance v) (TokenBalanceRecord.Allowance rec) /\
       bigInt_text (TokenBalance.LockedBalance v) (TokenBalanceRecord.LockedBalance rec)) /\
  (forall k obj, AccountJSON.tokenBalances j !! k = Some obj ->
     exists key v, Account.TokenBalances a !! key = Some v /\
       k = Address_Hex key /\ hex_address_of key k /\ eip55_of key k /\
       TokenBalanceJSON.address obj = Address_Hex (TokenBalance.Address v) /\
       hex_address_of (TokenBalance.Address v) (TokenBalanceJSON.address obj) /\
       eip55_of (TokenBalance.Address v) (TokenBalanceJSON.address obj) /\
       bigInt_text (TokenBalance.Balance v) (TokenBalanceJSON.balance obj) /\
       bigInt_text (TokenBalance.Allowance v) (TokenBalanceJSON.allowance obj) /\
       bigInt_text (TokenBalance.LockedBalance v) (TokenBalanceJSON.lockedBalance obj)) /\
  (forall key v, Account.TokenBalances a !! key = Some v ->
     is_Some (AccountRecord.TokenBalances r !! Address_Hex key) /\
     is_Some (AccountJSON.tokenBalances j !! Address_Hex key)).
Proof.
  cbv zeta. split; [|split; [|split; [|split]]].
  - split; [reflexivity|]. split; [apply Address_Hex_spec | apply Address_Hex_checksummed].
  - apply Address_MarshalText_spec.
  - intros k rec H. apply list_to_map_entries in H as (key & v & Hm & Heq).
    injection Heq as <- <-. exists key, v.
    repeat split;
      auto using Address_Hex_spec, Address_Hex_checksummed; apply bigInt_String_text.
  - intros k obj H. apply list_to_map_entries in H as (key & v & Hm & Heq).
    injection Heq as <- <-. exists key, v.
    repeat split;
      auto using Address_Hex_spec, Address_Hex_checksummed; apply bigInt_String_text.
  - intros key v H. split.
    + apply (list_to_map_covers GetBSON_entry _ key v H).
    + apply (list_to_map_covers MarshalJSON_entry _ key v H).
Qed.

End Serialization.

(** The four addresses of the EIP-55 test suite, as [Address.Hex] renders
    them. *)
Example Address_Hex_eip55 :
  map common.Address_Hex
    [0x5aaeb6053f3e94c9b9a09f33669435e7ef1beaed;
     0xfb6916095ca1df60bb79ce92ce3ea74c37c5d359;
     0xdbf03b407c01e7cd3cbea99509d93f8dddc8c6fb;
     0xd1220a0cf47c7b9be7a2e6ba89f429762e7b9adb]%N
  = ["0x5aAeb6053F3E94C9b9A09f33669435E7Ef1BeAed";
     "0xfB6916095ca1df60bB79Ce92cE3Ea74c37c5d359";
     "0xdbF03B407c01E7cD3CBea99509d93f8DDDC8C6FB";
     "0xD1220A0cf47c7B9Be7A2E6BA89F429762e7b9aDb"]%string.
Proof. vm_compute. reflexivity. Qed.

(** C3 (as stated) fails twice over.  The address of the record [GetBSON]
    returns for the account 0x5aaeb6053f3e94c9b9a09f33669435e7ef1beaed has
    upper-case digits; and for the account [SetBSON] loads from a record
    whose allowance is not a numeral, the allowance [GetBSON] writes is
    ["<nil>"], which is no decimal string. *)
Lemma C3_counterexample :
  (types.AccountRecord.Address (types.GetBSON Instances.account1)
   = "0x5aAeb6053F3E94C9b9A09f33669435E7Ef1BeAed"%string /\
   Props.lowercase_0x_hex (types.AccountRecord.Address (types.GetBSON Instances.account1))
   = false) /\
  exists rec,
    types.AccountRecord.TokenBalances (types.GetBSON Instances.loaded_account)
      !! common.Address_Hex 2%N = Some rec /\
    types.TokenBalanceRecord.Allowance rec = "<nil>"%string /\
    Props.is_decimal (types.TokenBalanceRecord.Allowance rec) = false.
Proof.
  split; [split; vm_compute; reflexivity|].
  eexists. split; [vm_compute; reflexivity|].
  split; vm_compute; reflexivity.
Qed.

Lemma C3_account_encoding_witness :
  Props.eip55_of Instances.addr1
    (types.AccountRecord.Address (types.GetBSON Instances.account1)) /\
  is_Some (types.AccountRecord.TokenBalances (types.GetBSON Instances.account1)
             !! common.Address_Hex Instances.addr2).
Proof.
  pose proof (C3_account_encoding (fun _ => ""%string) Instances.account1) as H.
  cbv zeta in H. destruct H as ((_ & _ & H1) & _ & _ & _ & H5).
  split; [exact H1|].
  refine (proj1 (H5 Instances.addr2
                   (types.TokenBalance.mk 7%N Instances.addr2 "ZRX"
                      (Some 100000) (Some 100000) (Some 0)) _)).
  vm_compute. reflexivity.
Defined.

(** ** Decoding addresses and integers *)

Section Decoding.
Import common types Props.

Lemma fromHexChar_hexdigit (n : N) :
  (n < 16)%N -> fromHexChar (hexdigit n) = Some n.
Proof.
  intros Hn.
  assert (exists k : nat, (k < 16)%nat /\ n = N.of_nat k) as (k & Hk & ->)
    by (exists (N.to_nat n); lia).
  do 16 (destruct k as [|k]; [reflexivity|]). lia.
Qed.

(** The decoder reads a digit of either case as it reads its lower case, and
    [isHexCharacter] accepts the hexadecimal digits. *)
Lemma fromHexChar_to_lower (c : ascii) :
  is_hex_digit c = true ->
  fromHexChar c = fromHexChar (to_lower c) /\ fromHexChar c <> None /\
  isHexCharacter c = true.
Proof.
  destruct c as [[|] [|] [|] [|] [|] [|] [|] [|]];
    intros H; try discriminate H; repeat split; discriminate.
Qed.

Lemma list_pair_ind {A : Type} (P : list A -> Prop) :
  P [] -> (forall x, P [x]) -> (forall x y l, P l -> P (x :: y :: l)) ->
  forall l, P l.
Proof.
  intros H0 H1 H2 l.
  assert (P l /\ forall x, P (x :: l)) as [H _]; [|exact H].
  induction l as [|y l [IH1 IH2]]; [by split|].
  split; [apply IH2|]. intros x. by apply H2.
Qed.

Lemma Hex2Bytes_to_lower (body : list ascii) :
  forallb is_hex_digit body = true ->
  Hex2Bytes body = Hex2Bytes (map to_lower body).
Proof.
  induction body as [|x|x y l IH] using list_pair_ind; [done..|].
  cbn [forallb map Hex2Bytes]. rewrite !andb_true_iff. intros (Hx & Hy & Hl).
  destruct (fromHexChar_to_lower x Hx) as (<- & _ & _).
  destruct (fromHexChar_to_lower y Hy) as (<- & _ & _).
  by rewrite IH.
Qed.

Lemma byte_of_nibbles (b : N) :
  (b < 256)%N -> N.lor (N.shiftl (b / 16) 4) (b mod 16) = b.
Proof.
  intros Hb. apply N.bits_inj. intros i.
  rewrite N.lor_spec.
  destruct (N.lt_ge_cases i 4) as [Hi|Hi].
  - rewrite N.shiftl_spec_low by done.
    change 16%N with (2 ^ 4)%N. by rewrite N.mod_pow2_bits_low.
  - rewrite N.shiftl_spec_high' by done.
    change 16%N with (2 ^ 4)%N.
    rewrite N.mod_pow2_bits_high, orb_false_r by done.
    rewrite N.div_pow2_bits. f_equal. lia.
Qed.

Lemma Hex2Bytes_encode (bs : list N) :
  Forall (fun b => (b < 256)%N) bs ->
  Hex2Bytes (hex_EncodeToString bs) = bs.
Proof.
  unfold hex_EncodeToString.
  induction 1 as [|b bs Hb _ IH]; [reflexivity|].
  cbn [flat_map app Hex2Bytes].
  rewrite !fromHexChar_hexdigit, IH, byte_of_nibbles; [done|done| |].
  - apply N.mod_upper_bound. discriminate.
  - apply N.Div0.div_lt_upper_bound. exact Hb.
Qed.

Lemma BytesToN_snoc (bs : list N) (b : N) :
  BytesToN (bs ++ [b]) = (256 * BytesToN bs + b)%N.
Proof. unfold BytesToN. by rewrite fold_left_app. Qed.

Lemma BytesToN_digits (len : nat) (a : N) :
  BytesToN (map (fun i => (a / 256 ^ N.of_nat (len - 1 - i)) mod 256)%N (seq 0 len))
  = (a mod 256 ^ N.of_nat len)%N.
Proof.
  revert a. induction len as [|len IH]; intros a.
  - cbn. by rewrite N.mod_1_r.
  - rewrite seq_S, map_app. cbn [map Nat.add]. rewrite BytesToN_snoc.
    rewrite (map_ext_in _ (fun i => ((a / 256) / 256 ^ N.of_nat (len - 1 - i)) mod 256)%N).
    + rewrite IH. replace (S len - 1 - len)%nat with 0%nat by lia.
      rewrite N.pow_0_r, N.div_1_r.
      rewrite Nat2N.inj_succ, N.pow_succ_r', N.Div0.mod_mul_r. lia.
    + intros i Hi. apply in_seq in Hi.
      rewrite N.Div0.div_div. f_equal. f_equal.
      replace (S len - 1 - i)%nat with (S (len - 1 - i)) by lia.
      by rewrite Nat2N.inj_succ, N.pow_succ_r'.
Qed.

Lemma BytesToN_Address_Bytes (a : Address) :
  BytesToN (Address_Bytes a) = (a mod 2 ^ 160)%N.
Proof.
  unfold Address_Bytes, AddressLength. rewrite BytesToN_digits. reflexivity.
Qed.

(** Any rendering of an address as 0x and its 40 digits, in either case, is
    accepted by [IsHexAddress] and read back by [HexToAddress]. *)
Lemma HexToAddress_spec (a : Address) (s : string) :
  hex_address_of a s ->
  IsHexAddress s = true /\ HexToAddress s = (a mod 2 ^ 160)%N.
Proof.
  intros (body & -> & Hlen & Hhex & Hlow).
  assert (list_ascii_of_string ("0x" ++ string_of_list_ascii body)
          = "0"%char :: "x"%char :: body) as Hs.
  { change (list_ascii_of_string ("0x" ++ string_of_list_ascii body))
      with ("0"%char :: "x"%char :: list_ascii_of_string (string_of_list_ascii body)).
    by rewrite list_ascii_of_string_of_list_ascii. }
  split.
  - unfold IsHexAddress. rewrite Hs. cbn [has0xPrefix skipn].
    change (skipn 0 body) with body.
    unfold isHex. rewrite Hlen. cbn.
    clear -Hhex. induction body as [|c body IH]; [done|].
    cbn [forallb] in *. apply andb_true_iff in Hhex as [Hc Hb].
    destruct (fromHexChar_to_lower c Hc) as (_ & _ & ->). by apply IH.
  - unfold HexToAddress, FromHex. rewrite Hs. cbn [has0xPrefix skipn].
    change (skipn 0 body) with body.
    replace (length body mod 2 =? 1)%nat with false by (rewrite Hlen; reflexivity).
    rewrite Hex2Bytes_to_lower, Hlow, Hex2Bytes_encode
      by (done || apply Address_Bytes_range).
    unfold BytesToAddress. rewrite Address_Bytes_length. cbn.
    apply BytesToN_Address_Bytes.
Qed.

Lemma HexToAddress_Hex (a : Address) :
  (a < 2 ^ 160)%N -> HexToAddress (Address_Hex a) = a.
Proof.
  intros Ha. destruct (HexToAddress_spec a _ (Address_Hex_spec a)) as [_ ->].
  by apply N.mod_small.
Qed.

Lemma Address_Hex_inj (a b : Address) :
  (a < 2 ^ 160)%N -> (b < 2 ^ 160)%N -> Address_Hex a = Address_Hex b -> a = b.
Proof.
  intros Ha Hb H. rewrite <- (HexToAddress_Hex a Ha), <- (HexToAddress_Hex b Hb).
  by rewrite H.
Qed.

(** [SetString] reads back what [String] wrote. *)
Lemma bigInt_SetString10_String_int (z : Z) :
  bigInt_SetString10 (bigInt_String (Some z)) = Some z.
Proof.
  unfold bigInt_String.
  assert (forall d : Decimal.uint, d <> Decimal.Nil ->
            bigInt_SetString10 (NilEmpty.string_of_uint d) = Some (Z.of_uint d)) as Hpos.
  { intros d Hd. pose proof (NilEmpty.usu d) as Hu.
    destruct d; [done|..]; cbn [NilEmpty.string_of_uint] in *;
      unfold bigInt_SetString10; cbn; cbn in Hu; by rewrite Hu. }
  destruct z as [|p|p]; cbn [Z.to_int NilEmpty.string_of_int].
  - reflexivity.
  - rewrite Hpos by apply DecimalPos.Unsigned.to_uint_nonnil.
    f_equal. unfold Z.of_uint. by rewrite DecimalPos.Unsigned.of_to.
  - pose proof (DecimalPos.Unsigned.to_uint_nonnil p) as Hn.
    pose proof (NilEmpty.usu (Pos.to_uint p)) as Hu.
    unfold bigInt_SetString10. cbn.
    destruct (NilEmpty.string_of_uint (Pos.to_uint p)) eqn:Hs.
    + destruct (Pos.to_uint p); done.
    + rewrite Hu. cbn. f_equal. unfold Z.of_uint.
      by rewrite DecimalPos.Unsigned.of_to.
Qed.

(** Also for a [nil] pointer: ["<nil>"] is no numeral, and [SetString]
    leaves [nil] for it. *)
Lemma bigInt_SetString10_String (x : bigInt) :
  bigInt_SetString10 (bigInt_String x) = x.
Proof.
  destruct x as [z|]; [apply bigInt_SetString10_String_int | reflexivity].
Qed.

End Decoding.

(** ** Accounts through the store: [GetBSON] and [SetBSON] *)

Section AccountBSON.
Import common types Props.

Lemma NoDup_fmap_keys {K1 K2 A B : Type} `{Countable K1} `{Countable K2}
    (f : K1 * A -> K2 * B) (m : gmap K1 A) :
  (forall k1 v1 k2 v2, m !! k1 = Some v1 -> m !! k2 = Some v2 ->
                       fst (f (k1, v1)) = fst (f (k2, v2)) -> k1 = k2) ->
  NoDup (f <$> map_to_list m).*1.
Proof.
  intros Hinj. rewrite <- list_fmap_compose.
  apply NoDup_fmap_2_strong; [|apply NoDup_map_to_list].
  intros [k1 v1] [k2 v2] H1 H2 Heq.
  apply elem_of_map_to_list in H1, H2. cbn in Heq.
  assert (k1 = k2) as -> by eauto. congruence.
Qed.

Lemma list_to_map_fmap_lookup {K1 K2 A B : Type} `{Countable K1} `{Countable K2}
    (f : K1 * A -> K2 * B) (m : gmap K1 A) (k : K1) (v : A) :
  (forall k1 v1 k2 v2, m !! k1 = Some v1 -> m !! k2 = Some v2 ->
                       fst (f (k1, v1)) = fst (f (k2, v2)) -> k1 = k2) ->
  m !! k = Some v ->
  (list_to_map (f <$> map_to_list m) : gmap K2 B) !! fst (f (k, v)) = Some (snd (f (k, v))).
Proof.
  intros Hinj Hk. apply elem_of_list_to_map_1; [by apply NoDup_fmap_keys|].
  apply list_elem_of_fmap. exists (k, v).
  split; [by destruct (f (k, v))|by apply elem_of_map_to_list].
Qed.

Lemma list_to_map_fmap_inv {K1 K2 A B : Type} `{Countable K1} `{Countable K2}
    (f : K1 * A -> K2 * B) (m : gmap K1 A) (k' : K2) (r : B) :
  (list_to_map (f <$> map_to_list m) : gmap K2 B) !! k' = Some r ->
  exists k v, m !! k = Some v /\ f (k, v) = (k', r).
Proof.
  intros Hl. apply elem_of_list_to_map_2, list_elem_of_fmap in Hl as ([k v] & Heq & Hin).
  exists k, v. split; [by apply elem_of_map_to_list|done].
Qed.

Lemma GetBSON_keys_inj (a : Account.t) :
  addresses_fit a ->
  forall k1 v1 k2 v2,
    Account.TokenBalances a !! k1 = Some v1 -> Account.TokenBalances a !! k2 = Some v2 ->
    fst (GetBSON_entry (k1, v1)) = fst (GetBSON_entry (k2, v2)) -> k1 = k2.
Proof.
  intros [_ Hfit] k1 v1 k2 v2 H1 H2 Heq. cbn in Heq.
  apply Address_Hex_inj in Heq; [done|by apply (Hfit k1 v1)|by apply (Hfit k2 v2)].
Qed.

Lemma GetBSON_lookup (a : Account.t) (key : N) (v : TokenBalance.t) :
  addresses_fit a ->
  Account.TokenBalances a !! key = Some v ->
  AccountRecord.TokenBalances (GetBSON a) !! Address_Hex key
  = Some (snd (GetBSON_entry (key, v))).
Proof.
  intros Hfit Hk.
  apply (list_to_map_fmap_lookup GetBSON_entry (Account.TokenBalances a) key v); [|done].
  by apply GetBSON_keys_inj.
Qed.

(** X5.  For an account whose addresses are 20-byte values, the record
    [GetBSON] returns has exactly one entry per token balance: the entry of a
    token address is found under its [Hex] rendering and is the record of
    that balance, and the record has as many entries as the account has
    balances. *)
Theorem X5_GetBSON_one_entry_per_token (a : Account.t) :
  addresses_fit a ->
  (forall key v, Account.TokenBalances a !! key = Some v ->
     AccountRecord.TokenBalances (GetBSON a) !! Address_Hex key
     = Some (snd (GetBSON_entry (key, v)))) /\
  size (AccountRecord.TokenBalances (GetBSON a)) = size (Account.TokenBalances a).
Proof.
  intros Hfit. split.
  - intros key v. by apply GetBSON_lookup.
  - unfold GetBSON. cbn [AccountRecord.TokenBalances].
    rewrite map_size_list_to_map by (by apply NoDup_fmap_keys, GetBSON_keys_inj).
    by rewrite length_fmap, length_map_to_list.
Qed.

Variable Raw : Type.
Variable bson_Unmarshal : Raw -> AccountRecord.t * option string.

(** X6.  Storing an account and loading it back: when the driver hands
    [SetBSON] the record [GetBSON] returned, the account comes back with its
    id, its address and every token balance as they were, a [nil] integer
    as [nil], and with [IsBlocked] false and both timestamps zero whatever
    they were, since [GetBSON] does not write these three fields. *)
Theorem X6_SetBSON_GetBSON (a : Account.t) (raw : Raw) (receiver : Account.t) :
  addresses_fit a ->
  bson_Unmarshal raw = (GetBSON a, None) ->
  SetBSON Raw bson_Unmarshal raw receiver = (as_stored a, None).
Proof.
  intros Hfit Hraw. unfold SetBSON. rewrite Hraw.
  f_equal. unfold as_stored.
  cbn [AccountRecord.ID AccountRecord.Address AccountRecord.IsBlocked
       AccountRecord.CreatedAt AccountRecord.UpdatedAt GetBSON
       AccountRecord.TokenBalances].
  rewrite HexToAddress_Hex by apply Hfit.
  f_equal. apply map_eq. intros k.
  set (M1 := (list_to_map (GetBSON_entry <$> map_to_list (Account.TokenBalances a))
              : gmap string TokenBalanceRecord.t)).
  assert (forall key v, Account.TokenBalances a !! key = Some v ->
            snd (SetBSON_entry (Address_Hex key, snd (GetBSON_entry (key, v)))) = v)
    as Hentry.
  { intros key v Hk. unfold SetBSON_entry, GetBSON_entry.
    cbn [snd TokenBalanceRecord.ID TokenBalanceRecord.Address TokenBalanceRecord.Symbol
         TokenBalanceRecord.Balance TokenBalanceRecord.Allowance
         TokenBalanceRecord.LockedBalance].
    rewrite !bigInt_SetString10_String, HexToAddress_Hex; [by destruct v|].
    by apply (proj2 Hfit key v). }
  assert (forall s r, M1 !! s = Some r ->
            exists key v, Account.TokenBalances a !! key = Some v /\
                          s = Address_Hex key /\ r = snd (GetBSON_entry (key, v)))
    as Hinv.
  { intros s r Hl. apply list_to_map_fmap_inv in Hl as (key & v & Hk & Heq).
    exists key, v. split; [done|]. by injection Heq as <- <-. }
  destruct (Account.TokenBalances a !! k) as [v|] eqn:Hk; cbn.
  - pose proof (GetBSON_lookup a k v Hfit Hk) as Hl.
    change (AccountRecord.TokenBalances (GetBSON a)) with M1 in Hl.
    pose proof (list_to_map_fmap_lookup SetBSON_entry M1 (Address_Hex k)
                  (snd (GetBSON_entry (k, v)))) as H2.
    cbn [fst] in H2. rewrite Hentry in H2 by done.
    change (fst (SetBSON_entry (Address_Hex k, snd (GetBSON_entry (k, v)))))
      with (HexToAddress (Address_Hex k)) in H2.
    rewrite HexToAddress_Hex in H2 by (by apply (proj2 Hfit k v)).
    apply H2; [|done].
    intros s1 r1 s2 r2 Hs1 Hs2 Heq.
    apply Hinv in Hs1 as (k1 & v1 & Hk1 & -> & _).
    apply Hinv in Hs2 as (k2 & v2 & Hk2 & -> & _).
    change (HexToAddress (Address_Hex k1) = HexToAddress (Address_Hex k2)) in Heq.
    rewrite !HexToAddress_Hex in Heq
      by (first [apply (proj2 Hfit k1 v1 Hk1) | apply (proj2 Hfit k2 v2 Hk2)]).
    by rewrite Heq.
  - apply eq_None_not_Some. intros [tb Hl].
    apply list_to_map_fmap_inv in Hl as (s & r & Hs & Heq).
    apply Hinv in Hs as (key & v & Hkey & -> & _).
    assert (HexToAddress (Address_Hex key) = k) as Heq' by (by injection Heq).
    rewrite HexToAddress_Hex in Heq' by (by apply (proj2 Hfit key v)).
    subst k. discriminate (eq_trans (eq_sym Hkey) Hk).
Qed.

(** X7.  [SetBSON] fails only when the driver cannot unmarshal, and then
    leaves the receiver as it was.  Otherwise it returns no error whatever
    the strings of the record hold: every balance of the account comes from
    an entry of the record, its key and address read by [HexToAddress] and
    each integer read by [SetString], which gives [nil] for a string that is
    not a decimal numeral. *)
Theorem X7_SetBSON_reads_record (raw : Raw) (receiver : Account.t) :
  (forall decoded e, bson_Unmarshal raw = (decoded, Some e) ->
     SetBSON Raw bson_Unmarshal raw receiver = (receiver, Some e)) /\
  (forall decoded, bson_Unmarshal raw = (decoded, None) ->
     let result := SetBSON Raw bson_Unmarshal raw receiver in
     snd result = None /\
     Account.IsBlocked (fst result) = AccountRecord.IsBlocked decoded /\
     forall k tb, Account.TokenBalances (fst result) !! k = Some tb ->
       exists s r, AccountRecord.TokenBalances decoded !! s = Some r /\
         k = HexToAddress s /\
         TokenBalance.Address tb = HexToAddress (TokenBalanceRecord.Address r) /\
         TokenBalance.Balance tb
         = bigInt_SetString10 (TokenBalanceRecord.Balance r) /\
         TokenBalance.Allowance tb
         = bigInt_SetString10 (TokenBalanceRecord.Allowance r) /\
         TokenBalance.LockedBalance tb
         = bigInt_SetString10 (TokenBalanceRecord.LockedBalance r)).
Proof.
  split.
  - intros decoded e Hraw. unfold SetBSON. by rewrite Hraw.
  - intros decoded Hraw. cbv zeta. unfold SetBSON. rewrite Hraw.
    cbn [fst snd Account.IsBlocked Account.TokenBalances].
    split; [done|]. split; [done|].
    intros k tb Hl. apply list_to_map_fmap_inv in Hl as (s & r & Hs & Heq).
    exists s, r. split; [done|]. by injection Heq as <- <-.
Qed.

End AccountBSON.

Lemma X5_GetBSON_one_entry_per_token_witness :
  types.AccountRecord.TokenBalances (types.GetBSON Instances.account1)
    !! "0xfB6916095ca1df60bB79Ce92cE3Ea74c37c5d359"%string
  = Some (types.TokenBalanceRecord.mk 7%N "0xfB6916095ca1df60bB79Ce92cE3Ea74c37c5d359"
            "ZRX" "100000" "100000" "0") /\
  size (types.AccountRecord.TokenBalances (types.GetBSON Instances.account1)) = 1%nat.
Proof.
  assert (Props.addresses_fit Instances.account1) as Hfit.
  { split; [reflexivity|]. intros key v H.
    unfold Instances.account1 in H. cbn [types.Account.TokenBalances] in H.
    apply lookup_singleton_Some in H as [<- <-]. split; reflexivity. }
  destruct (X5_GetBSON_one_entry_per_token Instances.account1 Hfit) as [H1 H2].
  split.
  - exact (H1 Instances.addr2
             (types.TokenBalance.mk 7%N Instances.addr2 "ZRX"
                (Some 100000) (Some 100000) (Some 0))
             (lookup_singleton_eq _ _)).
  - exact H2.
Defined.

Lemma X6_SetBSON_GetBSON_witness :
  types.SetBSON types.Account.t (fun a => (types.GetBSON a, None))
    Instances.loaded_account (types.Account.mk 0%N 0%N ∅ false 0 0)
  = (Props.as_stored Instances.loaded_account, None) /\
  (types.TokenBalance.Allowance <$>
     types.Account.TokenBalances (Props.as_stored Instances.loaded_account) !! 2%N)
  = Some None /\
  types.Account.IsBlocked Instances.loaded_account = true /\
  types.Account.IsBlocked (Props.as_stored Instances.loaded_account) = false.
Proof.
  split; [|split; [vm_compute; reflexivity|split; reflexivity]].
  apply (X6_SetBSON_GetBSON types.Account.t (fun a => (types.GetBSON a, None))
           Instances.loaded_account).
  - split; [vm_compute; reflexivity|]. intros key v H.
    assert (types.Account.TokenBalances Instances.loaded_account
            = {[ 2%N := types.TokenBalance.mk 7%N 2%N "ZRX" (Some 12) None None ]}) as Hm
      by (vm_compute; reflexivity).
    rewrite Hm in H. apply lookup_singleton_Some in H as [<- <-].
    split; reflexivity.
  - reflexivity.
Defined.

Lemma X7_SetBSON_reads_record_witness :
  let record :=
    types.AccountRecord.mk 1%N "0x01"
      {[ "0x02"%string := types.TokenBalanceRecord.mk 7%N "0x02" "ZRX" "12" "ten" "" ]}
      true 0 0 in
  let result :=
    types.SetBSON types.AccountRecord.t (fun r => (r, None)) record
      (types.Account.mk 0%N 0%N ∅ false 0 0) in
  snd result = None /\
  types.Account.IsBlocked (fst result) = true /\
  (types.TokenBalance.Allowance <$>
     types.Account.TokenBalances (fst result) !! 2%N) = Some None.
Proof.
  intros record result.
  destruct (proj2 (X7_SetBSON_reads_record types.AccountRecord.t (fun r => (r, None))
                     record (types.Account.mk 0%N 0%N ∅ false 0 0))
              record eq_refl) as (H1 & H2 & _).
  split; [exact H1|]. split; [exact H2|]. vm_compute. reflexivity.
Defined.

(** ** The order endpoint *)

Section OrderEndpoint.
Import types endpoints.

Context {Data : Type} (env : Env.t Data).

Lemma filter_effect_app (h k : list (Event Data)) :
  List.filter is_effect (h ++ k) = List.filter is_effect h ++ List.filter is_effect k.
Proof. apply List.filter_app. Qed.

(** C1 (amended).  For a NEW_ORDER payload whose data decodes to an order,
    the handler replaces the hash of the order by the hash recomputed over
    its fields, registers the connection under the recomputed hash and
    passes the order to [NewOrder]; the hash the client supplied is not
    compared with it.  The client is sent an ERROR exactly when [NewOrder]
    returns an error. *)
Theorem C1_hash_is_replaced (msg : WebSocketPayload.t Data) (conn : Conn)
    (h : list (Event Data)) (bytes : list N) (o : Order.t) :
  Env.json_Marshal env (WebSocketPayload.Data_ msg) = (bytes, None) ->
  Env.Order_UnmarshalJSON env bytes Order.zero = (o, None) ->
  let o1 := Order.with_Hash o (Env.Order_ComputeHash env o) in
  let h1 :=
    h ++ [make_chan (length h);
          ws_RegisterOrderConnection (Env.Order_ComputeHash env o)
            (OrderConnection.mk conn (Some (length h)) false);
          ws_RegisterConnectionUnsubscribeHandler conn (Env.Order_ComputeHash env o)] in
  handleNewOrder env msg conn h
  = h1 ++ [orderService_NewOrder o1 (snd (Env.NewOrder env o1 h1))] ++
    match snd (Env.NewOrder env o1 h1) with
    | Some e =>
      [log_Print e;
       ws_SendOrderErrorMessage conn e (Some (Order.Hash (fst (Env.NewOrder env o1 h1))))]
    | None => []
    end.
Proof.
  intros Hm Hu. cbv zeta. unfold handleNewOrder, report. rewrite Hm, Hu.
  cbn [Order.with_Hash Order.Hash]. rewrite <- !app_assoc. cbn [app].
  destruct (Env.NewOrder env _ _) as [o' [e|]]; cbn [fst snd];
    rewrite <- ?app_assoc; reflexivity.
Qed.

(** C2 (as the code behaves).  When the data of a CANCEL_ORDER payload does
    not unmarshal, the handler sends the ERROR and goes on: [CancelOrder] is
    called with the cancel request as the failed decoding left it. *)
Theorem C2_malformed_cancel_reaches_service (p : WebSocketPayload.t Data)
    (conn : Conn) (h : list (Event Data)) (bytes : list N) (e0 : option string)
    (oc : OrderCancel.t) (e : string) :
  Env.json_Marshal env (WebSocketPayload.Data_ p) = (bytes, e0) ->
  Env.OrderCancel_UnmarshalJSON env bytes OrderCancel.zero = (oc, Some e) ->
  ws_SendOrderErrorMessage conn e (Some (OrderCancel.Hash oc))
    ∈ handleCancelOrder env p conn h /\
  exists err, orderService_CancelOrder oc err ∈ handleCancelOrder env p conn h.
Proof.
  intros Hm Hu. unfold handleCancelOrder. rewrite Hm, Hu.
  set (h1 := (report conn e (Some (OrderCancel.Hash oc)) h ++ _) ++ _).
  destruct (Env.CancelOrder env oc h1) as [oc' err].
  split.
  - assert (ws_SendOrderErrorMessage conn e (Some (OrderCancel.Hash oc)) ∈ h1) as Hin.
    { subst h1. unfold report. rewrite !elem_of_app, !elem_of_cons. tauto. }
    destruct err; unfold report; rewrite !elem_of_app; tauto.
  - exists err.
    destruct err; unfold report; rewrite !elem_of_app, !elem_of_cons; tauto.
Qed.

(** C7.  The dispatcher hands a payload of type NEW_ORDER, CANCEL_ORDER or
    NEW_TRADE to the handler of that type; for a payload of any other type
    it only writes to the log: no hub or service call is made. *)
Theorem C7_dispatch (input : Data) (conn : Conn) (h : list (Event Data)) :
  let bytes := fst (Env.json_Marshal env input) in
  let msg := fst (Env.WebSocketPayload_Unmarshal env bytes) in
  let h0 :=
    match snd (Env.WebSocketPayload_Unmarshal env bytes) with
    | Some e => h ++ [log_Print e]
    | None => h
    end in
  (WebSocketPayload.Type_ msg = "NEW_ORDER"%string ->
   ws env input conn h = handleNewOrder env msg conn h0) /\
  (WebSocketPayload.Type_ msg = "CANCEL_ORDER"%string ->
   ws env input conn h = handleCancelOrder env msg conn h0) /\
  (WebSocketPayload.Type_ msg = "NEW_TRADE"%string ->
   ws env input conn h = handleNewTrade env msg conn h0) /\
  (WebSocketPayload.Type_ msg <> "NEW_ORDER"%string ->
   WebSocketPayload.Type_ msg <> "CANCEL_ORDER"%string ->
   WebSocketPayload.Type_ msg <> "NEW_TRADE"%string ->
   ws env input conn h = h0 ++ [log_Print "Response with error"] /\
   List.filter is_effect (ws env input conn h) = List.filter is_effect h).
Proof.
  cbv zeta. unfold ws.
  destruct (Env.json_Marshal env input) as [bytes e0]. cbn [fst].
  destruct (Env.WebSocketPayload_Unmarshal env bytes) as [msg err]. cbn [fst snd].
  repeat split.
  - by intros ->.
  - by intros ->.
  - by intros ->.
  - destruct (String.eqb_spec (WebSocketPayload.Type_ msg) "NEW_ORDER"); [done|].
    destruct (String.eqb_spec (WebSocketPayload.Type_ msg) "CANCEL_ORDER"); [done|].
    destruct (String.eqb_spec (WebSocketPayload.Type_ msg) "NEW_TRADE"); done.
  - destruct (String.eqb_spec (WebSocketPayload.Type_ msg) "NEW_ORDER"); [done|].
    destruct (String.eqb_spec (WebSocketPayload.Type_ msg) "CANCEL_ORDER"); [done|].
    destruct (String.eqb_spec (WebSocketPayload.Type_ msg) "NEW_TRADE"); [done|].
    destruct err; rewrite !filter_effect_app; cbn; by rewrite ?app_nil_r.
Qed.

(** C8.  [handleNewTrade] sends the payload on the channel registered under
    the hash the payload carries when the hub has one, and does nothing when
    it has none. *)
Theorem C8_handleNewTrade (msg : WebSocketPayload.t Data) (conn : Conn)
    (h : list (Event Data)) :
  let hash := Env.HexToHash env (WebSocketPayload.Hash msg) in
  (forall ch, Env.ws_GetOrderChannel env hash h = Some ch ->
     handleNewTrade env msg conn h = h ++ [chan_send ch msg]) /\
  (Env.ws_GetOrderChannel env hash h = None ->
     handleNewTrade env msg conn h = h).
Proof.
  cbv zeta. unfold handleNewTrade. split.
  - by intros ch ->.
  - by intros ->.
Qed.

End OrderEndpoint.

(** C1 (as stated) fails: the order of this payload carries the hash 0xdead,
    which is not the hash of its fields; no ERROR is sent and the order
    service accepts the order. *)
Lemma C1_counterexample :
  types.Order.Hash
    (fst (Instances.Order_UnmarshalJSON
            (types.WebSocketPayload.Data_ Instances.forged_order) types.Order.zero))
    <> Instances.forged_order_hash /\
  List.filter endpoints.is_error_message Instances.after_forged_order = [] /\
  exists o, List.filter endpoints.is_NewOrder Instances.after_forged_order
            = [endpoints.orderService_NewOrder o None].
Proof.
  split; [|split].
  - vm_compute. discriminate.
  - vm_compute. reflexivity.
  - eexists. vm_compute. reflexivity.
Qed.

Lemma C1_hash_is_replaced_witness :
  exists o1, List.filter endpoints.is_NewOrder Instances.after_forged_order
             = [endpoints.orderService_NewOrder o1 None] /\
             types.Order.Hash o1 = Instances.forged_order_hash.
Proof.
  pose proof (C1_hash_is_replaced Instances.env Instances.forged_order 5%N []
                (types.WebSocketPayload.Data_ Instances.forged_order)
                (fst (Instances.Order_UnmarshalJSON
                        (types.WebSocketPayload.Data_ Instances.forged_order)
                        types.Order.zero))
                eq_refl eq_refl) as H.
  cbv zeta in H. eexists. unfold Instances.after_forged_order. rewrite H.
  split; vm_compute; reflexivity.
Defined.

Lemma C2_malformed_cancel_reaches_service_witness :
  endpoints.ws_SendOrderErrorMessage 5%N Instances.unexpected (Some 0%N)
    ∈ endpoints.handleCancelOrder Instances.env Instances.malformed_cancel 5%N [] /\
  exists err,
    endpoints.orderService_CancelOrder types.OrderCancel.zero err
      ∈ endpoints.handleCancelOrder Instances.env Instances.malformed_cancel 5%N [].
Proof.
  exact (C2_malformed_cancel_reaches_service Instances.env Instances.malformed_cancel
           5%N [] [42%N] None types.OrderCancel.zero Instances.unexpected
           eq_refl eq_refl).
Defined.

Lemma C7_dispatch_witness :
  endpoints.ws Instances.env [4; 0; 7]%N 5%N []
  = [endpoints.log_Print "Response with error"] /\
  List.filter endpoints.is_effect (endpoints.ws Instances.env [4; 0; 7]%N 5%N []) = [].
Proof.
  destruct (C7_dispatch Instances.env [4; 0; 7]%N 5%N []) as (_ & _ & _ & H).
  apply H; discriminate.
Defined.

Lemma C8_handleNewTrade_witness :
  endpoints.handleNewTrade Instances.env Instances.trade_signature 5%N
    Instances.after_forged_order
  = Instances.after_forged_order ++ [endpoints.chan_send 0%nat Instances.trade_signature] /\
  endpoints.handleNewTrade Instances.env Instances.stray_signature 5%N
    Instances.after_forged_order
  = Instances.after_forged_order.
Proof.
  split.
  - apply (proj1 (C8_handleNewTrade Instances.env Instances.trade_signature 5%N
                    Instances.after_forged_order)).
    vm_compute. reflexivity.
  - apply (proj2 (C8_handleNewTrade Instances.env Instances.stray_signature 5%N
                    Instances.after_forged_order)).
    vm_compute. reflexivity.
Defined.

(** ** The route [GET /orders/<address>] *)

Section Get.
Import common types endpoints Props.

Variable orderService_GetByUserAddress : Address -> list Order.t * option string.

(** X8.  [orderEndpoint.get] answers 400 "Invalid Adrress" without asking
    the service when the parameter is not accepted by [IsHexAddress].  When
    the parameter is 0x and the 40 digits of a 20-byte address, in lower,
    upper or mixed case, the service is asked for the orders of that very
    address: its orders are written, or 400 "Fetch Error" when it fails. *)
Theorem X8_get_by_address (s : string) :
  (IsHexAddress s = false ->
   get orderService_GetByUserAddress s = APIError 400 "Invalid Adrress") /\
  (forall a : Address, (a < 2 ^ 160)%N -> hex_address_of a s ->
   get orderService_GetByUserAddress s
   = match orderService_GetByUserAddress a with
     | (_, Some _) => APIError 400 "Fetch Error"
     | (orders, None) => Write orders
     end).
Proof.
  split.
  - intros H. unfold get. by rewrite H.
  - intros a Ha Hs. destruct (HexToAddress_spec a s Hs) as [H1 H2].
    unfold get. rewrite H1, H2, N.mod_small by done. cbn [negb].
    by destruct (orderService_GetByUserAddress a) as [orders [e|]].
Qed.

End Get.

Lemma X8_get_by_address_witness :
  endpoints.get (fun a => if (a =? Instances.addr1)%N then ([Instances.order1], None)
                          else ([], Some "no such user"%string))
    "0x5aAeb6053F3E94C9b9A09f33669435E7Ef1BeAed"
  = endpoints.Write [Instances.order1] /\
  endpoints.get (fun a => ([Instances.order1], None)) "0x5aAeb6"
  = endpoints.APIError 400 "Invalid Adrress".
Proof.
  split.
  - apply (proj2 (X8_get_by_address
                    (fun a => if (a =? Instances.addr1)%N then ([Instances.order1], None)
                              else ([], Some "no such user"%string))
                    "0x5aAeb6053F3E94C9b9A09f33669435E7Ef1BeAed") Instances.addr1).
    + reflexivity.
    + exact (Address_Hex_spec Instances.addr1).
  - apply (proj1 (X8_get_by_address (fun a => ([Instances.order1], None)) "0x5aAeb6")).
    reflexivity.
Defined.

(** ** The order endpoint: malformed payloads and the calls of one message *)

Section OrderEndpoint_more.
Import types endpoints Props.

Context {Data : Type} (env : Env.t Data).

(** X17.  A NEW_ORDER payload whose data cannot be marshalled, or does not
    decode to an order, ends [handleNewOrder] after one ERROR that carries
    no hash: the connection is not registered and the order service is not
    called. *)
Theorem X17_malformed_order_stops (msg : WebSocketPayload.t Data) (conn : Conn)
    (h : list (Event Data)) (e : string) :
  (exists bytes, Env.json_Marshal env (WebSocketPayload.Data_ msg) = (bytes, Some e)) \/
  (exists bytes o,
     Env.json_Marshal env (WebSocketPayload.Data_ msg) = (bytes, None) /\
     Env.Order_UnmarshalJSON env bytes Order.zero = (o, Some e)) ->
  handleNewOrder env msg conn h
  = h ++ [make_chan (length h); log_Print e; ws_SendOrderErrorMessage conn e None].
Proof.
  intros [[bytes Hm]|(bytes & o & Hm & Hu)]; unfold handleNewOrder, report.
  - rewrite Hm. by rewrite <- app_assoc.
  - rewrite Hm, Hu. by rewrite <- app_assoc.
Qed.

Lemma handleNewOrder_appends (msg : WebSocketPayload.t Data) (conn : Conn)
    (h : list (Event Data)) :
  exists k, handleNewOrder env msg conn h = h ++ k /\
            (length (List.filter is_NewOrder k) <= 1)%nat /\
            List.filter is_CancelOrder k = [] /\
            (length (List.filter is_error_message k) <= 1)%nat.
Proof.
  unfold handleNewOrder, report.
  destruct (Env.json_Marshal env _) as [bytes [e|]].
  { eexists. rewrite <- app_assoc. split; [reflexivity|]. cbn. repeat split; lia. }
  destruct (Env.Order_UnmarshalJSON env bytes _) as [o [e|]].
  { eexists. rewrite <- app_assoc. split; [reflexivity|]. cbn. repeat split; lia. }
  destruct (Env.NewOrder env _ _) as [o' [e|]].
  - eexists. rewrite <- !app_assoc. split; [reflexivity|]. cbn. repeat split; lia.
  - eexists. rewrite <- !app_assoc. split; [reflexivity|]. cbn. repeat split; lia.
Qed.

Lemma handleCancelOrder_appends (p : WebSocketPayload.t Data) (conn : Conn)
    (h : list (Event Data)) :
  exists k, handleCancelOrder env p conn h = h ++ k /\
            List.filter is_NewOrder k = [] /\
            length (List.filter is_CancelOrder k) = 1%nat /\
            (length (List.filter is_error_message k) <= 2)%nat.
Proof.
  unfold handleCancelOrder, report.
  destruct (Env.json_Marshal env _) as [bytes e0].
  destruct (Env.OrderCancel_UnmarshalJSON env bytes _) as [oc [e|]];
    destruct (Env.CancelOrder env _ _) as [oc' [e'|]];
    eexists; rewrite <- !app_assoc; (split; [reflexivity|]); cbn; repeat split; lia.
Qed.

Lemma handleNewTrade_appends (msg : WebSocketPayload.t Data) (conn : Conn)
    (h : list (Event Data)) :
  exists k, handleNewTrade env msg conn h = h ++ k /\
            List.filter is_NewOrder k = [] /\
            List.filter is_CancelOrder k = [] /\
            List.filter is_error_message k = [].
Proof.
  unfold handleNewTrade.
  destruct (Env.ws_GetOrderChannel env _ h) as [ch|].
  - eexists. split; [reflexivity|]. by cbn.
  - exists []. by rewrite app_nil_r.
Qed.

(** X18.  One message on the orders channel never rewrites the history, and
    it leads to at most one call of the order service and at most two
    ERROR messages to the client, whatever the codec, the hub and the
    service answer. *)
Theorem X18_one_message_one_call (input : Data) (conn : Conn) (h : list (Event Data)) :
  exists k, ws env input conn h = h ++ k /\
            (service_calls k <= 1)%nat /\
            (length (List.filter is_error_message k) <= 2)%nat.
Proof.
  unfold ws, service_calls.
  destruct (Env.json_Marshal env input) as [bytes e0].
  destruct (Env.WebSocketPayload_Unmarshal env bytes) as [msg err].
  set (h0 := match err with Some e => h ++ [log_Print e] | None => h end).
  assert (exists pre, h0 = h ++ pre /\ List.filter is_NewOrder pre = [] /\
                      List.filter is_CancelOrder pre = [] /\
                      List.filter is_error_message pre = [])
    as (pre & Hh0 & Hp1 & Hp2 & Hp3).
  { subst h0. destruct err as [e|].
    - by eexists.
    - exists []. by rewrite app_nil_r. }
  clearbody h0.
  assert (forall k, (exists k', k = pre ++ k' /\
              (length (List.filter is_NewOrder k')
               + length (List.filter is_CancelOrder k') <= 1)%nat /\
              (length (List.filter is_error_message k') <= 2)%nat) ->
            (length (List.filter is_NewOrder k)
             + length (List.filter is_CancelOrder k) <= 1)%nat /\
            (length (List.filter is_error_message k) <= 2)%nat) as Hsum.
  { intros k (k' & -> & H1 & H2). rewrite !List.filter_app, Hp1, Hp2, Hp3. by cbn. }
  destruct (String.eqb _ "NEW_ORDER").
  { destruct (handleNewOrder_appends msg conn h0) as (k & -> & H1 & H2 & H3).
    exists (pre ++ k). rewrite Hh0, <- app_assoc. split; [done|].
    apply Hsum. exists k. rewrite H2. cbn. repeat split; lia. }
  destruct (String.eqb _ "CANCEL_ORDER").
  { destruct (handleCancelOrder_appends msg conn h0) as (k & -> & H1 & H2 & H3).
    exists (pre ++ k). rewrite Hh0, <- app_assoc. split; [done|].
    apply Hsum. exists k. rewrite H1, H2. cbn. repeat split; lia. }
  destruct (String.eqb _ "NEW_TRADE").
  { destruct (handleNewTrade_appends msg conn h0) as (k & -> & H1 & H2 & H3).
    exists (pre ++ k). rewrite Hh0, <- app_assoc. split; [done|].
    apply Hsum. exists k. rewrite H1, H2, H3. cbn. repeat split; lia. }
  exists (pre ++ [log_Print "Response with error"]).
  rewrite Hh0, <- app_assoc. split; [done|].
  apply Hsum. eexists. split; [reflexivity|]. cbn. lia.
Qed.

(** X19.  Whatever the payload, [handleCancelOrder] registers the
    connection under the hash of the cancel request, as an active
    connection without a read channel, and then calls [CancelOrder], once,
    with the request as [UnmarshalJSON] left it; the error of
    [json.Marshal] is not looked at. *)
Theorem X19_cancel_always_reaches_service (p : WebSocketPayload.t Data) (conn : Conn)
    (h : list (Event Data)) :
  let bytes := fst (Env.json_Marshal env (WebSocketPayload.Data_ p)) in
  let oc := fst (Env.OrderCancel_UnmarshalJSON env bytes OrderCancel.zero) in
  exists err,
    List.filter is_request (handleCancelOrder env p conn h)
    = List.filter is_request h ++
      [ws_RegisterOrderConnection (OrderCancel.Hash oc) (OrderConnection.mk conn None true);
       ws_RegisterConnectionUnsubscribeHandler conn (OrderCancel.Hash oc);
       orderService_CancelOrder oc err].
Proof.
  cbv zeta. unfold handleCancelOrder, report.
  destruct (Env.json_Marshal env _) as [bytes e0]. cbn [fst].
  destruct (Env.OrderCancel_UnmarshalJSON env bytes _) as [oc [e|]]; cbn [fst];
    destruct (Env.CancelOrder env _ _) as [oc' [e'|]];
    eexists; rewrite <- !app_assoc, !List.filter_app; cbn; reflexivity.
Qed.

End OrderEndpoint_more.

Lemma X17_malformed_order_stops_witness :
  endpoints.handleNewOrder Instances.env
    (types.WebSocketPayload.mk "NEW_ORDER" "0xdead" [0xdead; 1]%N) 5%N []
  = [endpoints.make_chan 0%nat; endpoints.log_Print Instances.unexpected;
     endpoints.ws_SendOrderErrorMessage 5%N Instances.unexpected None].
Proof.
  apply (X17_malformed_order_stops Instances.env
           (types.WebSocketPayload.mk "NEW_ORDER" "0xdead" [0xdead; 1]%N) 5%N []
           Instances.unexpected).
  right. exists [0xdead; 1]%N, types.Order.zero. split; reflexivity.
Defined.

(** ** The test client *)

Section MockClient.
Import types mocks.

Variable Data : Type.
Variable Trade : Type.
Variable json_Marshal : Data -> list N * option string.
Variable Order_UnmarshalJSON : list N -> Order.t -> Order.t * option string.

Lemma decode_and_log_sends (messageType : string) (p : WebSocketPayload.t Data)
    (h : list (ClientEvent Trade)) :
  List.filter is_Logs_send
    (decode_and_log Data Trade json_Marshal Order_UnmarshalJSON messageType p h)
  = List.filter is_Logs_send h ++
    [Logs_send
       (mkLog messageType
          (Some (fst (Order_UnmarshalJSON
                        (fst (json_Marshal (WebSocketPayload.Data_ p))) Order.zero)))
          None 0%N 0)].
Proof.
  unfold decode_and_log.
  destruct (json_Marshal _) as [bytes [e|]]; cbn [fst];
    destruct (Order_UnmarshalJSON bytes _) as [o [e'|]]; cbn [fst];
    rewrite !List.filter_app; cbn; by rewrite ?app_nil_r.
Qed.

(** X25.  For one response the test client puts a message on its [Logs]
    channel exactly when the response is an ORDER_ADDED or ORDER_CANCELLED
    payload of the orders channel: one message, of that type, with the
    order as [UnmarshalJSON] left it, also when the decoding failed.  For
    every other payload and channel nothing is sent. *)
Theorem X25_client_log (channel : string) (p : WebSocketPayload.t Data)
    (h : list (ClientEvent Trade)) :
  let o := fst (Order_UnmarshalJSON
                  (fst (json_Marshal (WebSocketPayload.Data_ p))) Order.zero) in
  let type := WebSocketPayload.Type_ p in
  List.filter is_Logs_send
    (handleResponse Data Trade json_Marshal Order_UnmarshalJSON channel p h)
  = List.filter is_Logs_send h ++
    (if String.eqb channel "orders" &&
        (String.eqb type "ORDER_ADDED" || String.eqb type "ORDER_CANCELLED")
     then [Logs_send (mkLog type (Some o) None 0%N 0)]
     else []).
Proof.
  cbv zeta. unfold handleResponse.
  destruct (String.eqb channel "orders"); cbn [andb].
  - unfold handleOrderChannelMessagesIn.
    destruct (String.eqb_spec (WebSocketPayload.Type_ p) "ORDER_ADDED") as [->|?].
    { apply decode_and_log_sends. }
    destruct (String.eqb_spec (WebSocketPayload.Type_ p) "ORDER_CANCELLED") as [->|?].
    { apply decode_and_log_sends. }
    cbn [orb].
    repeat match goal with
           | |- context [String.eqb ?a ?s] => destruct (String.eqb a s)
           end; by rewrite app_nil_r.
  - unfold handleOrderBookChannelMessages, handleTradeChannelMessages,
      handleOHLCVMessages.
    repeat match goal with
           | |- context [String.eqb ?a ?s] => destruct (String.eqb a s)
           end; by rewrite app_nil_r.
Qed.

End MockClient.
